(** * AI-Coach prototype: user memory and safety monitor

    A shallow embedding of [coach/memory.py], [coach/safety.py], the two
    extractors of [coach/sports.py] they call, and the history cap of
    [config.py], followed by the properties of the specification.

    Conventions of the embedding.
    - A Python [str] is a [string]; the case, whitespace, digit and word
      classes are those of ASCII text (codes 128..255 are ordinary
      punctuation).  On such text [lower] keeps the length, so an index
      into [message_lower] is an index into [message], as the code assumes.
    - A Python [int] is a [Z]; a Python [float] is an exact rational [Q]
      (rounding, infinities and NaN are outside the embedding).
    - A [dict] read by key is a [gmap]; a list is a [list].
    - [time.time()] reads a [Clock]: its n-th call returns
      [time_source n], and the number of calls made so far is threaded
      next to the object state by the monad [M]. *)

From Stdlib Require Import ZArith QArith Qminmax Lqa Lia Bool List Ascii String DecimalString.
From stdpp Require Import base option list gmap strings.

Open Scope string_scope.
Open Scope list_scope.
Open Scope Z_scope.

(** ** Python strings *)
Module PyStr.

Definition code (c : ascii) : N := N_of_ascii c.

(** [str.isspace] on one ASCII character. *)
Definition is_space (c : ascii) : bool :=
  let n := code c in
  ((9 <=? n) && (n <=? 13) || (28 <=? n) && (n <=? 32))%N.

(** [\d] *)
Definition is_digit (c : ascii) : bool :=
  let n := code c in ((48 <=? n) && (n <=? 57))%N.

Definition is_upper (c : ascii) : bool :=
  let n := code c in ((65 <=? n) && (n <=? 90))%N.

Definition is_lower (c : ascii) : bool :=
  let n := code c in ((97 <=? n) && (n <=? 122))%N.

(** [\w] *)
Definition is_word (c : ascii) : bool :=
  is_digit c || is_upper c || is_lower c || (code c =? 95)%N.

Definition lower_char (c : ascii) : ascii :=
  if is_upper c then ascii_of_N (code c + 32) else c.

(** [s.lower()] *)
Fixpoint lower (s : string) : string :=
  match s with
  | EmptyString => EmptyString
  | String c s' => String (lower_char c) (lower s')
  end.

Definition len (s : string) : Z := Z.of_nat (String.length s).

(** [s.startswith(p)] *)
Fixpoint startswith (p s : string) : bool :=
  match p, s with
  | EmptyString, _ => true
  | String a p', String b s' => if Ascii.eqb a b then startswith p' s' else false
  | String _ _, EmptyString => false
  end.

(** [sub in s] *)
Fixpoint contains (sub s : string) : bool :=
  startswith sub s ||
  match s with
  | EmptyString => false
  | String _ s' => contains sub s'
  end.

(** Index of the first occurrence of [sub] in [s]. *)
Fixpoint find_first (sub s : string) : option nat :=
  if startswith sub s then Some 0%nat
  else match s with
       | EmptyString => None
       | String _ s' => S <$> find_first sub s'
       end.

(** Index of the last occurrence of [sub] in [s]. *)
Fixpoint find_last (sub s : string) : option nat :=
  match s with
  | EmptyString => if startswith sub s then Some 0%nat else None
  | String _ s' =>
      match find_last sub s' with
      | Some i => Some (S i)
      | None => if startswith sub s then Some 0%nat else None
      end
  end.

(** A slice bound, as Python normalises it against a length: a negative
    bound counts from the end, and the result is clipped to [0, n]. *)
Definition clip (n : nat) (i : Z) : nat :=
  if i <? 0 then Z.to_nat (Z.max 0 (Z.of_nat n + i))
  else Nat.min (Z.to_nat i) n.

(** [s[a:b]] *)
Definition slice (s : string) (a b : Z) : string :=
  let n := String.length s in
  let lo := clip n a in
  let hi := clip n b in
  substring lo (hi - lo) s.

(** [s[a:]] *)
Definition slice_from (s : string) (a : Z) : string :=
  slice s a (len s).

(** [s.find(sub, start)], [-1] when absent. *)
Definition find (s sub : string) (start : Z) : Z :=
  if len s <? start then -1
  else
    let lo := clip (String.length s) start in
    match find_first sub (slice_from s (Z.of_nat lo)) with
    | Some i => Z.of_nat (lo + i)
    | None => -1
    end.

(** [s.rfind(sub, start, stop)], [-1] when absent. *)
Definition rfind (s sub : string) (start stop : Z) : Z :=
  if len s <? start then -1
  else
    let lo := clip (String.length s) start in
    match find_last sub (slice s (Z.of_nat lo) stop) with
    | Some i => Z.of_nat (lo + i)
    | None => -1
    end.

Fixpoint lstrip (s : string) : string :=
  match s with
  | EmptyString => EmptyString
  | String c s' => if is_space c then lstrip s' else s
  end.

Fixpoint rstrip (s : string) : string :=
  match s with
  | EmptyString => EmptyString
  | String c s' =>
      match rstrip s' with
      | EmptyString => if is_space c then EmptyString else String c EmptyString
      | r => String c r
      end
  end.

(** [s.strip()] *)
Definition strip (s : string) : string := rstrip (lstrip s).

(** [s.split()]: the maximal runs of non-whitespace characters. *)
Fixpoint split (s : string) : list string :=
  match s with
  | EmptyString => []
  | String c s' =>
      if is_space c then split s'
      else match s' with
           | EmptyString => [String c EmptyString]
           | String d _ =>
               if is_space d then String c EmptyString :: split s'
               else match split s' with
                    | w :: ws => String c w :: ws
                    | [] => [String c EmptyString]
                    end
           end
  end.

(** Truth value of a string: non-empty. *)
Definition truthy (s : string) : bool :=
  match s with EmptyString => false | _ => true end.

(** Some character of [s] is not whitespace. *)
Fixpoint has_word (s : string) : bool :=
  match s with
  | EmptyString => false
  | String c s' => negb (is_space c) || has_word s'
  end.

(** [int(s)] for a run of ASCII digits. *)
Definition digit_value (c : ascii) : Z := Z.of_N (code c) - 48.

Fixpoint int_acc (acc : Z) (s : string) : Z :=
  match s with
  | EmptyString => acc
  | String c s' => int_acc (10 * acc + digit_value c) s'
  end.

Definition int (s : string) : Z := int_acc 0 s.

(** [str(n)] for an integer. *)
Definition str_of_int (n : Z) : string := NilZero.string_of_int (Z.to_int n).

(** [float(s)] for [digits] or [digits.digits]. *)
Definition float (s : string) : Q :=
  match find_first "." s with
  | None => inject_Z (int s)
  | Some i =>
      let whole := substring 0 i s in
      let frac := substring (S i) (String.length s - S i) s in
      (inject_Z (int whole) + inject_Z (int frac) / inject_Z (10 ^ Z.of_nat (String.length frac)))%Q
  end.

(** [int(x)] for a float: truncation towards zero. *)
Definition int_of_float (x : Q) : Z := Z.quot (Qnum x) (Z.pos (Qden x)).

End PyStr.

(** [l[a:]] on a list. *)
Definition list_slice_from {A} (l : list A) (a : Z) : list A :=
  drop (PyStr.clip (length l) a) l.

(** ** The regular expressions of the code

    A backtracking matcher for the fragment of Python's [re] the patterns
    use: literals, greedy [c+] and [c*] over a character class, sequence,
    ordered alternation, greedy [?], capturing groups and [\b]. *)
Module Re.
Import PyStr.

Inductive regex : Type :=
| Lit (s : string)
| Plus (cls : ascii -> bool)
| Star (cls : ascii -> bool)
| Seq (r1 r2 : regex)
| Alt (r1 r2 : regex)
| Opt (r : regex)
| Group (n : nat) (r : regex)
| WordB.

(** Position in the subject: the character just before, and what is ahead. *)
Record cursor := { before : option ascii; ahead : string }.

(** Captured groups, most recent first. *)
Definition groups := list (nat * string).

Fixpoint group (n : nat) (g : groups) : option string :=
  match g with
  | [] => None
  | (m, s) :: g' => if Nat.eqb m n then Some s else group n g'
  end.

Definition same_char (icase : bool) (a b : ascii) : bool :=
  if icase then Ascii.eqb (lower_char a) (lower_char b) else Ascii.eqb a b.

(** Consume the literal [p] at the cursor. *)
Fixpoint eat (icase : bool) (p : string) (cur : cursor) : option cursor :=
  match p with
  | EmptyString => Some cur
  | String a p' =>
      match ahead cur with
      | String b s' =>
          if same_char icase a b then eat icase p' {| before := Some b; ahead := s' |}
          else None
      | EmptyString => None
      end
  end.

(** Length of the longest prefix of [s] inside the class. *)
Fixpoint run (cls : ascii -> bool) (s : string) : nat :=
  match s with
  | String c s' => if cls c then S (run cls s') else 0%nat
  | EmptyString => 0%nat
  end.

Fixpoint advance (n : nat) (cur : cursor) : cursor :=
  match n with
  | O => cur
  | S n' =>
      match ahead cur with
      | String c s' => advance n' {| before := Some c; ahead := s' |}
      | EmptyString => cur
      end
  end.

(** Greedy choice of a repetition count: [lo + extra] first, then down to [lo]. *)
Fixpoint greedy {R} (lo extra : nat) (f : nat -> option R) : option R :=
  match f (lo + extra)%nat with
  | Some r => Some r
  | None => match extra with
            | O => None
            | S e => greedy lo e f
            end
  end.

Definition at_boundary (cur : cursor) : bool :=
  xorb (match before cur with Some c => is_word c | None => false end)
       (match ahead cur with String c _ => is_word c | EmptyString => false end).

(** Text between two cursors of the same subject. *)
Definition consumed (c1 c2 : cursor) : string :=
  substring 0 (String.length (ahead c1) - String.length (ahead c2)) (ahead c1).

Fixpoint rmatch {R} (icase : bool) (r : regex) (cur : cursor) (g : groups)
    (k : cursor -> groups -> option R) : option R :=
  match r with
  | Lit s => match eat icase s cur with Some cur' => k cur' g | None => None end
  | Plus cls =>
      match run cls (ahead cur) with
      | O => None
      | S extra => greedy 1 extra (fun n => k (advance n cur) g)
      end
  | Star cls => greedy 0 (run cls (ahead cur)) (fun n => k (advance n cur) g)
  | Seq r1 r2 => rmatch icase r1 cur g (fun cur' g' => rmatch icase r2 cur' g' k)
  | Alt r1 r2 =>
      match rmatch icase r1 cur g k with
      | Some x => Some x
      | None => rmatch icase r2 cur g k
      end
  | Opt r' =>
      match rmatch icase r' cur g k with
      | Some x => Some x
      | None => k cur g
      end
  | Group n r' => rmatch icase r' cur g (fun cur' g' => k cur' ((n, consumed cur cur') :: g'))
  | WordB => if at_boundary cur then k cur g else None
  end.

Definition match_here (icase : bool) (r : regex) (cur : cursor) : option groups :=
  rmatch icase r cur [] (fun _ g => Some g).

Fixpoint search_from (icase : bool) (r : regex) (prev : option ascii) (s : string) : option groups :=
  match match_here icase r {| before := prev; ahead := s |} with
  | Some g => Some g
  | None =>
      match s with
      | EmptyString => None
      | String c s' => search_from icase r (Some c) s'
      end
  end.

(** [re.search(r, s)]: the groups of the leftmost match. *)
Definition search (r : regex) (s : string) : option groups :=
  search_from false r None s.

(** [re.search(r, s, re.IGNORECASE)] *)
Definition search_ignorecase (r : regex) (s : string) : option groups :=
  search_from true r None s.

(** [(?:a|b|...)] *)
Fixpoint alts (l : list string) : regex :=
  match l with
  | [] => Lit "" (* not used with an empty list *)
  | [s] => Lit s
  | s :: l' => Alt (Lit s) (alts l')
  end.

Fixpoint seq (l : list regex) : regex :=
  match l with
  | [] => Lit ""
  | [r] => r
  | r :: l' => Seq r (seq l')
  end.

Definition digits : regex := Plus is_digit.

End Re.

(** ** Effects: object state and the wall clock *)

(** The wall clock: [time_source n] is what the n-th call of [time.time()]
    returns, [reads] counts the calls made so far. *)
Record Clock := { time_source : nat -> Q; reads : nat }.

Definition M (St A : Type) : Type := St -> Clock -> A * St * Clock.

Definition ret {St A} (a : A) : M St A := fun s c => (a, s, c).

Definition bind {St A B} (m : M St A) (f : A -> M St B) : M St B :=
  fun s c => let '(a, s', c') := m s c in f a s' c'.

Notation "x <- c1 ;; c2" := (bind c1 (fun x => c2))
  (at level 100, c1 at next level, right associativity).
Notation "c1 ;;; c2" := (bind c1 (fun _ => c2))
  (at level 100, right associativity).

Definition get {St} : M St St := fun s c => (s, s, c).
Definition modify {St} (f : St -> St) : M St unit := fun s c => (tt, f s, c).

(** [time.time()] *)
Definition time_time {St} : M St Q :=
  fun s c => (time_source c (reads c), s,
              {| time_source := time_source c; reads := S (reads c) |}).

(** Run a computation on a part [St] of the state [T]. *)
Definition zoom {St T A} (proj : T -> St) (inj : St -> T -> T) (m : M St A) : M T A :=
  fun t c => let '(a, s', c') := m (proj t) c in (a, inj s' t, c').

(** [for x in l: body(x)] *)
Fixpoint for_each {St A} (l : list A) (body : A -> M St unit) : M St unit :=
  match l with
  | [] => ret tt
  | x :: l' => body x ;;; for_each l' body
  end.

(** Final state and clock of a computation. *)
Definition exec {St A} (m : M St A) (s : St) (c : Clock) : St * Clock :=
  let '(_, s', c') := m s c in (s', c').

Definition Qgtb (x y : Q) : bool := negb (Qle_bool x y).
Definition Qltb (x y : Q) : bool := negb (Qle_bool y x).

(** [sum(1 for w in words if w in message)] *)
Definition count_in (words : list string) (message : string) : Z :=
  Z.of_nat (length (List.filter (fun w => PyStr.contains w message) words)).

(** [any(w in message for w in words)] *)
Definition any_in (words : list string) (message : string) : bool :=
  existsb (fun w => PyStr.contains w message) words.

(** [sum(l)] of numbers. *)
Definition sum (l : list Q) : Q := fold_left Qplus l 0%Q.

(** ** The user profile (the dict built in [UserMemory.__init__]) *)
Module Profile.

Record Insight := { insight_content : string; insight_timestamp : Q }.

(** An alert as flattened into [user_profile["safety_alerts"]]. *)
Record StoredAlert := {
  stored_category : string;
  stored_level : string;
  stored_message : string;
  stored_timestamp : Q;
  stored_recommended_action : string;
  stored_escalation_required : bool }.

Record UserProfile := {
  goals : list string;
  preferences : gmap string (list string);
  progress : gmap string Q;
  insights : list Insight;
  performance_metrics : gmap string Q;
  mental_state : gmap string Z;
  safety_alerts : list StoredAlert;
  safety_recommendations : list string }.

Definition empty_profile : UserProfile :=
  {| goals := []; preferences := ∅; progress := ∅; insights := [];
     performance_metrics := ∅; mental_state := ∅; safety_alerts := [];
     safety_recommendations := [] |}.

Definition set_goals (v : list string) (p : UserProfile) : UserProfile :=
  {| goals := v; preferences := preferences p; progress := progress p;
     insights := insights p; performance_metrics := performance_metrics p;
     mental_state := mental_state p; safety_alerts := safety_alerts p;
     safety_recommendations := safety_recommendations p |}.

Definition set_preferences (v : gmap string (list string)) (p : UserProfile) : UserProfile :=
  {| goals := goals p; preferences := v; progress := progress p;
     insights := insights p; performance_metrics := performance_metrics p;
     mental_state := mental_state p; safety_alerts := safety_alerts p;
     safety_recommendations := safety_recommendations p |}.

Definition set_progress (v : gmap string Q) (p : UserProfile) : UserProfile :=
  {| goals := goals p; preferences := preferences p; progress := v;
     insights := insights p; performance_metrics := performance_metrics p;
     mental_state := mental_state p; safety_alerts := safety_alerts p;
     safety_recommendations := safety_recommendations p |}.

Definition set_insights (v : list Insight) (p : UserProfile) : UserProfile :=
  {| goals := goals p; preferences := preferences p; progress := progress p;
     insights := v; performance_metrics := performance_metrics p;
     mental_state := mental_state p; safety_alerts := safety_alerts p;
     safety_recommendations := safety_recommendations p |}.

Definition set_performance_metrics (v : gmap string Q) (p : UserProfile) : UserProfile :=
  {| goals := goals p; preferences := preferences p; progress := progress p;
     insights := insights p; performance_metrics := v;
     mental_state := mental_state p; safety_alerts := safety_alerts p;
     safety_recommendations := safety_recommendations p |}.

Definition set_mental_state (v : gmap string Z) (p : UserProfile) : UserProfile :=
  {| goals := goals p; preferences := preferences p; progress := progress p;
     insights := insights p; performance_metrics := performance_metrics p;
     mental_state := v; safety_alerts := safety_alerts p;
     safety_recommendations := safety_recommendations p |}.

Definition set_safety_alerts (v : list StoredAlert) (p : UserProfile) : UserProfile :=
  {| goals := goals p; preferences := preferences p; progress := progress p;
     insights := insights p; performance_metrics := performance_metrics p;
     mental_state := mental_state p; safety_alerts := v;
     safety_recommendations := safety_recommendations p |}.

Definition set_safety_recommendations (v : list string) (p : UserProfile) : UserProfile :=
  {| goals := goals p; preferences := preferences p; progress := progress p;
     insights := insights p; performance_metrics := performance_metrics p;
     mental_state := mental_state p; safety_alerts := safety_alerts p;
     safety_recommendations := v |}.

End Profile.

(** ** coach/sports.py: the two extractors the memory calls *)
Module Sports.
Import PyStr Re.

Definition plural (s : string) : regex := Seq (Lit s) (Opt (Lit "s")).

(** [(?:scored|made|got)\s+(\d+)\s+(?:goals?|points?|runs?|baskets?)] *)
Definition score_pattern : regex :=
  seq [alts ["scored"; "made"; "got"]; Plus is_space; Group 1 digits; Plus is_space;
       Alt (plural "goal") (Alt (plural "point") (Alt (plural "run") (plural "basket")))].

(** [(?:ran|swam|cycled|covered)\s+(\d+(?:\.\d+)?)\s+(?:km|kilometers|miles|meters|m)] *)
Definition distance_pattern : regex :=
  seq [alts ["ran"; "swam"; "cycled"; "covered"]; Plus is_space;
       Group 1 (Seq digits (Opt (Seq (Lit ".") digits))); Plus is_space;
       alts ["km"; "kilometers"; "miles"; "meters"; "m"]].

(** [(?:finished in|time of|took me)\s+(\d+)(?::(\d+))?(?::(\d+))?\s*(?:hours?|hrs?|minutes?|mins?|seconds?|secs?)?] *)
Definition time_pattern : regex :=
  seq [alts ["finished in"; "time of"; "took me"]; Plus is_space; Group 1 digits;
       Opt (Seq (Lit ":") (Group 2 digits)); Opt (Seq (Lit ":") (Group 3 digits));
       Star is_space;
       Opt (Alt (plural "hour") (Alt (plural "hr") (Alt (plural "minute")
           (Alt (plural "min") (Alt (plural "second") (plural "sec"))))))].

(** [int(m.group(n)) if m.group(n) else 0] *)
Definition int_or_zero (n : nat) (m : groups) : Z :=
  match group n m with
  | Some s => if truthy s then int s else 0
  | None => 0
  end.

Definition group_truthy (n : nat) (m : groups) : bool :=
  match group n m with Some s => truthy s | None => false end.

Definition extract_performance_metrics (message : string) : gmap string Q :=
  let metrics : gmap string Q := ∅ in
  let metrics :=
    match search score_pattern (lower message) with
    | Some score_match => <["score" := inject_Z (int_or_zero 1 score_match)]> metrics
    | None => metrics
    end in
  let metrics :=
    match search distance_pattern (lower message) with
    | Some distance_match =>
        <["distance" := float (default "" (group 1 distance_match))]> metrics
    | None => metrics
    end in
  let metrics :=
    match search time_pattern (lower message) with
    | Some time_match =>
        let hours := int_or_zero 1 time_match in
        let minutes := int_or_zero 2 time_match in
        let seconds := int_or_zero 3 time_match in
        let '(hours, minutes) :=
          if negb (group_truthy 2 time_match) && negb (group_truthy 3 time_match)
          then (0, hours) else (hours, minutes) in
        let total_seconds := (hours * 3600) + (minutes * 60) + seconds in
        <["time" := inject_Z total_seconds]> metrics
    | None => metrics
    end in
  metrics.

Definition confidence_keywords : list (string * Z) :=
  [("very confident", 5); ("confident", 4); ("somewhat confident", 3);
   ("not very confident", 2); ("unconfident", 1); ("no confidence", 0)].

Definition anxiety_keywords : list (string * Z) :=
  [("extremely anxious", 5); ("very anxious", 4); ("anxious", 3);
   ("somewhat anxious", 2); ("a little anxious", 1); ("not anxious", 0);
   ("calm", 0); ("relaxed", 0)].

Definition focus_keywords : list (string * Z) :=
  [("very focused", 5); ("focused", 4); ("somewhat focused", 3);
   ("distracted", 2); ("very distracted", 1); ("cannot concentrate", 0)].

Definition motivation_keywords : list (string * Z) :=
  [("highly motivated", 5); ("motivated", 4); ("somewhat motivated", 3);
   ("not very motivated", 2); ("unmotivated", 1); ("completely unmotivated", 0)].

(** [for keyword, level in table.items(): if keyword in message_lower: ...; break] *)
Fixpoint first_keyword (table : list (string * Z)) (message_lower : string) : option Z :=
  match table with
  | [] => None
  | (keyword, level) :: rest =>
      if contains keyword message_lower then Some level
      else first_keyword rest message_lower
  end.

Definition record_level (dimension : string) (table : list (string * Z))
    (message_lower : string) (mental_state : gmap string Z) : gmap string Z :=
  match first_keyword table message_lower with
  | Some level => <[dimension := level]> mental_state
  | None => mental_state
  end.

Definition extract_mental_state (message : string) : gmap string Z :=
  let message_lower := lower message in
  let mental_state : gmap string Z := ∅ in
  let mental_state := record_level "confidence" confidence_keywords message_lower mental_state in
  let mental_state := record_level "anxiety" anxiety_keywords message_lower mental_state in
  let mental_state := record_level "focus" focus_keywords message_lower mental_state in
  let mental_state := record_level "motivation" motivation_keywords message_lower mental_state in
  mental_state.

End Sports.

(** ** coach/safety.py *)
Module Safety.
Import PyStr Re Profile.

Inductive SafetyLevel := INFO | WARNING | CRITICAL | EMERGENCY.

Inductive SafetyCategory :=
| OVERTRAINING | DATA_INCONSISTENCY | LOW_ENGAGEMENT | RESISTANCE
| CREATIVITY_MISUSE | MENTAL_HEALTH | PERFORMANCE_DROP | TEAM_CONFLICT
| REWARD_MISUSE | LANGUAGE_BARRIER | FALSE_REPORTING | BURNOUT_LAZINESS.

#[global] Instance SafetyLevel_eq_dec : EqDecision SafetyLevel.
Proof. solve_decision. Defined.

#[global] Instance SafetyCategory_eq_dec : EqDecision SafetyCategory.
Proof. solve_decision. Defined.

(** The [.value] of the enum members. *)
Definition level_value (l : SafetyLevel) : string :=
  match l with
  | INFO => "info" | WARNING => "warning"
  | CRITICAL => "critical" | EMERGENCY => "emergency"
  end.

Definition category_value (c : SafetyCategory) : string :=
  match c with
  | OVERTRAINING => "overtraining"
  | DATA_INCONSISTENCY => "data_inconsistency"
  | LOW_ENGAGEMENT => "low_engagement"
  | RESISTANCE => "resistance"
  | CREATIVITY_MISUSE => "creativity_misuse"
  | MENTAL_HEALTH => "mental_health"
  | PERFORMANCE_DROP => "performance_drop"
  | TEAM_CONFLICT => "team_conflict"
  | REWARD_MISUSE => "reward_misuse"
  | LANGUAGE_BARRIER => "language_barrier"
  | FALSE_REPORTING => "false_reporting"
  | BURNOUT_LAZINESS => "burnout_laziness"
  end.

(** The values the detectors put in an alert's [context] dict. *)
Inductive PyValue :=
| VInt (n : Z)
| VFloat (x : Q)
| VStr (s : string)
| VBool (b : bool)
| VFloats (l : list Q).

Record SafetyAlert := {
  category : SafetyCategory;
  level : SafetyLevel;
  message : string;
  timestamp : Q;
  user_id : string;
  context : list (string * PyValue);
  recommended_action : string;
  escalation_required : bool }.

(** One entry of [engagement_metrics]. *)
Record Engagement := {
  message_length : list Z;
  response_time : list Q;
  question_count : Z;
  enthusiasm_score : list Q }.

(** The mutable attributes of a [SafetyMonitor].  The thresholds and word
    lists set in [__init__] are never reassigned and are the constants
    below; [user_sessions], [performance_baselines] and
    [mental_health_indicators] stay the empty dicts of [__init__]. *)
Record SafetyMonitor := {
  alerts : list SafetyAlert;
  user_sessions : gmap string unit;
  performance_baselines : gmap string unit;
  engagement_metrics : gmap string Engagement;
  mental_health_indicators : gmap string unit }.

(** [SafetyMonitor()] *)
Definition __init__ : SafetyMonitor :=
  {| alerts := []; user_sessions := ∅; performance_baselines := ∅;
     engagement_metrics := ∅; mental_health_indicators := ∅ |}.

Definition set_alerts (v : list SafetyAlert) (m : SafetyMonitor) : SafetyMonitor :=
  {| alerts := v; user_sessions := user_sessions m;
     performance_baselines := performance_baselines m;
     engagement_metrics := engagement_metrics m;
     mental_health_indicators := mental_health_indicators m |}.

Definition set_engagement_metrics (v : gmap string Engagement) (m : SafetyMonitor) : SafetyMonitor :=
  {| alerts := alerts m; user_sessions := user_sessions m;
     performance_baselines := performance_baselines m;
     engagement_metrics := v;
     mental_health_indicators := mental_health_indicators m |}.

(** What a call of a monitor method can reach: the monitor itself and the
    profile dict it is handed by reference. *)
Record Heap := { self : SafetyMonitor; profile : UserProfile }.

Definition set_self (v : SafetyMonitor) (h : Heap) : Heap :=
  {| self := v; profile := profile h |}.

Definition fatigue_score_threshold : Q := 0.8.
Definition mental_health_risk_threshold : Q := 0.7.
Definition resistance_threshold : Q := 0.6.

Definition word_alternation (l : list string) : regex := seq [WordB; alts l; WordB].

Definition complexity_patterns : list regex :=
  [word_alternation ["utilize"; "implement"; "facilitate"; "optimize"; "leverage"];
   word_alternation ["paradigm"; "methodology"; "framework"; "infrastructure"];
   word_alternation ["consequently"; "furthermore"; "moreover"; "nevertheless"]].

Definition mental_health_red_flags : list string :=
  ["suicide"; "kill myself"; "end it all"; "not worth living";
   "hopeless"; "worthless"; "burden"; "better off dead";
   "self harm"; "cut myself"; "hurt myself"].

Definition overtraining_indicators : list string :=
  ["exhausted"; "burned out"; "overtrained"; "plateaued";
   "no progress"; "stagnant"; "regressing"; "injured";
   "pain"; "sore"; "tired"; "fatigued"; "drained"].

Definition resistance_patterns : list string :=
  ["i can't"; "impossible"; "won't work"; "tried that";
   "doesn't help"; "waste of time"; "stupid"; "pointless";
   "not for me"; "doesn't fit"; "too hard"; "too easy"].

(** [SafetyAlert(..., timestamp=time.time(), ...)] *)
Definition new_alert (category : SafetyCategory) (level : SafetyLevel) (message : string)
    (user_id : string) (context : list (string * PyValue)) (recommended_action : string)
    (escalation_required : bool) : M Heap SafetyAlert :=
  now <- time_time ;;
  ret {| category := category; level := level; message := message; timestamp := now;
         user_id := user_id; context := context;
         recommended_action := recommended_action;
         escalation_required := escalation_required |}.

(** [if cond: alerts.append(SafetyAlert(...))] *)
Definition append_if (cond : bool) (alerts : list SafetyAlert) (mk : M Heap SafetyAlert)
    : M Heap (list SafetyAlert) :=
  if cond then (a <- mk ;; ret (alerts ++ [a])) else ret alerts.

Definition QZ (n : Z) : Q := inject_Z n.

Definition _detect_overtraining (message user_id : string) : M Heap (list SafetyAlert) :=
  let alerts := [] in
  let fatigue_score :=
    (QZ (count_in overtraining_indicators message)
     / QZ (Z.of_nat (length overtraining_indicators)))%Q in
  alerts <- append_if (Qgtb fatigue_score fatigue_score_threshold) alerts
    (new_alert OVERTRAINING WARNING
       "Signs of overtraining detected. Consider rest and recovery."
       user_id [("fatigue_score", VFloat fatigue_score); ("message", VStr message)]
       "Enforce mandatory rest period and reduce training intensity" true) ;;
  alerts <- append_if (contains "training" message && contains "every day" message) alerts
    (new_alert OVERTRAINING INFO
       "Daily training without rest days detected."
       user_id [("message", VStr message)]
       "Recommend rest days and recovery protocols" false) ;;
  ret alerts.

(** [improved by (\d+)%] *)
Definition improvement_pattern : regex := seq [Lit "improved by "; Group 1 digits; Lit "%"].

Definition _detect_data_inconsistency (message user_id : string) : M Heap (list SafetyAlert) :=
  let alerts := [] in
  h <- get ;;
  let performance_metrics := performance_metrics (profile h) in
  alerts <-
    (if bool_decide (performance_metrics ≠ ∅) then
       if contains "improved by" message
          && any_in (fst <$> map_to_list performance_metrics) message then
         match search improvement_pattern message with
         | Some improvement_match =>
             let improvement := int (default "" (group 1 improvement_match)) in
             append_if (50 <? improvement) alerts
               (new_alert DATA_INCONSISTENCY WARNING
                  "Unusually high performance improvement reported. Please verify data accuracy."
                  user_id [("improvement", VInt improvement); ("message", VStr message)]
                  "Request verification and cross-check with objective measures" false)
         | None => ret alerts
         end
       else ret alerts
     else ret alerts) ;;
  alerts <- append_if (contains "but" message && (contains "good" message || contains "bad" message))
    alerts
    (new_alert DATA_INCONSISTENCY INFO
       "Conflicting statements detected in user feedback."
       user_id [("message", VStr message)]
       "Seek clarification and ask specific questions" false) ;;
  ret alerts.

Definition positive_words : list string :=
  ["excited"; "great"; "awesome"; "amazing"; "fantastic"; "love"; "enjoy"].
Definition negative_words : list string :=
  ["boring"; "hate"; "terrible"; "awful"; "disappointed"; "frustrated"].

Definition _calculate_enthusiasm_score (message : string) : Q :=
  let positive_count := count_in positive_words message in
  let negative_count := count_in negative_words message in
  let total_words := Z.of_nat (length (split message)) in
  if total_words =? 0 then 0.5%Q
  else
    let enthusiasm := (QZ (positive_count - negative_count) / QZ total_words)%Q in
    Qmax 0 (Qmin 1 (enthusiasm + 0.5)).

Definition new_engagement : Engagement :=
  {| message_length := []; response_time := []; question_count := 0;
     enthusiasm_score := [] |}.

Definition _detect_low_engagement (message user_id : string) : M Heap (list SafetyAlert) :=
  let alerts := [] in
  (* Track engagement metrics *)
  modify (fun h =>
    match engagement_metrics (self h) !! user_id with
    | Some _ => h
    | None => set_self (set_engagement_metrics
                (<[user_id := new_engagement]> (engagement_metrics (self h))) (self h)) h
    end) ;;;
  let message_length_now := Z.of_nat (length (split message)) in
  let enthusiasm_score_now := _calculate_enthusiasm_score message in
  modify (fun h =>
    set_self (set_engagement_metrics
      (alter (fun e =>
         {| message_length := message_length e ++ [message_length_now];
            response_time := response_time e;
            question_count := question_count e;
            enthusiasm_score := enthusiasm_score e ++ [enthusiasm_score_now] |})
         user_id (engagement_metrics (self h))) (self h)) h) ;;;
  alerts <- append_if (message_length_now <? 5) alerts
    (new_alert LOW_ENGAGEMENT WARNING
       "Very short response detected. User may be disengaged."
       user_id [("message_length", VInt message_length_now); ("message", VStr message)]
       "Adapt tone to be more engaging and ask open-ended questions" false) ;;
  h <- get ;;
  let recent_enthusiasm :=
    list_slice_from
      (default [] (enthusiasm_score <$> engagement_metrics (self h) !! user_id)) (-5) in
  alerts <- append_if
    ((3 <=? Z.of_nat (length recent_enthusiasm))
     && Qltb (sum recent_enthusiasm / QZ (Z.of_nat (length recent_enthusiasm))) 0.3)
    alerts
    (new_alert LOW_ENGAGEMENT WARNING
       "Declining enthusiasm detected over recent interactions."
       user_id [("enthusiasm_trend", VFloats recent_enthusiasm); ("message", VStr message)]
       "Switch to more supportive coaching style and explore motivation barriers" false) ;;
  ret alerts.

Definition _detect_resistance (message user_id : string) : M Heap (list SafetyAlert) :=
  let alerts := [] in
  let resistance_score :=
    (QZ (count_in resistance_patterns message)
     / QZ (Z.of_nat (length resistance_patterns)))%Q in
  alerts <- append_if (Qgtb resistance_score resistance_threshold) alerts
    (new_alert RESISTANCE WARNING
       "High resistance detected in user response."
       user_id [("resistance_score", VFloat resistance_score); ("message", VStr message)]
       "Provide evidence-based reasoning and address concerns directly" false) ;;
  ret alerts.

Definition dangerous_creativity : list string :=
  ["try something new"; "experiment"; "innovative"; "creative";
   "unconventional"; "different approach"; "outside the box"].

Definition _detect_creativity_misuse (message user_id : string) : M Heap (list SafetyAlert) :=
  let alerts := [] in
  let creativity_indicators := count_in dangerous_creativity message in
  alerts <-
    (if 0 <? creativity_indicators then
       if any_in ["injury"; "dangerous"; "risky"; "unsafe"] message then
         append_if true alerts
           (new_alert CREATIVITY_MISUSE CRITICAL
              "Potentially dangerous creative approach detected."
              user_id [("creativity_indicators", VInt creativity_indicators);
                       ("message", VStr message)]
              "Validate safety before encouraging creative approaches" true)
       else
         append_if true alerts
           (new_alert CREATIVITY_MISUSE INFO
              "Creative approach suggested. Validating safety."
              user_id [("creativity_indicators", VInt creativity_indicators);
                       ("message", VStr message)]
              "Ensure safety protocols are in place before encouragement" false)
     else ret alerts) ;;
  ret alerts.

Definition anxiety_indicators : list string :=
  ["anxious"; "worried"; "stressed"; "overwhelmed"; "panic"].
Definition depression_indicators : list string :=
  ["sad"; "depressed"; "hopeless"; "worthless"; "empty"].

Definition _detect_mental_health_risks (message user_id : string) : M Heap (list SafetyAlert) :=
  let alerts := [] in
  let red_flag_count := count_in mental_health_red_flags message in
  alerts <- append_if (0 <? red_flag_count) alerts
    (new_alert MENTAL_HEALTH EMERGENCY
       "Critical mental health indicators detected. Immediate escalation required."
       user_id [("red_flag_count", VInt red_flag_count); ("message", VStr message)]
       "Immediately suggest professional help and provide crisis resources" true) ;;
  let anxiety_score := count_in anxiety_indicators message in
  let depression_score := count_in depression_indicators message in
  let mental_health_risk :=
    (QZ (anxiety_score + depression_score)
     / QZ (Z.of_nat (length anxiety_indicators) + Z.of_nat (length depression_indicators)))%Q in
  alerts <- append_if (Qgtb mental_health_risk mental_health_risk_threshold) alerts
    (new_alert MENTAL_HEALTH WARNING
       "Signs of anxiety or depression detected. Suggest professional support."
       user_id [("mental_health_risk", VFloat mental_health_risk); ("message", VStr message)]
       "Gently suggest professional mental health support and reduce pressure" true) ;;
  ret alerts.

Definition _detect_performance_drop (message user_id : string) : M Heap (list SafetyAlert) :=
  let alerts := [] in
  let decline_indicators := ["worse"; "declined"; "dropped"; "regressed"; "struggling"; "failing"] in
  let injury_indicators := ["injured"; "hurt"; "pain"; "sore"; "injury"; "hurt"] in
  let has_decline := any_in decline_indicators message in
  let has_injury := any_in injury_indicators message in
  alerts <- append_if (has_decline || has_injury) alerts
    (let level := if has_injury then CRITICAL else WARNING in
     new_alert PERFORMANCE_DROP level
       "Performance decline or injury detected. Adjusting coaching intensity."
       user_id [("has_decline", VBool has_decline); ("has_injury", VBool has_injury);
                ("message", VStr message)]
       "Stop high-intensity advice and focus on recovery/support" has_injury) ;;
  ret alerts.

Definition _detect_team_conflict (message user_id : string) : M Heap (list SafetyAlert) :=
  let alerts := [] in
  let conflict_indicators := ["team"; "teammate"; "coach"; "conflict"; "argument"; "disagreement"] in
  let ego_indicators := ["better than"; "superior"; "best"; "worst"; "inferior"] in
  let has_conflict := any_in conflict_indicators message in
  let has_ego := any_in ego_indicators message in
  alerts <- append_if has_conflict alerts
    (new_alert TEAM_CONFLICT WARNING
       "Team conflict detected. Focus on fair motivation without ego inflation."
       user_id [("has_conflict", VBool has_conflict); ("has_ego", VBool has_ego);
                ("message", VStr message)]
       "Promote team unity and individual growth without comparison" false) ;;
  ret alerts.

Definition _detect_reward_misuse (message user_id : string) : M Heap (list SafetyAlert) :=
  let alerts := [] in
  let gaming_indicators := ["easy points"; "quick win"; "gaming"; "cheating"; "shortcut"] in
  let reward_focus := ["reward"; "points"; "achievement"; "badge"; "level"] in
  let has_gaming := any_in gaming_indicators message in
  let has_reward_focus := any_in reward_focus message in
  alerts <- append_if (has_gaming || (has_reward_focus && contains "easy" message)) alerts
    (new_alert REWARD_MISUSE WARNING
       "Potential reward system gaming detected."
       user_id [("has_gaming", VBool has_gaming); ("has_reward_focus", VBool has_reward_focus);
                ("message", VStr message)]
       "Adjust incentives to focus on genuine progress and effort" false) ;;
  ret alerts.

Definition _detect_language_barriers (message user_id : string) : M Heap (list SafetyAlert) :=
  let alerts := [] in
  let complexity_score :=
    Z.of_nat (length (List.filter
      (fun pattern => bool_decide (is_Some (search_ignorecase pattern message)))
      complexity_patterns)) in
  let non_native_indicators := ["i am not sure"; "i don't understand"; "confused"; "unclear"] in
  let has_confusion := any_in non_native_indicators message in
  alerts <- append_if ((2 <? complexity_score) || has_confusion) alerts
    (new_alert LANGUAGE_BARRIER INFO
       "Language barrier detected. Simplifying instructions."
       user_id [("complexity_score", VInt complexity_score);
                ("has_confusion", VBool has_confusion); ("message", VStr message)]
       "Rephrase instructions in simpler language and provide examples" false) ;;
  ret alerts.

(** [rate myself (\d+)/10], [i am (\d+)/10], [my level is (\d+)], [i would say (\d+)] *)
Definition rating_patterns : list regex :=
  [seq [Lit "rate myself "; Group 1 digits; Lit "/10"];
   seq [Lit "i am "; Group 1 digits; Lit "/10"];
   seq [Lit "my level is "; Group 1 digits];
   seq [Lit "i would say "; Group 1 digits]].

(** [sum(performance_metrics.values()) / len(performance_metrics)] *)
Definition average (metrics : gmap string Q) : Q :=
  (sum (snd <$> map_to_list metrics) / QZ (Z.of_nat (size metrics)))%Q.

(** The body of the loop over [rating_patterns]. *)
Definition check_rating (message user_id : string) (alerts : list SafetyAlert)
    (pattern : regex) : M Heap (list SafetyAlert) :=
  match search pattern message with
  | Some rating_match =>
      let self_rating := int (default "" (group 1 rating_match)) in
      h <- get ;;
      let performance_metrics := performance_metrics (profile h) in
      if bool_decide (performance_metrics ≠ ∅) then
        let avg_performance := average performance_metrics in
        append_if (Qgtb (QZ self_rating) (avg_performance * 2)) alerts
          (new_alert FALSE_REPORTING WARNING
             "Self-rating appears inflated compared to performance data."
             user_id [("self_rating", VInt self_rating);
                      ("avg_performance", VFloat avg_performance);
                      ("message", VStr message)]
             "Request objective performance measures and provide honest feedback" false)
      else ret alerts
  | None => ret alerts
  end.

(** [for pattern in patterns: ...], threading the list [alerts]. *)
Fixpoint check_ratings (message user_id : string) (alerts : list SafetyAlert)
    (patterns : list regex) : M Heap (list SafetyAlert) :=
  match patterns with
  | [] => ret alerts
  | pattern :: rest =>
      alerts <- check_rating message user_id alerts pattern ;;
      check_ratings message user_id alerts rest
  end.

Definition _detect_false_reporting (message user_id : string) : M Heap (list SafetyAlert) :=
  let alerts := [] in
  alerts <- check_ratings message user_id alerts rating_patterns ;;
  ret alerts.

Definition burnout_indicators : list string :=
  ["exhausted"; "burned out"; "overwhelmed"; "can't continue";
   "mentally drained"; "physically drained"; "no energy"].

Definition laziness_indicators : list string :=
  ["don't feel like it"; "too lazy"; "can't be bothered";
   "not motivated"; "don't want to"; "avoiding"].

Definition _detect_burnout_vs_laziness (message user_id : string) : M Heap (list SafetyAlert) :=
  let alerts := [] in
  let burnout_score := count_in burnout_indicators message in
  let laziness_score := count_in laziness_indicators message in
  alerts <-
    (if (laziness_score <? burnout_score) && (0 <? burnout_score) then
       append_if true alerts
         (new_alert BURNOUT_LAZINESS WARNING
            "Genuine burnout detected. Prioritize recovery and rest."
            user_id [("burnout_score", VInt burnout_score);
                     ("laziness_score", VInt laziness_score); ("message", VStr message)]
            "Implement recovery protocols and reduce training load" true)
     else if (burnout_score <? laziness_score) && (0 <? laziness_score) then
       append_if true alerts
         (new_alert BURNOUT_LAZINESS INFO
            "Avoidance behavior detected. Address motivation barriers."
            user_id [("burnout_score", VInt burnout_score);
                     ("laziness_score", VInt laziness_score); ("message", VStr message)]
            "Focus on motivation and discipline strategies" false)
     else ret alerts) ;;
  ret alerts.

(** The twelve detectors, in the order [monitor_message] calls them. *)
Definition detectors : list (string -> string -> M Heap (list SafetyAlert)) :=
  [_detect_overtraining; _detect_data_inconsistency; _detect_low_engagement;
   _detect_resistance; _detect_creativity_misuse; _detect_mental_health_risks;
   _detect_performance_drop; _detect_team_conflict; _detect_reward_misuse;
   _detect_language_barriers; _detect_false_reporting; _detect_burnout_vs_laziness].

(** [alerts.extend(detector(message_lower, user_id, user_profile))] for each detector. *)
Fixpoint run_detectors (ds : list (string -> string -> M Heap (list SafetyAlert)))
    (message_lower user_id : string) (alerts : list SafetyAlert) : M Heap (list SafetyAlert) :=
  match ds with
  | [] => ret alerts
  | d :: rest =>
      found <- d message_lower user_id ;;
      run_detectors rest message_lower user_id (alerts ++ found)
  end.

Definition monitor_message (message user_id : string) : M Heap (list SafetyAlert) :=
  let alerts := [] in
  let message_lower := lower message in
  alerts <- run_detectors detectors message_lower user_id alerts ;;
  (* Store alerts *)
  modify (fun h => set_self (set_alerts (Safety.alerts (self h) ++ alerts) (self h)) h) ;;;
  ret alerts.

Definition recommendation (c : SafetyCategory) : string :=
  match c with
  | OVERTRAINING => "Implement mandatory rest periods and reduce training intensity"
  | MENTAL_HEALTH => "Prioritize mental health support and consider professional referral"
  | PERFORMANCE_DROP => "Focus on recovery and reduce high-intensity coaching"
  | LOW_ENGAGEMENT => "Adapt coaching style to be more engaging and supportive"
  | RESISTANCE => "Provide evidence-based reasoning and address concerns directly"
  | CREATIVITY_MISUSE => "Validate safety before encouraging creative approaches"
  | TEAM_CONFLICT => "Promote fair motivation without ego inflation"
  | REWARD_MISUSE => "Adjust incentives to focus on genuine progress"
  | LANGUAGE_BARRIER => "Simplify language and provide clear examples"
  | FALSE_REPORTING => "Request objective measures and provide honest feedback"
  | BURNOUT_LAZINESS => "Distinguish between burnout and discipline issues"
  | DATA_INCONSISTENCY => "Verify data accuracy and seek clarification"
  end.

(** [categories[alert.category].append(alert)], creating the entry when
    absent; the dict keeps its keys in insertion order. *)
Fixpoint group_alert (alert : SafetyAlert) (categories : list (SafetyCategory * list SafetyAlert))
    : list (SafetyCategory * list SafetyAlert) :=
  match categories with
  | [] => [(category alert, [alert])]
  | (c, l) :: rest =>
      if bool_decide (c = category alert) then (c, l ++ [alert]) :: rest
      else (c, l) :: group_alert alert rest
  end.

Definition get_safety_recommendations (self : SafetyMonitor) (user_id : string) : list string :=
  let user_alerts :=
    List.filter (fun alert => String.eqb (Safety.user_id alert) user_id) (alerts self) in
  match user_alerts with
  | [] => ["No safety concerns detected. Continue normal coaching."]
  | _ =>
      let categories := fold_left (fun cats alert => group_alert alert cats) user_alerts [] in
      (fun '(c, _) => recommendation c) <$> categories
  end.

Definition get_escalation_alerts (self : SafetyMonitor) : list SafetyAlert :=
  List.filter escalation_required (alerts self).

Definition clear_user_alerts (user_id : string) : M Heap unit :=
  modify (fun h =>
    set_self (set_alerts
      (List.filter (fun alert => negb (String.eqb (Safety.user_id alert) user_id))
         (alerts (self h))) (self h)) h).

End Safety.

(** ** coach/memory.py *)
Module Memory.
Import PyStr Profile.

Record ConversationEntry := { role : string; content : string; timestamp : Q }.

Record UserMemory := {
  user_id : string;
  conversation_history : list ConversationEntry;
  user_profile : UserProfile;
  safety_monitor : Safety.SafetyMonitor }.

(** [UserMemory(user_id)] *)
Definition __init__ (user_id : string) : UserMemory :=
  {| user_id := user_id; conversation_history := []; user_profile := empty_profile;
     safety_monitor := Safety.__init__ |}.

Definition set_conversation_history (v : list ConversationEntry) (m : UserMemory) : UserMemory :=
  {| user_id := user_id m; conversation_history := v; user_profile := user_profile m;
     safety_monitor := safety_monitor m |}.

Definition set_user_profile (v : UserProfile) (m : UserMemory) : UserMemory :=
  {| user_id := user_id m; conversation_history := conversation_history m;
     user_profile := v; safety_monitor := safety_monitor m |}.

Definition set_safety_monitor (v : Safety.SafetyMonitor) (m : UserMemory) : UserMemory :=
  {| user_id := user_id m; conversation_history := conversation_history m;
     user_profile := user_profile m; safety_monitor := v |}.

(** [self.user_profile[...] = ...] and in-place updates of its entries. *)
Definition update_profile (f : UserProfile -> UserProfile) : M UserMemory unit :=
  modify (fun m => set_user_profile (f (user_profile m)) m).

Definition get_conversation_history (self : UserMemory) : list ConversationEntry :=
  conversation_history self.

Definition get_user_profile (self : UserMemory) : UserProfile :=
  user_profile self.

Definition add_insight (insight : string) : M UserMemory unit :=
  now <- time_time ;;
  update_profile (fun p =>
    set_insights (insights p ++ [{| insight_content := insight; insight_timestamp := now |}]) p).

Definition update_progress (goal : string) (progress_value : Q) : M UserMemory unit :=
  update_profile (fun p =>
    set_progress (<[goal := Qmin (Qmax progress_value 0) 1]> (progress p)) p).

(** The extracted text: from [start] to the next "." (or the end), stripped. *)
Definition sentence_after (message message_lower : string) (start : Z) : string :=
  let stop := find message_lower "." start in
  let stop := if stop =? -1 then len message_lower else stop in
  strip (slice message start stop).

Definition goal_keywords : list string :=
  ["goal"; "want to"; "achieve"; "improve"; "learn"; "aspire"; "aim"].

(** The loop over the goal keywords; it breaks at the first keyword found. *)
Fixpoint scan_goal_keywords (keywords : list string) (message message_lower : string)
    : M UserMemory unit :=
  match keywords with
  | [] => ret tt
  | keyword :: rest =>
      if contains keyword message_lower then
        let goal_start := find message_lower keyword 0 + len keyword in
        let potential_goal := sentence_after message message_lower goal_start in
        self <- get ;;
        if truthy potential_goal && bool_decide (potential_goal ∉ goals (user_profile self)) then
          update_profile (fun p => set_goals (goals p ++ [potential_goal]) p) ;;;
          update_profile (fun p => set_progress (<[potential_goal := 0%Q]> (progress p)) p) ;;;
          add_insight ("New goal identified: " +:+ potential_goal)
        else ret tt
      else scan_goal_keywords rest message message_lower
  end.

Definition _extract_goals (message message_lower : string) : M UserMemory unit :=
  scan_goal_keywords goal_keywords message message_lower.

Definition preference_phrases : list (string * string) :=
  [("i prefer", "preference"); ("i like", "like"); ("i enjoy", "enjoy");
   ("i don't like", "dislike"); ("i hate", "dislike"); ("i love", "like")].

Definition store_preference (category preference : string)
    (prefs : gmap string (list string)) : gmap string (list string) :=
  let prefs := match prefs !! category with
               | Some _ => prefs
               | None => <[category := []]> prefs
               end in
  let stored := default [] (prefs !! category) in
  if bool_decide (preference ∉ stored) then <[category := stored ++ [preference]]> prefs
  else prefs.

Definition _extract_preferences (message message_lower : string) : M UserMemory unit :=
  for_each preference_phrases (fun '(phrase, category) =>
    if contains phrase message_lower then
      let pref_start := find message_lower phrase 0 + len phrase in
      let preference := sentence_after message message_lower pref_start in
      if truthy preference then
        update_profile (fun p =>
          set_preferences (store_preference category preference (preferences p)) p)
      else ret tt
    else ret tt).

Definition positive_emotions : list string :=
  ["happy"; "excited"; "proud"; "satisfied"; "confident"; "motivated"].
Definition negative_emotions : list string :=
  ["frustrated"; "disappointed"; "anxious"; "stressed"; "overwhelmed"; "stuck"].

Definition _extract_emotions_and_insights (message message_lower : string) : M UserMemory unit :=
  let found_emotions :=
    ((fun emotion => (emotion, "positive")) <$>
       List.filter (fun emotion => contains emotion message_lower) positive_emotions)
    ++ ((fun emotion => (emotion, "negative")) <$>
       List.filter (fun emotion => contains emotion message_lower) negative_emotions) in
  for_each found_emotions (fun '(emotion, sentiment) =>
    let emotion_idx := find message_lower emotion 0 in
    let start_idx := Z.max 0 (rfind message_lower "." 0 emotion_idx + 1) in
    let end_idx := find message_lower "." emotion_idx in
    let end_idx := if end_idx =? -1 then len message_lower else end_idx in
    let context := strip (slice message start_idx end_idx) in
    let insight :=
      if String.eqb sentiment "positive"
      then "User feels " +:+ emotion +:+ " about: " +:+ context
      else "User is experiencing " +:+ emotion +:+ " regarding: " +:+ context in
    add_insight insight).

(** The body of this method is its docstring only. *)
Definition _extract_progress_updates (message message_lower : string) : M UserMemory unit :=
  ret tt.

(** [for key, value in found.items(): stored[key] = value] *)
Definition store_all {V} (found stored : gmap string V) : gmap string V :=
  fold_left (fun acc kv => <[kv.1 := kv.2]> acc) (map_to_list found) stored.

Definition _extract_performance_metrics (message message_lower : string) : M UserMemory unit :=
  let metrics := Sports.extract_performance_metrics message in
  if bool_decide (metrics ≠ ∅) then
    update_profile (fun p =>
      set_performance_metrics (store_all metrics (performance_metrics p)) p)
  else ret tt.

Definition progress_keywords : list string :=
  ["progress"; "completed"; "finished"; "accomplished"; "achieved"].

(** The loop over the goals; it breaks at the first goal that passes the test. *)
Fixpoint scan_goals (goals : list string) (contains_progress : bool) : M UserMemory unit :=
  match goals with
  | [] => ret tt
  | goal :: rest =>
      let goal_lower := lower goal in
      if existsb (fun word => contains word goal_lower) (split goal_lower) && contains_progress then
        self <- get ;;
        let current_progress := default 0%Q (progress (user_profile self) !! goal) in
        let new_progress := Qmin (current_progress + 0.2) 1 in
        update_progress goal new_progress ;;;
        let progress_percentage := int_of_float (new_progress * 100) in
        add_insight ("Progress update: " +:+ goal +:+ " is now at "
                     +:+ str_of_int progress_percentage +:+ "% completion")
      else scan_goals rest contains_progress
  end.

Definition _extract_mental_state (message message_lower : string) : M UserMemory unit :=
  let mental_state := Sports.extract_mental_state message in
  (if bool_decide (mental_state ≠ ∅) then
     update_profile (fun p =>
       set_mental_state (store_all mental_state (Profile.mental_state p)) p)
   else ret tt) ;;;
  let contains_progress := any_in progress_keywords message_lower in
  self <- get ;;
  if contains_progress && bool_decide (goals (user_profile self) ≠ []) then
    scan_goals (goals (user_profile self)) contains_progress
  else ret tt.

Definition _update_user_profile (message : string) : M UserMemory unit :=
  let message_lower := lower message in
  _extract_goals message message_lower ;;;
  _extract_preferences message message_lower ;;;
  _extract_emotions_and_insights message message_lower ;;;
  _extract_progress_updates message message_lower ;;;
  _extract_performance_metrics message message_lower ;;;
  _extract_mental_state message message_lower.

(** The monitor and the profile as the monitor sees them during a call. *)
Definition heap_of (self : UserMemory) : Safety.Heap :=
  {| Safety.self := safety_monitor self; Safety.profile := user_profile self |}.

Definition store_heap (h : Safety.Heap) (self : UserMemory) : UserMemory :=
  set_safety_monitor (Safety.self h) (set_user_profile (Safety.profile h) self).

Definition flatten (alert : Safety.SafetyAlert) : StoredAlert :=
  {| stored_category := Safety.category_value (Safety.category alert);
     stored_level := Safety.level_value (Safety.level alert);
     stored_message := Safety.message alert;
     stored_timestamp := Safety.timestamp alert;
     stored_recommended_action := Safety.recommended_action alert;
     stored_escalation_required := Safety.escalation_required alert |}.

(** The body of the loop over the alerts of a call. *)
Definition store_alert (alert : Safety.SafetyAlert) : M UserMemory unit :=
  update_profile (fun p => set_safety_alerts (safety_alerts p ++ [flatten alert]) p) ;;;
  add_insight ("Safety Alert (" +:+ Safety.level_value (Safety.level alert) +:+ "): "
               +:+ Safety.message alert).

Definition _monitor_safety (message : string) : M UserMemory unit :=
  self <- get ;;
  alerts <- zoom heap_of store_heap (Safety.monitor_message message (user_id self)) ;;
  for_each alerts store_alert ;;;
  self <- get ;;
  update_profile (set_safety_recommendations
    (Safety.get_safety_recommendations (safety_monitor self) (user_id self))) ;;;
  let escalation_alerts := Safety.get_escalation_alerts (safety_monitor self) in
  if bool_decide (escalation_alerts ≠ []) then
    add_insight "URGENT: Safety escalation required - immediate attention needed"
  else ret tt.

Section Config.

(** [config.MEMORY_MAX_ENTRIES]: [int(os.getenv("MEMORY_MAX_ENTRIES", "10"))] *)
Variable MEMORY_MAX_ENTRIES : Z.

Definition add_message (role content : string) : M UserMemory unit :=
  now <- time_time ;;
  modify (fun self =>
    set_conversation_history
      (conversation_history self
       ++ [{| role := role; content := content; timestamp := now |}]) self) ;;;
  self <- get ;;
  (if MEMORY_MAX_ENTRIES <? Z.of_nat (length (conversation_history self)) then
     modify (set_conversation_history
       (list_slice_from (conversation_history self) (- MEMORY_MAX_ENTRIES)))
   else ret tt) ;;;
  if String.eqb role "user" then
    _update_user_profile content ;;;
    _monitor_safety content
  else ret tt.

End Config.

Record SafetyStatus := {
  total_alerts : Z;
  recent_alerts : Z;
  critical_alerts : Z;
  recommendations : list string;
  status_escalation_required : bool }.

(** [[alert for alert in alerts if time.time() - alert["timestamp"] < 3600]]:
    the clock is read once per stored alert. *)
Fixpoint last_hour (alerts : list StoredAlert) : M UserMemory (list StoredAlert) :=
  match alerts with
  | [] => ret []
  | alert :: rest =>
      now <- time_time ;;
      kept <- last_hour rest ;;
      ret (if Qltb (now - stored_timestamp alert) 3600 then alert :: kept else kept)
  end.

Definition is_critical (alert : StoredAlert) : bool :=
  bool_decide (stored_level alert ∈ ["critical"; "emergency"]).

Definition get_safety_status : M UserMemory SafetyStatus :=
  self <- get ;;
  recent <- last_hour (safety_alerts (user_profile self)) ;;
  let critical := List.filter is_critical recent in
  self <- get ;;
  ret {| total_alerts := Z.of_nat (length (safety_alerts (user_profile self)));
         recent_alerts := Z.of_nat (length recent);
         critical_alerts := Z.of_nat (length critical);
         recommendations := safety_recommendations (user_profile self);
         status_escalation_required := 0 <? Z.of_nat (length critical) |}.

End Memory.

(** ** The mock responses (responses.py) and the styles (config.py) *)

Module Responses.
Import PyStr Profile.

(** An entry of [config.COACHING_STYLES]. *)
Record CoachingStyle := { description : string; prompt_template : string }.

Definition COACHING_STYLES : gmap string CoachingStyle :=
  <["supportive" :=
      {| description := "Encouraging and positive coaching style";
         prompt_template := "You are a supportive coach helping the user achieve their goals. Be encouraging and positive." |}]>
  (<["challenging" :=
      {| description := "Challenging coaching style that pushes the user";
         prompt_template := "You are a challenging coach helping the user achieve their goals. Push them to do better and question their assumptions." |}]>
  (<["analytical" :=
      {| description := "Analytical coaching style focused on data and insights";
         prompt_template := "You are an analytical coach helping the user achieve their goals. Focus on data, patterns, and insights." |}]>
   ∅)).

Definition DEFAULT_COACHING_STYLE : string := "supportive".

(** [config.COACHING_STYLES.get(coaching_style,
      config.COACHING_STYLES[config.DEFAULT_COACHING_STYLE])], the style
    [CoachingAgent.process_message] hands to the responses; [None] stands
    for the [KeyError] of the default lookup. *)
Definition style_config (coaching_style : string) : option CoachingStyle :=
  default_style ← COACHING_STYLES !! DEFAULT_COACHING_STYLE;
  Some (default default_style (COACHING_STYLES !! coaching_style)).

Definition newline : string := String (ascii_of_nat 10) EmptyString.

Definition greetings : list string := ["hello"; "hi"; "hey"; "greetings"].
Definition goal_words : list string := ["goal"; "want to"; "achieve"; "improve"].
Definition challenges : list string :=
  ["difficult"; "hard"; "challenge"; "struggle"; "problem"].
Definition progress_words : list string :=
  ["progress"; "better"; "improved"; "accomplished"].
Definition sports_terms : list string :=
  ["game"; "match"; "practice"; "training"; "player"; "team"; "coach"; "performance";
   "technique"; "strategy"; "competition"; "tournament"; "athlete"; "fitness"; "drill"].

(** [safety_status and safety_status.get('escalation_required')]; the
    status is the dict of [get_safety_status] or [None]. *)
Definition escalation_asked (safety_status : option Memory.SafetyStatus) : bool :=
  match safety_status with
  | Some status => Memory.status_escalation_required status
  | None => false
  end.

(** The emoji of the first answer is held as its UTF-8 bytes. *)
Definition _get_mock_coaching_response (message : string) (user_profile : UserProfile)
    (coaching_style : CoachingStyle) (safety_status : option Memory.SafetyStatus) : string :=
  let message_lower := lower message in
  if escalation_asked safety_status then
    "🚨 I'm concerned about your safety and well-being. Please consider speaking with a healthcare professional or mental health specialist. Your safety is my top priority."
  else if any_in greetings message_lower then
    let response := "Hello! I'm your " +:+ description coaching_style
                    +:+ ". How can I help you today?" in
    match safety_status with
    | Some status =>
        if 0 <? Memory.recent_alerts status then
          response +:+ newline +:+ newline +:+ "Note: I've detected "
          +:+ str_of_int (Memory.recent_alerts status)
          +:+ " recent safety alerts. Let's make sure we're focusing on your well-being."
        else response
    | None => response
    end
  else if any_in goal_words message_lower then
    "That's a great goal! What's your first step toward achieving it?"
  else if any_in challenges message_lower then
    if startswith "Supportive" (description coaching_style) then
      "I understand this is challenging. Remember that challenges are opportunities for growth. What specific aspect is most difficult for you?"
    else if startswith "Challenging" (description coaching_style) then
      "What's stopping you from overcoming this challenge? What would happen if you pushed through this difficulty?"
    else
      "Let's break down this challenge. What are the specific components that make it difficult, and what data do we have about each one?"
  else if any_in progress_words message_lower then
    "That's excellent progress! How does this achievement align with your larger goals?"
  else if any_in sports_terms message_lower then
    if startswith "Supportive" (description coaching_style) then
      "I believe in your athletic potential. What specific aspect of your performance would you like to work on today?"
    else if startswith "Challenging" (description coaching_style) then
      "Champions are made when no one is watching. How are you pushing yourself beyond your comfort zone in training?"
    else
      "Let's analyze your recent performance data. What metrics have you been tracking, and what patterns do you notice?"
  else
    if startswith "Supportive" (description coaching_style) then
      "I'm here to support you. What would be most helpful for you to focus on right now?"
    else if startswith "Challenging" (description coaching_style) then
      "What's one thing you could do today that would push you outside your comfort zone?"
    else
      "Let's analyze your current situation. What metrics or indicators would help us measure your progress?".

End Responses.

(** ** The performance log of a player (sports.py, [PlayerPerformance]) *)

Module Performance.
Import PyStr.

(** A value of a metrics dict: an [int] or a [float], or anything else
    (a [str] here). *)
Inductive Value := Number (x : Q) | Other (text : string).

Inductive Exception := TypeError | ZeroDivisionError.

(** A call returns or raises. *)
Inductive Outcome (A : Type) := Returned (a : A) | Raised (e : Exception).
Arguments Returned {A} a.
Arguments Raised {A} e.

Record PerformanceEntry := {
  entry_timestamp : Q;
  event_type : string;
  entry_metrics : list (string * Value);
  notes : string }.

Record Abnormality := {
  abnormality_timestamp : Q;
  metric : string;
  value : Q;
  average : Q;
  abnormality_event_type : string }.

Record StateEntry := { state_timestamp : Q; state : gmap string Z }.

Record PlayerPerformance := {
  player_id : string;
  performance_history : list PerformanceEntry;
  metrics : gmap string Value;
  abnormalities : list Abnormality;
  mental_state_log : list StateEntry }.

(** [PlayerPerformance(player_id)] *)
Definition __init__ (player_id : string) : PlayerPerformance :=
  {| player_id := player_id; performance_history := []; metrics := ∅;
     abnormalities := []; mental_state_log := [] |}.

Definition set_performance_history (v : list PerformanceEntry) (p : PlayerPerformance) :=
  {| player_id := player_id p; performance_history := v; metrics := metrics p;
     abnormalities := abnormalities p; mental_state_log := mental_state_log p |}.

Definition set_metrics (v : gmap string Value) (p : PlayerPerformance) :=
  {| player_id := player_id p; performance_history := performance_history p; metrics := v;
     abnormalities := abnormalities p; mental_state_log := mental_state_log p |}.

Definition set_abnormalities (v : list Abnormality) (p : PlayerPerformance) :=
  {| player_id := player_id p; performance_history := performance_history p;
     metrics := metrics p; abnormalities := v; mental_state_log := mental_state_log p |}.

Definition set_mental_state_log (v : list StateEntry) (p : PlayerPerformance) :=
  {| player_id := player_id p; performance_history := performance_history p;
     metrics := metrics p; abnormalities := abnormalities p; mental_state_log := v |}.

(** The body of the loop of [_update_metrics] for one item of the new
    metrics.  A count that is a text makes the product or the sum raise a
    TypeError, a count of -1 makes the division raise. *)
Definition update_metric (key : string) (value : Value) (metrics : gmap string Value)
    : Outcome (gmap string Value) :=
  match metrics !! key with
  | Some stored =>
      match value, stored with
      | Number value, Number stored =>
          match default (Number 1) (metrics !! (key +:+ "_count")) with
          | Number count =>
              if Qeq_bool (count + 1) 0 then Raised ZeroDivisionError
              else
                let metrics :=
                  <[key := Number ((stored * count + value) / (count + 1))]> metrics in
                Returned (<[key +:+ "_count" := Number (count + 1)]> metrics)
          | Other _ => Raised TypeError
          end
      | _, _ => Returned metrics
      end
  | None => Returned (<[key := value]> metrics)
  end.

(** [for key, value in new_metrics.items(): ...]; the items come in the
    order of the dict. *)
Fixpoint _update_metrics (new_metrics : list (string * Value))
    : M PlayerPerformance (Outcome unit) :=
  match new_metrics with
  | [] => ret (Returned tt)
  | (key, value) :: rest =>
      self <- get ;;
      match update_metric key value (metrics self) with
      | Returned updated => modify (set_metrics updated) ;;; _update_metrics rest
      | Raised e => ret (Raised e)
      end
  end.

(** The loop of [_check_for_abnormalities] over the metrics of the entry. *)
Fixpoint check_metrics (items : list (string * Value)) (performance_entry : PerformanceEntry)
    : M PlayerPerformance (Outcome unit) :=
  match items with
  | [] => ret (Returned tt)
  | (key, value) :: rest =>
      self <- get ;;
      match metrics self !! key, value with
      | Some avg, Number value =>
          match avg with
          | Number avg =>
              (if Qltb value (avg * 0.7) || Qgtb value (avg * 1.3) then
                 let abnormality :=
                   {| abnormality_timestamp := entry_timestamp performance_entry;
                      metric := key; value := value; average := avg;
                      abnormality_event_type := event_type performance_entry |} in
                 modify (fun self => set_abnormalities (abnormalities self ++ [abnormality]) self)
               else ret tt) ;;;
              check_metrics rest performance_entry
          | Other _ => ret (Raised TypeError)
          end
      | _, _ => check_metrics rest performance_entry
      end
  end.

Definition _check_for_abnormalities (performance_entry : PerformanceEntry)
    : M PlayerPerformance (Outcome unit) :=
  check_metrics (entry_metrics performance_entry) performance_entry.

Definition log_performance (event_type : string) (metrics : list (string * Value))
    (notes : string) : M PlayerPerformance (Outcome unit) :=
  now <- time_time ;;
  let performance_entry :=
    {| entry_timestamp := now; event_type := event_type; entry_metrics := metrics;
       notes := notes |} in
  modify (fun self =>
    set_performance_history (performance_history self ++ [performance_entry]) self) ;;;
  updated <- _update_metrics metrics ;;
  match updated with
  | Returned _ => _check_for_abnormalities performance_entry
  | Raised e => ret (Raised e)
  end.

Definition log_mental_state (state_data : gmap string Z) : M PlayerPerformance unit :=
  now <- time_time ;;
  let state_entry := {| state_timestamp := now; state := state_data |} in
  modify (fun self => set_mental_state_log (mental_state_log self ++ [state_entry]) self).

(** [self.mental_state_log[-1]["state"]], or [{}] for an empty log. *)
Definition _get_recent_mental_state (self : PlayerPerformance) : gmap string Z :=
  match last (mental_state_log self) with
  | None => ∅
  | Some state_entry => state state_entry
  end.

Inductive Summary :=
| NoData (status : string)
| SummaryOf (metrics : gmap string Value) (recent_performances : list PerformanceEntry)
            (abnormalities : list Abnormality) (mental_state : gmap string Z).

Definition get_performance_summary (self : PlayerPerformance) : Summary :=
  match performance_history self with
  | [] => NoData "No performance data available"
  | _ =>
      SummaryOf (metrics self)
        (list_slice_from (performance_history self) (-3))
        (list_slice_from (abnormalities self) (-5))
        (_get_recent_mental_state self)
  end.

End Performance.

(** * Vocabulary of the properties *)

(** ** The safety monitor *)
Module SafetyTerms.
Import PyStr Re Profile Safety.

(** Unfold the effect primitives and split on every test of a detector. *)
Ltac unfold_effects :=
  cbv beta iota zeta delta [bind ret append_if new_alert time_time get modify].

Ltac split_tests :=
  repeat (first
    [ match goal with
      | |- context [if ?b then _ else _] => destruct b
      | |- context [match ?o with Some _ => _ | None => _ end] => destruct o
      end; cbv beta iota zeta ]).

Ltac run_detector d := unfold d; unfold_effects; split_tests.

(** A detector that reads its arguments and the clock only. *)
Definition pure_detector (d : string -> string -> M Heap (list SafetyAlert)) : Prop :=
  forall message user_id h c, (d message user_id h c).1.2 = h.

(** A detector all of whose alerts carry the category [cat]. *)
Definition alerts_of (cat : SafetyCategory)
    (d : string -> string -> M Heap (list SafetyAlert)) : Prop :=
  forall message user_id h c,
    Forall (fun a => category a = cat) (d message user_id h c).1.1.

Ltac solve_pure d := intros message user_id h c; run_detector d; reflexivity.
Ltac solve_category d :=
  intros message user_id h c; run_detector d; cbn [fst snd app];
  repeat constructor.

(** The self-rating a pattern extracts from a message, if it matches. *)
Definition self_rating (message : string) (pattern : regex) : option Z :=
  (fun m => int (default "" (group 1 m))) <$> search pattern message.

(** The pattern matches and its rating is above twice the mean of a
    non-empty metrics mapping. *)
Definition inflated (metrics : gmap string Q) (message : string) (pattern : regex) : bool :=
  match self_rating message pattern with
  | Some rating => bool_decide (metrics ≠ ∅) && Qgtb (QZ rating) (average metrics * 2)
  | None => false
  end.

Definition false_reporting_warning (user_id : string) (a : SafetyAlert) : Prop :=
  category a = FALSE_REPORTING /\ level a = WARNING /\
  escalation_required a = false /\ Safety.user_id a = user_id.

(** The engagement entry of a user after one more message. *)
Definition record_message (message : string) (e : Engagement) : Engagement :=
  {| message_length := message_length e ++ [Z.of_nat (length (split message))];
     response_time := response_time e;
     question_count := question_count e;
     enthusiasm_score := enthusiasm_score e ++ [_calculate_enthusiasm_score message] |}.

Definition log_engagement (message user_id : string) (h : Heap) : Heap :=
  set_self (set_engagement_metrics
    (<[user_id := record_message message
                    (default new_engagement (engagement_metrics (self h) !! user_id))]>
       (engagement_metrics (self h))) (self h)) h.

Ltac pass d lem :=
  match goal with
  | |- context [d ?m ?u ?h ?c] =>
      let P := fresh "P" in
      pose proof (lem m u h c) as P;
      destruct (d m u h c) as [[? ?] ?]; cbn [fst snd] in P; subst
  end.



Definition fresh_heap (p : UserProfile) : Heap := {| self := __init__; profile := p |}.

(** A clock that returns 0, 1, 2, ... *)
Definition counting_clock : Clock :=
  {| time_source := fun n => inject_Z (Z.of_nat n); reads := 0 |}.

End SafetyTerms.

(** ** The user memory *)
Module MemoryTerms.
Import PyStr Profile Memory.

(** The public calls that change a [UserMemory]. *)
Inductive Call :=
| AddMessage (role content : string)
| UpdateProgress (goal : string) (progress_value : Q)
| AddInsight (insight : string).

Definition perform (cap : Z) (call : Call) : M UserMemory unit :=
  match call with
  | AddMessage role content => add_message cap role content
  | UpdateProgress goal progress_value => update_progress goal progress_value
  | AddInsight insight => add_insight insight
  end.

(** A sequence of calls, first to last. *)
Definition perform_all (cap : Z) (calls : list Call) : M UserMemory unit :=
  for_each calls (perform cap).

(** The memory of a user after a sequence of calls on a new [UserMemory]. *)
Definition after (cap : Z) (user_id : string) (c : Clock) (calls : list Call) : UserMemory :=
  (perform_all cap calls (__init__ user_id) c).1.2.

(** The messages a sequence of calls appends to the history. *)
Fixpoint messages_of (calls : list Call) : list (string * string) :=
  match calls with
  | [] => []
  | AddMessage role content :: rest => (role, content) :: messages_of rest
  | _ :: rest => messages_of rest
  end.

Definition entry_message (e : ConversationEntry) : string * string := (role e, content e).

(** A part of the memory that a computation leaves as it was. *)
Definition keeps {A X} (view : UserMemory -> X) (m : M UserMemory A) : Prop :=
  forall s c, view (m s c).1.2 = view s.

(** A part of the memory that lies outside the profile. *)
Definition outside {X} (view : UserMemory -> X) : Prop :=
  forall p s, view (set_user_profile p s) = view s.

Definition identity_and_history (s : UserMemory) : string * list ConversationEntry :=
  (user_id s, conversation_history s).

Definition goals_and_progress (s : UserMemory) : list string * gmap string Q :=
  (goals (user_profile s), progress (user_profile s)).

(** The goal text [_extract_goals] cuts out of a message: what follows the
    first goal keyword found, up to the next full stop. *)
Fixpoint potential_goal (keywords : list string) (message message_lower : string)
    : option string :=
  match keywords with
  | [] => None
  | keyword :: rest =>
      if contains keyword message_lower
      then Some (sentence_after message message_lower
                   (find message_lower keyword 0 + len keyword))
      else potential_goal rest message message_lower
  end.

Definition extracted_goal (message : string) : option string :=
  potential_goal goal_keywords message (lower message).

(** The profile once a new goal is adopted at time [now]. *)
Definition adopt (goal : string) (now : Q) (p : UserProfile) : UserProfile :=
  set_insights
    (insights p ++ [{| insight_content := "New goal identified: " +:+ goal;
                       insight_timestamp := now |}])
    (set_progress (<[goal := 0%Q]> (progress p)) (set_goals (goals p ++ [goal]) p)).

Definition tick (c : Clock) : Clock :=
  {| time_source := time_source c; reads := S (reads c) |}.

(** The history after one more entry, cut to the cap as [add_message] does. *)
Definition trimmed (cap : Z) (history : list ConversationEntry) : list ConversationEntry :=
  if cap <? Z.of_nat (length history) then list_slice_from history (- cap) else history.

(** [min(max(v, 0), 1)] *)
Definition clamp (v : Q) : Q := Qmin (Qmax v 0) 1.

(** The invariants of the goals and their progress. *)
Definition progress_in_range (progress : gmap string Q) : Prop :=
  forall goal value, progress !! goal = Some value -> (0 <= value <= 1)%Q.

Definition goals_tracked (goals : list string) (progress : gmap string Q) : Prop :=
  forall goal, goal ∈ goals -> is_Some (progress !! goal).

Definition goals_worded (goals : list string) : Prop :=
  forall goal, goal ∈ goals -> has_word goal = true.

Record well_formed (gp : list string * gmap string Q) : Prop := {
  wf_range : progress_in_range gp.2;
  wf_tracked : goals_tracked gp.1 gp.2;
  wf_distinct : NoDup gp.1;
  wf_worded : goals_worded gp.1 }.

(** How the calls change the goals and their progress: a goal not yet
    listed is appended with progress 0, or some progress entry is set to a
    clamped value. *)
Inductive change : list string * gmap string Q -> list string * gmap string Q -> Prop :=
| no_change gp : change gp gp
| new_goal goals progress goal :
    goal ∉ goals -> has_word goal = true ->
    change (goals, progress) (goals ++ [goal], <[goal := 0%Q]> progress)
| new_progress goals progress goal value :
    change (goals, progress) (goals, <[goal := clamp value]> progress)
| changes gp1 gp2 gp3 : change gp1 gp2 -> change gp2 gp3 -> change gp1 gp3.

(** The state in which [add_message] starts processing a user message. *)
Definition appended (cap : Z) (role content : string) (s : UserMemory) (c : Clock) : UserMemory :=
  set_conversation_history
    (trimmed cap (conversation_history s
                  ++ [{| role := role; content := content;
                         timestamp := time_source c (reads c) |}])) s.


(** A stored alert is within the last hour at the [i]-th reading of the clock. *)
Definition recent_at (c : Clock) (i : nat) (alert : StoredAlert) : Prop :=
  (time_source c (reads c + i) - stored_timestamp alert < 3600)%Q.

End MemoryTerms.

(** ** More about the safety monitor *)
Module MoreSafetyTerms.
Import PyStr Re Profile Safety SafetyTerms.

(** Severity and escalation agree: INFO never escalates, CRITICAL and
    EMERGENCY always do. *)
Definition escalation_fits_level (a : SafetyAlert) : Prop :=
  match level a with
  | INFO => escalation_required a = false
  | WARNING => True
  | CRITICAL | EMERGENCY => escalation_required a = true
  end.

(** The clock after [n] more readings. *)
Definition later (c : Clock) (n : nat) : Clock :=
  {| time_source := time_source c; reads := reads c + n |}.

(** Alerts raised for [user_id] one after the other from clock [c]: the
    i-th carries the i-th reading. *)
Definition stamped (user_id : string) (c : Clock) (found : list SafetyAlert) : Prop :=
  forall i a, found !! i = Some a ->
    Safety.user_id a = user_id /\ timestamp a = time_source c (reads c + i).

(** A detector that reads the clock once per alert, in order. *)
Definition stamps (d : string -> string -> M Heap (list SafetyAlert)) : Prop :=
  forall message user_id h c,
    (d message user_id h c).2 = later c (length (d message user_id h c).1.1)
    /\ stamped user_id c (d message user_id h c).1.1.

Definition no_concerns : string := "No safety concerns detected. Continue normal coaching.".

(** The alerts of one user in a log. *)
Definition alerts_of_user (user_id : string) (log : list SafetyAlert) : list SafetyAlert :=
  List.filter (fun alert => String.eqb (Safety.user_id alert) user_id) log.

End MoreSafetyTerms.

(** ** More about the user memory *)
Module MoreMemoryTerms.
Import PyStr Profile Memory MemoryTerms.

(** What lies outside the profile. *)
Definition surroundings (s : UserMemory)
    : string * list ConversationEntry * Safety.SafetyMonitor :=
  (user_id s, conversation_history s, safety_monitor s).

(** The profile without its insights. *)
Definition but_insights (s : UserMemory) :=
  (goals (user_profile s), preferences (user_profile s), progress (user_profile s),
   performance_metrics (user_profile s), mental_state (user_profile s),
   safety_alerts (user_profile s), safety_recommendations (user_profile s)).

(** What the goal extraction and the progress update leave alone. *)
Definition but_goals_progress_insights (s : UserMemory) :=
  (preferences (user_profile s), performance_metrics (user_profile s),
   mental_state (user_profile s), safety_alerts (user_profile s),
   safety_recommendations (user_profile s)).

Definition but_preferences (s : UserMemory) :=
  (goals (user_profile s), progress (user_profile s), insights (user_profile s),
   performance_metrics (user_profile s), mental_state (user_profile s),
   safety_alerts (user_profile s), safety_recommendations (user_profile s)).

Definition but_performance_metrics (s : UserMemory) :=
  (goals (user_profile s), preferences (user_profile s), progress (user_profile s),
   insights (user_profile s), mental_state (user_profile s),
   safety_alerts (user_profile s), safety_recommendations (user_profile s)).

(** What [_extract_mental_state] leaves alone. *)
Definition but_mental_progress_insights (s : UserMemory) :=
  (goals (user_profile s), preferences (user_profile s),
   performance_metrics (user_profile s), safety_alerts (user_profile s),
   safety_recommendations (user_profile s)).

(** What [_monitor_safety] leaves alone. *)
Definition but_safety (s : UserMemory) :=
  (user_id s, conversation_history s, goals (user_profile s),
   preferences (user_profile s), progress (user_profile s),
   performance_metrics (user_profile s), mental_state (user_profile s)).

(** What [_update_user_profile] leaves alone. *)
Definition safety_side (s : UserMemory) :=
  (user_id s, conversation_history s, safety_monitor s,
   safety_alerts (user_profile s), safety_recommendations (user_profile s)).

Definition urgent : string :=
  "URGENT: Safety escalation required - immediate attention needed".

(** The end of [_monitor_safety]: the recommendations are renewed and,
    when the log holds an escalating alert, the urgent insight is filed. *)
Definition conclude (s : UserMemory) (c : Clock) : unit * UserMemory * Clock :=
  let s' := set_user_profile
              (set_safety_recommendations
                 (Safety.get_safety_recommendations (safety_monitor s) (user_id s))
                 (user_profile s)) s in
  if bool_decide (Safety.get_escalation_alerts (safety_monitor s) ≠ [])
  then (tt,
        set_user_profile
          (set_insights (insights (user_profile s')
                         ++ [{| insight_content := urgent;
                                insight_timestamp := time_source c (reads c) |}])
             (user_profile s')) s',
        tick c)
  else (tt, s', c).

(** The profile mirrors the monitor: the stored alerts are the flattened
    log, every alert of the log belongs to the user of the memory, and
    the stored recommendations are those the log gives (or none yet,
    before the first user message). *)
Record mirrors (s : UserMemory) : Prop := {
  mirror_alerts :
    safety_alerts (user_profile s) = flatten <$> Safety.alerts (safety_monitor s);
  mirror_owner :
    Forall (fun a => Safety.user_id a = user_id s) (Safety.alerts (safety_monitor s));
  mirror_recommendations :
    (safety_recommendations (user_profile s) = [] /\ Safety.alerts (safety_monitor s) = [])
    \/ safety_recommendations (user_profile s)
       = Safety.get_safety_recommendations (safety_monitor s) (user_id s) }.

(** Lists only grow at the end. *)
Definition grown (s s' : UserMemory) : Prop :=
  user_id s' = user_id s
  /\ goals (user_profile s) `prefix_of` goals (user_profile s')
  /\ insights (user_profile s) `prefix_of` insights (user_profile s')
  /\ safety_alerts (user_profile s) `prefix_of` safety_alerts (user_profile s')
  /\ Safety.alerts (safety_monitor s) `prefix_of` Safety.alerts (safety_monitor s').

Definition grows {A} (m : M UserMemory A) : Prop := forall s c, grown s (m s c).1.2.

Definition preference_categories : list string := ["preference"; "like"; "enjoy"; "dislike"].

(** The stored preferences: known categories, each a non-empty list of
    distinct texts that have a word. *)
Definition preferences_tidy (prefs : gmap string (list string)) : Prop :=
  forall category items, prefs !! category = Some items ->
    category ∈ preference_categories /\ items <> [] /\ NoDup items
    /\ Forall (fun item => has_word item = true) items.

End MoreMemoryTerms.

(** ** The mock responses *)
Module ResponsesTerms.
Import PyStr Profile Responses.

(** The answers written for the supportive style. *)
Definition supportive_answers : list string :=
  ["I understand this is challenging. Remember that challenges are opportunities for growth. What specific aspect is most difficult for you?";
   "I believe in your athletic potential. What specific aspect of your performance would you like to work on today?";
   "I'm here to support you. What would be most helpful for you to focus on right now?"].

(** The answer to a greeting. *)
Definition greeting_answer (coaching_style : CoachingStyle)
    (safety_status : option Memory.SafetyStatus) : string :=
  let response := "Hello! I'm your " +:+ description coaching_style
                  +:+ ". How can I help you today?" in
  match safety_status with
  | Some status =>
      if 0 <? Memory.recent_alerts status then
        response +:+ newline +:+ newline +:+ "Note: I've detected "
        +:+ str_of_int (Memory.recent_alerts status)
        +:+ " recent safety alerts. Let's make sure we're focusing on your well-being."
      else response
  | None => response
  end.

End ResponsesTerms.

(** ** The performance log *)
Module PerformanceTerms.
Import PyStr Performance.





End PerformanceTerms.

(** * Properties *)

(** ** Strings *)
Module PyStrFacts.
Import PyStr.

Lemma startswith_contains sub s : startswith sub s = true -> contains sub s = true.
Proof. destruct s; simpl; intros ->; reflexivity. Qed.

Lemma contains_tail sub c s : contains sub s = true -> contains sub (String c s) = true.
Proof. intros H. simpl. rewrite H. apply orb_true_r. Qed.

Lemma startswith_refl s : startswith s s = true.
Proof. induction s as [|c s IH]; simpl; [reflexivity|]. now rewrite Ascii.eqb_refl. Qed.





Lemma lstrip_head s c t : lstrip s = String c t -> is_space c = false.
Proof.
  induction s as [|d s IH]; simpl; [discriminate|].
  destruct (is_space d) eqn:Hd; [exact IH|].
  intros [= <- <-]. exact Hd.
Qed.

Lemma rstrip_head c t :
  is_space c = false -> exists r, rstrip (String c t) = String c r.
Proof.
  intros Hc. simpl. rewrite Hc. destruct (rstrip t); eauto.
Qed.

(** A non-empty stripped string has a non-blank character. *)
Lemma strip_has_word s : truthy (strip s) = true -> has_word (strip s) = true.
Proof.
  unfold strip. destruct (lstrip s) as [|c t] eqn:Hl; [discriminate|].
  pose proof (lstrip_head _ _ _ Hl) as Hc.
  destruct (rstrip_head c t Hc) as [r ->]. intros _. simpl. now rewrite Hc.
Qed.

End PyStrFacts.

(** ** The safety monitor *)
Module SafetyFacts.
Import PyStr Re Profile Safety SafetyTerms.

Lemma overtraining_pure : pure_detector _detect_overtraining.
Proof. solve_pure _detect_overtraining. Qed.
Lemma data_inconsistency_pure : pure_detector _detect_data_inconsistency.
Proof. solve_pure _detect_data_inconsistency. Qed.
Lemma resistance_pure : pure_detector _detect_resistance.
Proof. solve_pure _detect_resistance. Qed.
Lemma creativity_misuse_pure : pure_detector _detect_creativity_misuse.
Proof. solve_pure _detect_creativity_misuse. Qed.
Lemma mental_health_risks_pure : pure_detector _detect_mental_health_risks.
Proof. solve_pure _detect_mental_health_risks. Qed.
Lemma performance_drop_pure : pure_detector _detect_performance_drop.
Proof. solve_pure _detect_performance_drop. Qed.
Lemma team_conflict_pure : pure_detector _detect_team_conflict.
Proof. solve_pure _detect_team_conflict. Qed.
Lemma reward_misuse_pure : pure_detector _detect_reward_misuse.
Proof. solve_pure _detect_reward_misuse. Qed.
Lemma language_barriers_pure : pure_detector _detect_language_barriers.
Proof. solve_pure _detect_language_barriers. Qed.
Lemma burnout_vs_laziness_pure : pure_detector _detect_burnout_vs_laziness.
Proof. solve_pure _detect_burnout_vs_laziness. Qed.

Lemma mental_health_risks_category : alerts_of MENTAL_HEALTH _detect_mental_health_risks.
Proof. solve_category _detect_mental_health_risks. Qed.

Lemma Qgtb_spec x y : Qgtb x y = true <-> (y < x)%Q.
Proof.
  unfold Qgtb. rewrite negb_true_iff, <- not_true_iff_false, Qle_bool_iff.
  split; [apply Qnot_le_lt | apply Qlt_not_le].
Qed.

Lemma Qltb_spec x y : Qltb x y = true <-> (x < y)%Q.
Proof.
  unfold Qltb. rewrite negb_true_iff, <- not_true_iff_false, Qle_bool_iff.
  split; [apply Qnot_le_lt | apply Qlt_not_le].
Qed.

(** *** False reporting *)

Lemma check_ratings_spec message user_id patterns :
  forall acc h c,
    (check_ratings message user_id acc patterns h c).1.2 = h /\
    exists new,
      (check_ratings message user_id acc patterns h c).1.1 = acc ++ new /\
      length new
      = length (List.filter (inflated (performance_metrics (profile h)) message) patterns) /\
      Forall (false_reporting_warning user_id) new.
Proof.
  induction patterns as [|pattern rest IH]; intros acc h c.
  - split; [reflexivity|]. exists []. cbn. rewrite app_nil_r. repeat split. constructor.
  - cbn [check_ratings List.filter]. unfold bind at 1 2.
    unfold inflated at 1, self_rating at 1, check_rating at 1 2.
    destruct (search pattern message) as [m|]; cbn [fmap option_fmap option_map].
    + unfold_effects.
      destruct (bool_decide (performance_metrics (profile h) ≠ ∅)); cbn [andb].
      * destruct (Qgtb _ _).
        -- match goal with
           | |- context [check_ratings _ _ (acc ++ [?a]) rest h ?c'] =>
               destruct (IH (acc ++ [a]) h c') as (Hh & new & Hnew & Hlen & Hall);
               split; [exact Hh|]; exists (a :: new)
           end.
           rewrite Hnew, <- app_assoc. cbn [app length]. rewrite Hlen.
           repeat split. constructor; [repeat split|exact Hall].
        -- apply IH.
      * apply IH.
    + unfold_effects. apply IH.
Qed.

Lemma false_reporting_pure : pure_detector _detect_false_reporting.
Proof.
  intros message user_id h c. unfold _detect_false_reporting, bind.
  pose proof (check_ratings_spec message user_id rating_patterns [] h c) as [Hh _].
  destruct (check_ratings _ _ _ _ _ _) as [[a h'] c']. exact Hh.
Qed.


(** *** Low engagement: the one detector that writes to the monitor *)

Lemma low_engagement_heap message user_id h c :
  (_detect_low_engagement message user_id h c).1.2 = log_engagement message user_id h.
Proof.
  assert (Hmap :
    forall em : gmap string Engagement,
      alter (record_message message) user_id
        (match em !! user_id with Some _ => em | None => <[user_id := new_engagement]> em end)
      = <[user_id := record_message message (default new_engagement (em !! user_id))]> em).
  { intros em. apply map_eq. intros k. destruct (decide (k = user_id)) as [->|Hne].
    - rewrite lookup_insert_eq. destruct (em !! user_id) as [e|] eqn:He.
      + now rewrite lookup_alter_eq, He.
      + now rewrite lookup_alter_eq, lookup_insert_eq.
    - rewrite lookup_insert_ne by congruence. rewrite lookup_alter_ne by congruence.
      destruct (em !! user_id); [reflexivity|]. now rewrite lookup_insert_ne by congruence. }
  destruct h as [mon prof]. unfold log_engagement. cbn [self profile].
  specialize (Hmap (engagement_metrics mon)).
  unfold _detect_low_engagement. unfold_effects. cbn [self profile].
  destruct (engagement_metrics mon !! user_id) as [e|] eqn:He; cbn [self profile set_self
    set_engagement_metrics engagement_metrics] in *; split_tests; cbn [fst snd];
    unfold set_self, set_engagement_metrics; cbn [self profile alerts user_sessions
      performance_baselines engagement_metrics mental_health_indicators];
    f_equal; f_equal; exact Hmap.
Qed.

(** *** The aggregator *)


(** What [monitor_message] leaves behind: the engagement entry of the user
    has one more message, and the alerts returned are appended to the log.
    Nothing else changes; the profile in particular is only read. *)
Lemma monitor_message_heap message user_id h c :
  (monitor_message message user_id h c).1.2
  = let h1 := log_engagement (lower message) user_id h in
    set_self (set_alerts (alerts (self h) ++ (monitor_message message user_id h c).1.1)
                (self h1)) h1.
Proof.
  unfold monitor_message. cbn [run_detectors detectors]. unfold bind, modify, ret.
  pass _detect_overtraining overtraining_pure.
  pass _detect_data_inconsistency data_inconsistency_pure.
  pass _detect_low_engagement low_engagement_heap.
  pass _detect_resistance resistance_pure.
  pass _detect_creativity_misuse creativity_misuse_pure.
  pass _detect_mental_health_risks mental_health_risks_pure.
  pass _detect_performance_drop performance_drop_pure.
  pass _detect_team_conflict team_conflict_pure.
  pass _detect_reward_misuse reward_misuse_pure.
  pass _detect_language_barriers language_barriers_pure.
  pass _detect_false_reporting false_reporting_pure.
  pass _detect_burnout_vs_laziness burnout_vs_laziness_pure.
  reflexivity.
Qed.

Lemma monitor_message_profile message user_id h c :
  profile (monitor_message message user_id h c).1.2 = profile h.
Proof. rewrite monitor_message_heap. reflexivity. Qed.

(** *** Red flags *)






Lemma count_in_nonneg words message : 0 <= count_in words message.
Proof. unfold count_in. lia. Qed.

(** *** The claims about the detectors *)




(** C5.  The burnout-vs-laziness detector raises exactly one WARNING with
    escalation when the burnout count is positive and above the laziness
    count, exactly one INFO without escalation when the laziness count is
    positive and above the burnout count, and nothing when they are equal. *)
Theorem burnout_vs_laziness_cases message user_id h c :
  let burnout_score := count_in burnout_indicators message in
  let laziness_score := count_in laziness_indicators message in
  let found := (_detect_burnout_vs_laziness message user_id h c).1.1 in
  (laziness_score < burnout_score -> 0 < burnout_score ->
     exists a, found = [a] /\ category a = BURNOUT_LAZINESS /\ level a = WARNING
               /\ escalation_required a = true)
  /\ (burnout_score < laziness_score -> 0 < laziness_score ->
       exists a, found = [a] /\ category a = BURNOUT_LAZINESS /\ level a = INFO
                 /\ escalation_required a = false)
  /\ (burnout_score = laziness_score -> found = []).
Proof.
  intros burnout_score laziness_score found. subst found.
  unfold _detect_burnout_vs_laziness. unfold_effects.
  fold burnout_score laziness_score.
  destruct (laziness_score <? burnout_score) eqn:Hb;
    destruct (0 <? burnout_score) eqn:Hb0;
    destruct (burnout_score <? laziness_score) eqn:Hl;
    destruct (0 <? laziness_score) eqn:Hl0;
    cbn [andb]; cbv beta iota zeta; cbn [fst snd app];
    rewrite ?Z.ltb_lt, ?Z.ltb_ge in *;
    (split; [|split]); intros; try lia; eauto.
Qed.

Lemma burnout_vs_laziness_cases_witness :
  (exists a,
     (_detect_burnout_vs_laziness "i am exhausted and have no energy" "athlete"
        (fresh_heap empty_profile) counting_clock).1.1 = [a]
     /\ category a = BURNOUT_LAZINESS /\ level a = WARNING /\ escalation_required a = true)
  /\ (exists a,
       (_detect_burnout_vs_laziness "exhausted, but mostly too lazy and avoiding it" "athlete"
          (fresh_heap empty_profile) counting_clock).1.1 = [a]
       /\ category a = BURNOUT_LAZINESS /\ level a = INFO /\ escalation_required a = false)
  /\ (_detect_burnout_vs_laziness "exhausted and too lazy" "athlete"
        (fresh_heap empty_profile) counting_clock).1.1 = [].
Proof.
  split; [|split].
  - apply (burnout_vs_laziness_cases "i am exhausted and have no energy" "athlete"
             (fresh_heap empty_profile) counting_clock); vm_compute; reflexivity.
  - apply (burnout_vs_laziness_cases "exhausted, but mostly too lazy and avoiding it" "athlete"
             (fresh_heap empty_profile) counting_clock); vm_compute; reflexivity.
  - apply (burnout_vs_laziness_cases "exhausted and too lazy" "athlete"
             (fresh_heap empty_profile) counting_clock); vm_compute; reflexivity.
Defined.

(** C9.  [monitor_message] only reads the profile.  Of the monitor it
    changes the alert log, to which it appends exactly the alerts it
    returns, and the engagement entry of the user, which records the
    message; the entries of other users and the other attributes stay. *)
Theorem monitor_message_frame message user_id h c :
  let returned := (monitor_message message user_id h c).1.1 in
  let h' := (monitor_message message user_id h c).1.2 in
  profile h' = profile h
  /\ alerts (self h') = alerts (self h) ++ returned
  /\ user_sessions (self h') = user_sessions (self h)
  /\ performance_baselines (self h') = performance_baselines (self h)
  /\ mental_health_indicators (self h') = mental_health_indicators (self h)
  /\ engagement_metrics (self h') !! user_id
     = Some (record_message (lower message)
               (default new_engagement (engagement_metrics (self h) !! user_id)))
  /\ (forall other, other <> user_id ->
        engagement_metrics (self h') !! other = engagement_metrics (self h) !! other).
Proof.
  intros returned h'. subst returned h'. rewrite monitor_message_heap.
  cbn [log_engagement set_self set_alerts set_engagement_metrics self profile alerts
       user_sessions performance_baselines engagement_metrics mental_health_indicators].
  repeat split.
  - unfold log_engagement. cbn. apply lookup_insert_eq.
  - intros other Hother. unfold log_engagement. cbn. now apply lookup_insert_ne.
Qed.

End SafetyFacts.

(** ** The user memory *)
Module MemoryFacts.
Import PyStr Profile Memory MemoryTerms.

(** *** What a computation leaves untouched *)
Section Keeps.
Context {X : Type} (view : UserMemory -> X).

Lemma keeps_ret {A} (a : A) : keeps view (ret a).
Proof. intros s c. reflexivity. Qed.

Lemma keeps_get : keeps view get.
Proof. intros s c. reflexivity. Qed.

Lemma keeps_time_time : keeps view time_time.
Proof. intros s c. reflexivity. Qed.

Lemma keeps_bind {A B} (m : M UserMemory A) (f : A -> M UserMemory B) :
  keeps view m -> (forall a, keeps view (f a)) -> keeps view (bind m f).
Proof.
  intros Hm Hf s c. unfold bind. specialize (Hm s c).
  destruct (m s c) as [[a s1] c1]. cbn [fst snd] in Hm. rewrite <- Hm. apply Hf.
Qed.

Lemma keeps_for_each {A} (l : list A) (body : A -> M UserMemory unit) :
  (forall x, keeps view (body x)) -> keeps view (for_each l body).
Proof.
  intros Hbody. induction l as [|x l IH]; cbn [for_each].
  - apply keeps_ret.
  - apply keeps_bind; [apply Hbody|intros _; exact IH].
Qed.

Lemma keeps_update_profile f :
  (forall s, view (set_user_profile (f (user_profile s)) s) = view s) ->
  keeps view (update_profile f).
Proof. intros H s c. apply H. Qed.

Lemma outside_update_profile f : outside view -> keeps view (update_profile f).
Proof. intros H s c. apply H. Qed.

End Keeps.

Ltac keeps_step :=
  first
    [ apply keeps_ret | apply keeps_get | apply keeps_time_time
    | apply keeps_bind; [|intros ?]
    | apply keeps_for_each; intros ?
    | match goal with
      | H : outside ?v |- keeps ?v (update_profile _) => apply outside_update_profile, H
      | |- keeps _ (update_profile _) => apply keeps_update_profile; intros ?; reflexivity
      | |- keeps _ (if ?b then _ else _) => destruct b
      | |- keeps _ (match ?x with _ => _ end) => destruct x
      | |- keeps _ (let '(_, _) := ?x in _) => destruct x
      end ].

Ltac keeps_auto := repeat keeps_step.

Lemma outside_identity_and_history : outside identity_and_history.
Proof. intros p s. reflexivity. Qed.

Section Outside.
Context {X : Type} (view : UserMemory -> X) (Hout : outside view).

Lemma add_insight_outside insight : keeps view (add_insight insight).
Proof. unfold add_insight. keeps_auto. Qed.

Lemma update_progress_outside goal value : keeps view (update_progress goal value).
Proof. unfold update_progress. keeps_auto. Qed.

Lemma extract_goals_outside message message_lower :
  keeps view (_extract_goals message message_lower).
Proof.
  unfold _extract_goals. induction goal_keywords as [|keyword rest IH]; cbn [scan_goal_keywords].
  - keeps_auto.
  - destruct (contains keyword message_lower); [|exact IH].
    keeps_auto.
Qed.

Lemma extract_preferences_outside message message_lower :
  keeps view (_extract_preferences message message_lower).
Proof. unfold _extract_preferences. keeps_auto. Qed.

Lemma extract_emotions_outside message message_lower :
  keeps view (_extract_emotions_and_insights message message_lower).
Proof.
  unfold _extract_emotions_and_insights. keeps_auto.
Qed.

Lemma extract_performance_metrics_outside message message_lower :
  keeps view (_extract_performance_metrics message message_lower).
Proof. unfold _extract_performance_metrics. keeps_auto. Qed.

Lemma scan_goals_outside goals contains_progress :
  keeps view (scan_goals goals contains_progress).
Proof.
  induction goals as [|goal rest IH]; cbn [scan_goals].
  - keeps_auto.
  - destruct (_ && _); [|exact IH].
    keeps_auto. apply update_progress_outside.
Qed.

Lemma extract_mental_state_outside message message_lower :
  keeps view (_extract_mental_state message message_lower).
Proof.
  unfold _extract_mental_state. keeps_auto. apply scan_goals_outside.
Qed.

Lemma update_user_profile_outside message : keeps view (_update_user_profile message).
Proof.
  unfold _update_user_profile, _extract_progress_updates.
  apply keeps_bind; [apply extract_goals_outside|intros _].
  apply keeps_bind; [apply extract_preferences_outside|intros _].
  apply keeps_bind; [apply extract_emotions_outside|intros _].
  apply keeps_bind; [apply keeps_ret|intros _].
  apply keeps_bind; [apply extract_performance_metrics_outside|intros _].
  apply extract_mental_state_outside.
Qed.

End Outside.

(** *** Safety monitoring of a message *)

Lemma bind_run {St A B} (m : M St A) (f : A -> M St B) s c :
  bind m f s c = f (m s c).1.1 (m s c).1.2 (m s c).2.
Proof. unfold bind. destruct (m s c) as [[a s1] c1]. reflexivity. Qed.

Lemma set_user_profile_same s : set_user_profile (user_profile s) s = s.
Proof. destruct s. reflexivity. Qed.

(** The monitor hands the profile back as it was. *)
Lemma zoom_monitor_message message uid s c :
  (zoom heap_of store_heap (Safety.monitor_message message uid) s c).1.2
  = set_safety_monitor (Safety.self (Safety.monitor_message message uid (heap_of s) c).1.2) s.
Proof.
  unfold zoom.
  pose proof (SafetyFacts.monitor_message_profile message uid (heap_of s) c) as Hp.
  destruct (Safety.monitor_message message uid (heap_of s) c) as [[found h1] c1].
  cbn [fst snd] in *. unfold store_heap. rewrite Hp. cbn [heap_of Safety.profile].
  now rewrite set_user_profile_same.
Qed.

Lemma zoom_monitor_message_result message uid s c :
  (zoom heap_of store_heap (Safety.monitor_message message uid) s c).1.1
  = (Safety.monitor_message message uid (heap_of s) c).1.1.
Proof.
  unfold zoom. destruct (Safety.monitor_message message uid (heap_of s) c) as [[found h1] c1].
  reflexivity.
Qed.

Lemma store_alerts_safety_alerts found : forall s c,
  safety_alerts (user_profile (for_each found store_alert s c).1.2)
  = safety_alerts (user_profile s) ++ (flatten <$> found).
Proof.
  induction found as [|alert found IH]; intros s c.
  - cbn. now rewrite app_nil_r.
  - cbn [for_each]. rewrite bind_run, IH.
    unfold store_alert, add_insight, update_profile.
    cbv beta iota zeta delta [bind ret time_time modify]. cbn [fst snd].
    cbn [user_profile set_user_profile safety_alerts set_insights set_safety_alerts].
    rewrite <- app_assoc. reflexivity.
Qed.

Lemma monitor_safety_keeps {X} (view : UserMemory -> X) message :
  (forall mon s, view (set_safety_monitor mon s) = view s) ->
  (forall f s, (forall p, goals (f p) = goals p /\ progress (f p) = progress p) ->
               view (set_user_profile (f (user_profile s)) s) = view s) ->
  keeps view (_monitor_safety message).
Proof.
  intros Hmon Hprof s c. unfold _monitor_safety.
  rewrite bind_run. unfold get at 1. cbn [fst snd].
  rewrite bind_run.
  assert (Hrest : forall found,
    keeps view
      (for_each found store_alert ;;;
       self <- get ;;
       update_profile (set_safety_recommendations
         (Safety.get_safety_recommendations (safety_monitor self) (user_id self))) ;;;
       (if bool_decide (Safety.get_escalation_alerts (safety_monitor self) ≠ [])
        then add_insight "URGENT: Safety escalation required - immediate attention needed"
        else ret tt))).
  { intros found.
    repeat first
      [ apply keeps_ret | apply keeps_get | apply keeps_time_time
      | apply keeps_bind; [|intros ?]
      | apply keeps_for_each; intros ?; unfold store_alert
      | match goal with
        | |- keeps _ (update_profile _) =>
            apply keeps_update_profile; intros ?; apply Hprof; intros ?; split; reflexivity
        | |- keeps _ (if ?b then _ else _) => destruct b
        end ]. }
  rewrite Hrest. rewrite zoom_monitor_message. apply Hmon.
Qed.

Lemma monitor_safety_identity_and_history message :
  keeps identity_and_history (_monitor_safety message).
Proof. apply monitor_safety_keeps; reflexivity. Qed.

Lemma monitor_safety_goals_and_progress message :
  keeps goals_and_progress (_monitor_safety message).
Proof.
  apply monitor_safety_keeps; [reflexivity|].
  intros f s Hf. unfold goals_and_progress. cbn [user_profile set_user_profile].
  destruct (Hf (user_profile s)) as [-> ->]. reflexivity.
Qed.

(** [_monitor_safety] appends the flattened alerts of the call to the
    profile's [safety_alerts]. *)
Lemma monitor_safety_alerts message s c :
  safety_alerts (user_profile (_monitor_safety message s c).1.2)
  = safety_alerts (user_profile s)
    ++ (flatten <$> (Safety.monitor_message message (user_id s) (heap_of s) c).1.1).
Proof.
  assert (Htail : keeps (fun s => safety_alerts (user_profile s))
    (self <- get ;;
     update_profile (set_safety_recommendations
       (Safety.get_safety_recommendations (safety_monitor self) (user_id self))) ;;;
     (if bool_decide (Safety.get_escalation_alerts (safety_monitor self) ≠ [])
      then add_insight "URGENT: Safety escalation required - immediate attention needed"
      else ret tt))) by keeps_auto.
  unfold keeps in Htail. cbv beta in Htail.
  unfold _monitor_safety.
  rewrite bind_run. unfold get at 1. cbn [fst snd].
  rewrite bind_run, bind_run. rewrite Htail.
  rewrite store_alerts_safety_alerts, zoom_monitor_message, zoom_monitor_message_result.
  reflexivity.
Qed.

(** *** [add_message] and the history *)

Lemma add_message_run cap role content s c :
  add_message cap role content s c
  = if String.eqb role "user"
    then (_update_user_profile content ;;; _monitor_safety content)
           (appended cap role content s c) (tick c)
    else (tt, appended cap role content s c, tick c).
Proof.
  unfold add_message, appended, trimmed.
  cbv beta iota zeta delta [bind ret time_time get modify].
  cbn [conversation_history set_conversation_history].
  destruct (cap <? _); destruct (String.eqb role "user"); reflexivity.
Qed.

Lemma add_message_history cap role content s c :
  conversation_history (add_message cap role content s c).1.2
  = trimmed cap (conversation_history s
                 ++ [{| role := role; content := content;
                        timestamp := time_source c (reads c) |}]).
Proof.
  rewrite add_message_run. destruct (String.eqb role "user"); [|reflexivity].
  assert (H : keeps identity_and_history
                (_update_user_profile content ;;; _monitor_safety content)).
  { apply keeps_bind; [|intros _; apply monitor_safety_identity_and_history].
    apply update_user_profile_outside, outside_identity_and_history. }
  specialize (H (appended cap role content s c) (tick c)).
  unfold identity_and_history in H. injection H as _ H. rewrite H. reflexivity.
Qed.

Lemma perform_history cap call s c :
  conversation_history (perform cap call s c).1.2
  = match call with
    | AddMessage role content =>
        trimmed cap (conversation_history s
                     ++ [{| role := role; content := content;
                            timestamp := time_source c (reads c) |}])
    | _ => conversation_history s
    end.
Proof.
  destruct call as [role content|goal value|insight]; cbn [perform].
  - apply add_message_history.
  - reflexivity.
  - reflexivity.
Qed.

Lemma for_each_app {St A} (l1 l2 : list A) (body : A -> M St unit) s c :
  for_each (l1 ++ l2) body s c
  = for_each l2 body (for_each l1 body s c).1.2 (for_each l1 body s c).2.
Proof.
  revert s c. induction l1 as [|x l1 IH]; intros s c; [reflexivity|].
  cbn [app for_each]. rewrite !bind_run. apply IH.
Qed.

Lemma perform_all_snoc cap calls call s c :
  perform_all cap (calls ++ [call]) s c
  = perform cap call (perform_all cap calls s c).1.2 (perform_all cap calls s c).2.
Proof.
  unfold perform_all. rewrite for_each_app. cbn [for_each].
  rewrite bind_run. unfold ret.
  destruct (perform cap call _ _) as [[[] s1] c1]. reflexivity.
Qed.

Lemma messages_of_snoc calls call :
  messages_of (calls ++ [call])
  = messages_of calls ++ match call with
                         | AddMessage role content => [(role, content)]
                         | _ => []
                         end.
Proof.
  induction calls as [|[]]; cbn [app messages_of].
  - destruct call; reflexivity.
  - now rewrite IHcalls.
  - exact IHcalls.
  - exact IHcalls.
Qed.

(** With a cap of at least one, trimming keeps the last [cap] entries. *)
Lemma trimmed_positive cap history :
  1 <= cap -> trimmed cap history = drop (length history - Z.to_nat cap) history.
Proof.
  intros Hcap. unfold trimmed, list_slice_from, clip.
  destruct (cap <? Z.of_nat (length history)) eqn:Hlt.
  - apply Z.ltb_lt in Hlt.
    replace (- cap <? 0) with true by (symmetry; apply Z.ltb_lt; lia).
    f_equal. lia.
  - apply Z.ltb_ge in Hlt.
    replace (length history - Z.to_nat cap)%nat with 0%nat by lia. reflexivity.
Qed.

(** With a cap of zero nothing is ever dropped: [history[-0:]] is all of it. *)
Lemma trimmed_zero history : trimmed 0 history = history.
Proof.
  unfold trimmed, list_slice_from, clip. cbn. rewrite Nat.min_0_l.
  destruct (0 <? _); reflexivity.
Qed.

Lemma drop_last_snoc {A} (n : nat) (l : list A) (x : A) :
  (1 <= n)%nat ->
  drop (length (drop (length l - n) l ++ [x]) - n) (drop (length l - n) l ++ [x])
  = drop (length (l ++ [x]) - n) (l ++ [x]).
Proof.
  intros Hn. rewrite !length_app, length_drop. cbn [length].
  destruct (decide (length l < n)%nat) as [Hlt|Hge].
  - replace (length l - n)%nat with 0%nat by lia. rewrite drop_0, Nat.sub_0_r.
    reflexivity.
  - replace (length l - (length l - n) + 1 - n)%nat with 1%nat by lia.
    replace (length l + 1 - n)%nat with (S (length l - n)) by lia.
    rewrite drop_app_le by (rewrite length_drop; lia).
    rewrite drop_drop.
    rewrite (drop_app_le l) by lia.
    do 2 f_equal. lia.
Qed.

(** The history of a positive cap: the last [cap] messages, oldest first. *)
Lemma history_is_recent_messages cap user_id c calls :
  1 <= cap ->
  entry_message <$> conversation_history (after cap user_id c calls)
  = drop (length (messages_of calls) - Z.to_nat cap) (messages_of calls).
Proof.
  intros Hcap. unfold after. induction calls as [|call calls IH] using rev_ind.
  - reflexivity.
  - rewrite perform_all_snoc, perform_history, messages_of_snoc.
    destruct call as [role content| |]; rewrite ?app_nil_r; try exact IH.
    rewrite trimmed_positive by exact Hcap.
    set (h := conversation_history _) in *.
    rewrite fmap_drop, fmap_app, length_app. cbn [length fmap list_fmap].
    replace (length h + 1)%nat with (length ((entry_message <$> h) ++ [(role, content)]))
      by (rewrite length_app, length_fmap; reflexivity).
    rewrite IH. change (entry_message _) with (role, content).
    apply drop_last_snoc. lia.
Qed.

(** *** Goals and progress *)

Lemma clamp_range v : (0 <= clamp v <= 1)%Q.
Proof.
  unfold clamp.
  destruct (Q.max_spec v 0) as [[H1 E1]|[H1 E1]];
    destruct (Q.min_spec (Qmax v 0) 1) as [[H2 E2]|[H2 E2]];
    rewrite E2; rewrite ?E1 in *; lra.
Qed.


Lemma well_formed_change gp gp' : change gp gp' -> well_formed gp -> well_formed gp'.
Proof.
  induction 1 as [gp|goals progress goal Hnew Hword|goals progress goal value|]; intros Hwf;
    [exact Hwf| | |auto].
  - destruct Hwf as [Hrange Htracked Hdistinct Hworded]. cbn [fst snd] in *.
    split; cbn [fst snd].
    + intros g v. destruct (decide (goal = g)) as [->|Hne].
      * rewrite lookup_insert_eq. intros [= <-]. lra.
      * rewrite lookup_insert_ne by exact Hne. apply Hrange.
    + intros g [Hin|Hin%list_elem_of_singleton]%elem_of_app.
      * destruct (decide (goal = g)) as [->|Hne].
        -- rewrite lookup_insert_eq. eauto.
        -- rewrite lookup_insert_ne by exact Hne. now apply Htracked.
      * subst g. rewrite lookup_insert_eq. eauto.
    + apply NoDup_app. repeat split; [exact Hdistinct| |apply NoDup_singleton].
      intros g Hin ->%list_elem_of_singleton. contradiction.
    + intros g [Hin|Hin%list_elem_of_singleton]%elem_of_app; [now apply Hworded|].
      now subst g.
  - destruct Hwf as [Hrange Htracked Hdistinct Hworded]. cbn [fst snd] in *.
    split; cbn [fst snd]; [| |exact Hdistinct|exact Hworded].
    + intros g v. destruct (decide (goal = g)) as [->|Hne].
      * rewrite lookup_insert_eq. intros [= <-]. apply clamp_range.
      * rewrite lookup_insert_ne by exact Hne. apply Hrange.
    + intros g Hin. destruct (decide (goal = g)) as [->|Hne].
      * rewrite lookup_insert_eq. eauto.
      * rewrite lookup_insert_ne by exact Hne. now apply Htracked.
Qed.

(** Goals are never removed, and stay distinct. *)
Lemma change_goals gp gp' :
  change gp gp' -> (forall g, g ∈ gp.1 -> g ∈ gp'.1) /\ (NoDup gp.1 -> NoDup gp'.1).
Proof.
  induction 1 as [gp|goals progress goal Hnew Hword|goals progress goal value
                 |gp1 gp2 gp3 _ [IH1 IH1'] _ [IH2 IH2']]; cbn [fst snd].
  - auto.
  - split.
    + intros g Hin. apply elem_of_app. now left.
    + intros Hd. apply NoDup_app. repeat split; [exact Hd| |apply NoDup_singleton].
      intros g Hin ->%list_elem_of_singleton. contradiction.
  - auto.
  - split; auto.
Qed.

Lemma keeps_no_change {A} (m : M UserMemory A) s c :
  keeps goals_and_progress m ->
  change (goals_and_progress s) (goals_and_progress (m s c).1.2).
Proof. intros H. rewrite H. constructor. Qed.

Lemma add_insight_goals_and_progress insight : keeps goals_and_progress (add_insight insight).
Proof. unfold add_insight. keeps_auto. Qed.

Lemma extract_preferences_goals_and_progress message message_lower :
  keeps goals_and_progress (_extract_preferences message message_lower).
Proof. unfold _extract_preferences. keeps_auto. Qed.

Lemma extract_emotions_goals_and_progress message message_lower :
  keeps goals_and_progress (_extract_emotions_and_insights message message_lower).
Proof. unfold _extract_emotions_and_insights. keeps_auto. Qed.

Lemma extract_performance_metrics_goals_and_progress message message_lower :
  keeps goals_and_progress (_extract_performance_metrics message message_lower).
Proof. unfold _extract_performance_metrics. keeps_auto. Qed.

(** What [_extract_goals] does: nothing, unless the goal text cut out of
    the message is non-empty and not yet listed; then the goal is adopted. *)
Lemma scan_goal_keywords_run keywords message message_lower s c :
  scan_goal_keywords keywords message message_lower s c
  = match potential_goal keywords message message_lower with
    | Some goal =>
        if truthy goal && bool_decide (goal ∉ goals (user_profile s))
        then (tt, set_user_profile (adopt goal (time_source c (reads c)) (user_profile s)) s,
              tick c)
        else (tt, s, c)
    | None => (tt, s, c)
    end.
Proof.
  induction keywords as [|keyword rest IH]; cbn [scan_goal_keywords potential_goal].
  - reflexivity.
  - destruct (contains keyword message_lower); [|exact IH].
    cbv beta iota zeta delta [bind get]. cbn [fst snd].
    destruct (truthy _ && bool_decide _); [|reflexivity].
    destruct s. reflexivity.
Qed.

Lemma extract_goals_run message s c :
  _extract_goals message (lower message) s c
  = match extracted_goal message with
    | Some goal =>
        if truthy goal && bool_decide (goal ∉ goals (user_profile s))
        then (tt, set_user_profile (adopt goal (time_source c (reads c)) (user_profile s)) s,
              tick c)
        else (tt, s, c)
    | None => (tt, s, c)
    end.
Proof. apply scan_goal_keywords_run. Qed.

Lemma potential_goal_stripped keywords message message_lower goal :
  potential_goal keywords message message_lower = Some goal ->
  truthy goal = true -> has_word goal = true.
Proof.
  induction keywords as [|keyword rest IH]; cbn [potential_goal]; [discriminate|].
  destruct (contains keyword message_lower); [|exact IH].
  intros [= <-]. apply PyStrFacts.strip_has_word.
Qed.

Lemma scan_goal_keywords_change keywords message message_lower s c :
  change (goals_and_progress s)
         (goals_and_progress (scan_goal_keywords keywords message message_lower s c).1.2).
Proof.
  rewrite scan_goal_keywords_run.
  destruct (potential_goal keywords message message_lower) as [goal|] eqn:Hgoal;
    [|constructor].
  destruct (truthy goal) eqn:Htruthy; cbn [andb]; [|constructor].
  destruct (bool_decide (goal ∉ goals (user_profile s))) eqn:Hnew; [|constructor].
  apply bool_decide_eq_true_1 in Hnew.
  apply new_goal; [exact Hnew|].
  eapply potential_goal_stripped; eassumption.
Qed.


Lemma scan_goals_change goals contains_progress s c :
  change (goals_and_progress s)
         (goals_and_progress (scan_goals goals contains_progress s c).1.2).
Proof.
  induction goals as [|goal rest IH]; cbn [scan_goals]; [constructor|].
  destruct (_ && _); [|exact IH].
  destruct s as [uid history p mon]. unfold goals_and_progress. cbn.
  apply new_progress.
Qed.

Lemma store_mental_state_goals_and_progress (found : gmap string Z) :
  keeps goals_and_progress
    (if bool_decide (found ≠ ∅)
     then update_profile (fun p => set_mental_state (store_all found (Profile.mental_state p)) p)
     else ret tt).
Proof. keeps_auto. Qed.

Lemma extract_mental_state_change message message_lower s c :
  change (goals_and_progress s)
         (goals_and_progress (_extract_mental_state message message_lower s c).1.2).
Proof.
  unfold _extract_mental_state. rewrite bind_run.
  rewrite <- (store_mental_state_goals_and_progress (Sports.extract_mental_state message) s c).
  rewrite bind_run. unfold get at 1. cbn [fst snd].
  destruct (_ && _); [apply scan_goals_change|constructor].
Qed.

Lemma update_user_profile_change message s c :
  change (goals_and_progress s) (goals_and_progress (_update_user_profile message s c).1.2).
Proof.
  unfold _update_user_profile, _extract_goals, _extract_progress_updates.
  rewrite !bind_run.
  eapply changes; [|apply extract_mental_state_change].
  rewrite extract_performance_metrics_goals_and_progress.
  unfold ret. cbn [fst snd].
  rewrite extract_emotions_goals_and_progress, extract_preferences_goals_and_progress.
  apply scan_goal_keywords_change.
Qed.

Lemma add_message_change cap role content s c :
  change (goals_and_progress s) (goals_and_progress (add_message cap role content s c).1.2).
Proof.
  rewrite add_message_run. destruct (String.eqb role "user"); [|constructor].
  rewrite bind_run, monitor_safety_goals_and_progress.
  apply (update_user_profile_change content (appended cap role content s c)).
Qed.

Lemma perform_change cap call s c :
  change (goals_and_progress s) (goals_and_progress (perform cap call s c).1.2).
Proof.
  destruct call as [role content|goal value|insight]; cbn [perform].
  - apply add_message_change.
  - destruct s. apply new_progress.
  - apply keeps_no_change, add_insight_goals_and_progress.
Qed.

Lemma perform_all_change cap calls s c :
  change (goals_and_progress s) (goals_and_progress (perform_all cap calls s c).1.2).
Proof.
  unfold perform_all. revert s c.
  induction calls as [|call calls IH]; intros s c; cbn [for_each]; [constructor|].
  rewrite bind_run. eapply changes; [apply perform_change|apply IH].
Qed.

Lemma well_formed_init user_id : well_formed (goals_and_progress (__init__ user_id)).
Proof.
  split; cbn.
  - intros g v. rewrite lookup_empty. discriminate.
  - intros g Hin. inversion Hin.
  - constructor.
  - intros g Hin. inversion Hin.
Qed.

(** Every memory reached from a new one by the public calls is well formed. *)
Lemma well_formed_after cap user_id c calls :
  well_formed (goals_and_progress (after cap user_id c calls)).
Proof.
  eapply well_formed_change; [apply perform_all_change|apply well_formed_init].
Qed.

(** *** The progress update *)




(** *** The safety status *)

Lemma last_hour_run alerts : forall s c,
  (last_hour alerts s c).1.2 = s
  /\ forall alert,
       alert ∈ (last_hour alerts s c).1.1
       <-> exists i, alerts !! i = Some alert /\ recent_at c i alert.
Proof.
  induction alerts as [|x rest IH]; intros s c.
  - split; [reflexivity|]. intros alert. cbn. split.
    + intros H. inversion H.
    + intros (i & H & _). destruct i; discriminate.
  - cbn [last_hour]. cbv beta iota zeta delta [bind time_time ret].
    destruct (IH s {| time_source := time_source c; reads := S (reads c) |}) as [Hs Hin].
    destruct (last_hour rest s _) as [[kept s1] c1]. cbn [fst snd] in *.
    split; [exact Hs|]. intros alert.
    assert (Hhead : Qltb (time_source c (reads c) - stored_timestamp x) 3600 = true
                    <-> recent_at c 0 x).
    { unfold recent_at. rewrite Nat.add_0_r. apply SafetyFacts.Qltb_spec. }
    assert (Htail : (exists i, rest !! i = Some alert
                       /\ recent_at {| time_source := time_source c; reads := S (reads c) |} i alert)
                    <-> exists i, rest !! i = Some alert /\ recent_at c (S i) alert).
    { unfold recent_at. cbn [time_source reads].
      split; intros (i & Hi & Hr); exists i; (split; [exact Hi|]);
        now replace (reads c + S i)%nat with (S (reads c) + i)%nat in * by lia. }
    rewrite <- Hin in Htail.
    split.
    + intros H. destruct (Qltb _ 3600) eqn:Hq.
      * apply elem_of_cons in H as [->|H].
        -- exists 0%nat. split; [reflexivity|]. now apply Hhead.
        -- apply Htail in H as (i & Hi & Hr). exists (S i). auto.
      * apply Htail in H as (i & Hi & Hr). exists (S i). auto.
    + intros ([|i] & Hi & Hr).
      * cbn in Hi. injection Hi as ->. apply Hhead in Hr. rewrite Hr. apply elem_of_cons. auto.
      * assert (alert ∈ kept) by (apply Htail; eauto).
        destruct (Qltb _ 3600); [apply elem_of_cons|]; auto.
Qed.

Lemma filter_positive {A} (f : A -> bool) (l : list A) :
  0 < Z.of_nat (length (List.filter f l)) <-> exists x, x ∈ l /\ f x = true.
Proof.
  split.
  - destruct (List.filter f l) as [|x l'] eqn:Hf; cbn [length]; [lia|]. intros _.
    assert (In x (List.filter f l)) as [Hin Hfx]%filter_In by (rewrite Hf; now left).
    exists x. split; [now apply list_elem_of_In|exact Hfx].
  - intros (x & Hin%list_elem_of_In & Hfx).
    assert (In x (List.filter f l)) as H by (apply filter_In; auto).
    destruct (List.filter f l); [destruct H|]. cbn [length]. lia.
Qed.

(** C8.  On a profile without stored alerts the status is all zeros and
    no escalation.  In every state the status asks for escalation exactly
    when its critical count is positive, that is when some stored alert is
    within the last 3600 seconds at the reading of the clock taken for it
    and has level critical or emergency; and the memory is left as it was. *)
Theorem safety_status_reads_alerts :
  (forall s c,
     safety_alerts (user_profile s) = [] ->
     let status := (get_safety_status s c).1.1 in
     total_alerts status = 0 /\ recent_alerts status = 0 /\ critical_alerts status = 0
     /\ status_escalation_required status = false)
  /\ (forall s c,
        let status := (get_safety_status s c).1.1 in
        (status_escalation_required status = true <-> 0 < critical_alerts status)
        /\ (0 < critical_alerts status
            <-> exists i alert,
                  safety_alerts (user_profile s) !! i = Some alert
                  /\ recent_at c i alert
                  /\ stored_level alert ∈ ["critical"; "emergency"])
        /\ total_alerts status = Z.of_nat (length (safety_alerts (user_profile s)))
        /\ (get_safety_status s c).1.2 = s).
Proof.
  split.
  - intros s c Hnone status. subst status. unfold get_safety_status.
    cbv beta iota zeta delta [bind get ret]. rewrite Hnone. cbn. rewrite Hnone. auto.
  - intros s c status. subst status. unfold get_safety_status.
    cbv beta iota zeta delta [bind get ret].
    destruct (last_hour_run (safety_alerts (user_profile s)) s c) as [Hs Hin].
    destruct (last_hour _ s c) as [[recent s1] c1]. cbn [fst snd] in *. subst s1.
    cbn [status_escalation_required critical_alerts total_alerts].
    split; [apply Z.ltb_lt|]. split; [|auto].
    rewrite filter_positive. split.
    + intros (alert & Hrecent & Hcrit). apply Hin in Hrecent as (i & Hi & Hr).
      exists i, alert. repeat split; auto.
      unfold is_critical in Hcrit. now apply bool_decide_eq_true_1 in Hcrit.
    + intros (i & alert & Hi & Hr & Hlevel). exists alert. split.
      * apply Hin. eauto.
      * unfold is_critical. now apply bool_decide_eq_true_2.
Qed.

Lemma safety_status_reads_alerts_witness :
  let status := (get_safety_status (__init__ "athlete") SafetyTerms.counting_clock).1.1 in
  total_alerts status = 0 /\ recent_alerts status = 0 /\ critical_alerts status = 0
  /\ status_escalation_required status = false.
Proof.
  apply (proj1 safety_status_reads_alerts (__init__ "athlete") SafetyTerms.counting_clock).
  reflexivity.
Defined.

(** *** The claims about the memory *)



(** C3 fails for a cap of zero: [history[-0:]] is the whole list, so
    nothing is ever dropped and the history holds every message; after one
    message its length already exceeds the cap. *)
Theorem history_unbounded_for_cap_zero :
  (forall user_id c calls,
     entry_message <$> conversation_history (after 0 user_id c calls) = messages_of calls)
  /\ Z.of_nat (length (conversation_history
                         (after 0 "athlete" SafetyTerms.counting_clock
                            [AddMessage "coach" "hello"]))) = 1.
Proof.
  split; [|reflexivity].
  intros user_id c calls. unfold after.
  induction calls as [|call calls IH] using rev_ind; [reflexivity|].
  rewrite perform_all_snoc, perform_history, messages_of_snoc.
  destruct call as [role content| |]; rewrite ?app_nil_r; try exact IH.
  rewrite trimmed_zero, fmap_app, IH. reflexivity.
Qed.

(** For a cap of at least one the history never exceeds the cap and holds
    the last [cap] messages in their order. *)
Lemma history_within_positive_cap cap user_id c calls :
  1 <= cap ->
  Z.of_nat (length (conversation_history (after cap user_id c calls))) <= cap
  /\ entry_message <$> conversation_history (after cap user_id c calls)
     = drop (length (messages_of calls) - Z.to_nat cap) (messages_of calls).
Proof.
  intros Hcap. pose proof (history_is_recent_messages cap user_id c calls Hcap) as H.
  split; [|exact H].
  apply (f_equal length) in H. rewrite length_fmap, length_drop in H. lia.
Qed.



(** C10.  After any sequence of [add_message], [update_progress] and
    [add_insight] calls on a new memory, every goal of the profile is a
    key of its progress mapping. *)
Theorem every_goal_has_progress cap user_id c calls goal :
  goal ∈ goals (user_profile (after cap user_id c calls)) ->
  is_Some (progress (user_profile (after cap user_id c calls)) !! goal).
Proof. apply (wf_tracked _ (well_formed_after cap user_id c calls)). Qed.

Lemma every_goal_has_progress_witness :
  is_Some (progress (user_profile
             (after 10 "athlete" SafetyTerms.counting_clock
                [AddMessage "user" "I want to run. I finished the first lap";
                 AddInsight "keen"; UpdateProgress "swim" 7])) !! "run").
Proof.
  apply (every_goal_has_progress 10 "athlete" SafetyTerms.counting_clock
           [AddMessage "user" "I want to run. I finished the first lap";
            AddInsight "keen"; UpdateProgress "swim" 7] "run").
  vm_compute. apply list_elem_of_here.
Defined.





(** Two extractions of the same goal text in a memory with distinct goals. *)
Lemma goal_extracted_once_when_distinct cap s c first second goal calls :
  extracted_goal first = Some goal ->
  extracted_goal second = Some goal ->
  NoDup (goals (user_profile s)) ->
  let r1 := _extract_goals first (lower first) s c in
  let r2 := perform_all cap calls r1.1.2 r1.2 in
  let r3 := _extract_goals second (lower second) r2.1.2 r2.2 in
  (truthy goal = true -> goal ∉ goals (user_profile s) ->
     goals (user_profile r1.1.2) = goals (user_profile s) ++ [goal]
     /\ progress (user_profile r1.1.2) !! goal = Some 0%Q)
  /\ (truthy goal = true -> goal ∈ goals (user_profile r2.1.2))
  /\ r3 = (tt, r2.1.2, r2.2)
  /\ NoDup (goals (user_profile r3.1.2)).
Proof.
  intros Hfirst Hsecond Hdistinct r1 r2 r3.
  assert (Hr1 : change (goals_and_progress s) (goals_and_progress r1.1.2))
    by apply scan_goal_keywords_change.
  assert (Hr2 : change (goals_and_progress r1.1.2) (goals_and_progress r2.1.2))
    by apply perform_all_change.
  assert (Hlisted : truthy goal = true -> goal ∈ goals (user_profile r1.1.2)).
  { intros Htruthy. subst r1. rewrite extract_goals_run, Hfirst, Htruthy. cbn [andb].
    destruct (bool_decide (goal ∉ goals (user_profile s))) eqn:Hnew.
    - cbn. apply elem_of_app. right. apply list_elem_of_here.
    - apply bool_decide_eq_false_1 in Hnew. cbn [fst snd].
      destruct (decide (goal ∈ goals (user_profile s))); [assumption|contradiction]. }
  assert (Hkept : truthy goal = true -> goal ∈ goals (user_profile r2.1.2)).
  { intros Htruthy. apply (proj1 (change_goals _ _ Hr2)), Hlisted, Htruthy. }
  assert (Hr3 : r3 = (tt, r2.1.2, r2.2)).
  { subst r3. rewrite extract_goals_run, Hsecond.
    destruct (truthy goal) eqn:Htruthy; cbn [andb]; [|reflexivity].
    rewrite bool_decide_eq_false_2; [reflexivity|]. intros Hnot. now apply Hnot, Hkept. }
  repeat split.
  - subst r1. rewrite extract_goals_run, Hfirst, H. cbn [andb].
    now rewrite bool_decide_eq_true_2 by assumption.
  - subst r1. rewrite extract_goals_run, Hfirst, H. cbn [andb].
    rewrite bool_decide_eq_true_2 by assumption. cbn. apply lookup_insert_eq.
  - exact Hkept.
  - exact Hr3.
  - rewrite Hr3. cbn [fst snd].
    apply (proj2 (change_goals _ _ Hr2)), (proj2 (change_goals _ _ Hr1)), Hdistinct.
Qed.

(** C7.  In every memory the calls can reach, two messages that yield
    the same goal text: the first extraction lists the goal with progress
    0 when it is new; whatever calls come in between, the second
    extraction changes nothing, so the goal stays listed, is not
    duplicated, and its progress is not reset. *)
Theorem goal_extracted_once cap user_id c0 before c first second goal calls :
  extracted_goal first = Some goal ->
  extracted_goal second = Some goal ->
  let s := after cap user_id c0 before in
  let r1 := _extract_goals first (lower first) s c in
  let r2 := perform_all cap calls r1.1.2 r1.2 in
  let r3 := _extract_goals second (lower second) r2.1.2 r2.2 in
  (truthy goal = true -> goal ∉ goals (user_profile s) ->
     goals (user_profile r1.1.2) = goals (user_profile s) ++ [goal]
     /\ progress (user_profile r1.1.2) !! goal = Some 0%Q)
  /\ (truthy goal = true -> goal ∈ goals (user_profile r2.1.2))
  /\ r3 = (tt, r2.1.2, r2.2)
  /\ NoDup (goals (user_profile r3.1.2)).
Proof.
  intros Hfirst Hsecond s.
  apply goal_extracted_once_when_distinct; [exact Hfirst|exact Hsecond|].
  apply (wf_distinct _ (well_formed_after cap user_id c0 before)).
Qed.

Lemma goal_extracted_once_witness :
  let s := after 10 "athlete" SafetyTerms.counting_clock [AddInsight "keen"] in
  let r1 := _extract_goals "I want to run." (lower "I want to run.") s
              SafetyTerms.counting_clock in
  let r2 := perform_all 10 [AddMessage "user" "I finished the first lap"] r1.1.2 r1.2 in
  let r3 := _extract_goals "My goal run" (lower "My goal run") r2.1.2 r2.2 in
  r3 = (tt, r2.1.2, r2.2) /\ NoDup (goals (user_profile r3.1.2)).
Proof.
  intros s r1 r2 r3.
  destruct (goal_extracted_once 10 "athlete" SafetyTerms.counting_clock [AddInsight "keen"]
              SafetyTerms.counting_clock "I want to run." "My goal run" "run"
              [AddMessage "user" "I finished the first lap"] eq_refl eq_refl)
    as (_ & _ & Hsame & Hdistinct).
  split; [exact Hsame|exact Hdistinct].
Defined.

End MemoryFacts.

(** ** More about the safety monitor *)
Module MoreSafetyFacts.
Import PyStr Re Profile Safety SafetyTerms SafetyFacts MoreSafetyTerms.

(** *** A property of every alert of every detector *)

Lemma run_detectors_Forall (P : SafetyAlert -> Prop) message user_id ds :
  Forall (fun d => forall h c, Forall P (d message user_id h c).1.1) ds ->
  forall acc h c, Forall P acc -> Forall P (run_detectors ds message user_id acc h c).1.1.
Proof.
  induction 1 as [|d ds Hd _ IH]; intros acc h c Hacc; [exact Hacc|].
  cbn [run_detectors]. unfold bind. specialize (Hd h c).
  destruct (d message user_id h c) as [[found h1] c1]. cbn [fst] in Hd.
  apply IH. apply Forall_app. auto.
Qed.

Lemma monitor_message_Forall (P : SafetyAlert -> Prop) message user_id :
  Forall (fun d => forall h c, Forall P (d (lower message) user_id h c).1.1) detectors ->
  forall h c, Forall P (monitor_message message user_id h c).1.1.
Proof.
  intros Hds h c. unfold monitor_message, bind, modify, ret.
  pose proof (run_detectors_Forall P (lower message) user_id detectors Hds [] h c
                (Forall_nil_2 P)) as H.
  destruct (run_detectors _ _ _ _ _ _) as [[found h1] c1]. exact H.
Qed.

Ltac solve_levels d :=
  intros ? ?; run_detector d; cbn [fst snd app]; repeat constructor.

Lemma check_ratings_levels message user_id patterns : forall acc h c,
  Forall escalation_fits_level acc ->
  Forall escalation_fits_level (check_ratings message user_id acc patterns h c).1.1.
Proof.
  intros acc h c Hacc.
  destruct (check_ratings_spec message user_id patterns acc h c) as (_ & new & -> & _ & Hnew).
  apply Forall_app. split; [exact Hacc|].
  eapply Forall_impl; [exact Hnew|].
  intros a (_ & Hlevel & _). unfold escalation_fits_level. now rewrite Hlevel.
Qed.

(** X1.  In every alert [monitor_message] returns, INFO goes without
    escalation and CRITICAL and EMERGENCY go with it. *)
Theorem escalation_follows_severity message user_id h c :
  Forall escalation_fits_level (monitor_message message user_id h c).1.1.
Proof.
  apply monitor_message_Forall. unfold detectors.
  repeat apply Forall_cons_2; try apply Forall_nil_2.
  - solve_levels _detect_overtraining.
  - solve_levels _detect_data_inconsistency.
  - solve_levels _detect_low_engagement.
  - solve_levels _detect_resistance.
  - solve_levels _detect_creativity_misuse.
  - solve_levels _detect_mental_health_risks.
  - solve_levels _detect_performance_drop.
  - solve_levels _detect_team_conflict.
  - solve_levels _detect_reward_misuse.
  - solve_levels _detect_language_barriers.
  - intros h0 c0. unfold _detect_false_reporting, bind.
    pose proof (check_ratings_levels (lower message) user_id rating_patterns [] h0 c0
                  (Forall_nil_2 _)) as H.
    destruct (check_ratings _ _ _ _ _ _) as [[found h1] c1]. exact H.
  - solve_levels _detect_burnout_vs_laziness.
Qed.

(** *** One clock reading per alert *)

Lemma later_0 c : later c 0 = c.
Proof. destruct c. unfold later. cbn. now rewrite Nat.add_0_r. Qed.

Lemma later_later c n m : later (later c n) m = later c (n + m).
Proof. unfold later. cbn. f_equal. lia. Qed.

Lemma stamped_nil user_id c : stamped user_id c [].
Proof. intros i a H. destruct i; discriminate. Qed.

Lemma stamped_app user_id c l1 l2 :
  stamped user_id c l1 -> stamped user_id (later c (length l1)) l2 ->
  stamped user_id c (l1 ++ l2).
Proof.
  intros H1 H2 i a Hi. apply lookup_app_Some in Hi as [Hi|[Hge Hi]].
  - now apply H1.
  - destruct (H2 _ _ Hi) as [Hu Ht]. split; [exact Hu|]. rewrite Ht. cbn.
    f_equal. lia.
Qed.

Ltac solve_stamps d :=
  intros message user_id h [source n]; run_detector d;
  cbn [fst snd app length time_source reads];
  (split;
   [ unfold later; cbn [time_source reads]; f_equal; lia
   | intros i a Hi;
     repeat (destruct i as [|i]; cbn in Hi; try discriminate);
     injection Hi as <-; cbn [Safety.user_id timestamp time_source reads];
     (split; [reflexivity | f_equal; lia]) ]).

Lemma overtraining_stamps : stamps _detect_overtraining.
Proof. solve_stamps _detect_overtraining. Qed.
Lemma data_inconsistency_stamps : stamps _detect_data_inconsistency.
Proof. solve_stamps _detect_data_inconsistency. Qed.
Lemma low_engagement_stamps : stamps _detect_low_engagement.
Proof. solve_stamps _detect_low_engagement. Qed.
Lemma resistance_stamps : stamps _detect_resistance.
Proof. solve_stamps _detect_resistance. Qed.
Lemma creativity_misuse_stamps : stamps _detect_creativity_misuse.
Proof. solve_stamps _detect_creativity_misuse. Qed.
Lemma mental_health_risks_stamps : stamps _detect_mental_health_risks.
Proof. solve_stamps _detect_mental_health_risks. Qed.
Lemma performance_drop_stamps : stamps _detect_performance_drop.
Proof. solve_stamps _detect_performance_drop. Qed.
Lemma team_conflict_stamps : stamps _detect_team_conflict.
Proof. solve_stamps _detect_team_conflict. Qed.
Lemma reward_misuse_stamps : stamps _detect_reward_misuse.
Proof. solve_stamps _detect_reward_misuse. Qed.
Lemma language_barriers_stamps : stamps _detect_language_barriers.
Proof. solve_stamps _detect_language_barriers. Qed.
Lemma burnout_vs_laziness_stamps : stamps _detect_burnout_vs_laziness.
Proof. solve_stamps _detect_burnout_vs_laziness. Qed.

Lemma check_ratings_stamps message user_id patterns : forall acc h c,
  exists new,
    (check_ratings message user_id acc patterns h c).1.1 = acc ++ new
    /\ (check_ratings message user_id acc patterns h c).2 = later c (length new)
    /\ stamped user_id c new.
Proof.
  induction patterns as [|pattern rest IH]; intros acc h c.
  - exists []. cbn. rewrite app_nil_r, later_0.
    split; [reflexivity|split; [reflexivity|apply stamped_nil]].
  - cbn [check_ratings]. unfold bind at 1 2. unfold check_rating at 1 2.
    destruct (search pattern message) as [m|].
    + unfold_effects.
      destruct (bool_decide (performance_metrics (profile h) ≠ ∅)).
      * destruct (Qgtb _ _).
        -- match goal with
           | |- context [check_ratings _ _ (acc ++ [?a]) rest h ?c'] =>
               destruct (IH (acc ++ [a]) h c') as (new & Hnew & Hclock & Hstamped);
               exists (a :: new)
           end.
           rewrite Hnew, Hclock, <- app_assoc. cbn [app length].
           split; [reflexivity|]. split.
           ++ unfold later. cbn. f_equal. lia.
           ++ apply (stamped_app user_id c [_] new).
              ** intros i a Hi. destruct i as [|i]; [|destruct i; discriminate].
                 injection Hi as <-. cbn. rewrite Nat.add_0_r. auto.
              ** cbn [length]. unfold later. cbn [time_source reads].
                 replace (reads c + 1)%nat with (S (reads c)) by lia. exact Hstamped.
        -- apply IH.
      * apply IH.
    + unfold_effects. apply IH.
Qed.

Lemma false_reporting_stamps : stamps _detect_false_reporting.
Proof.
  intros message user_id h c. unfold _detect_false_reporting, bind.
  destruct (check_ratings_stamps message user_id rating_patterns [] h c)
    as (new & Hnew & Hclock & Hstamped).
  destruct (check_ratings _ _ _ _ _ _) as [[found h1] c1]. cbn [fst snd ret app] in *.
  subst found c1. auto.
Qed.

Lemma run_detectors_stamps message user_id ds :
  Forall stamps ds ->
  forall acc h c,
    exists new,
      (run_detectors ds message user_id acc h c).1.1 = acc ++ new
      /\ (run_detectors ds message user_id acc h c).2 = later c (length new)
      /\ stamped user_id c new.
Proof.
  induction 1 as [|d ds Hd _ IH]; intros acc h c.
  - exists []. cbn. rewrite app_nil_r, later_0.
    split; [reflexivity|split; [reflexivity|apply stamped_nil]].
  - cbn [run_detectors]. unfold bind. destruct (Hd message user_id h c) as [Hc Hs].
    destruct (d message user_id h c) as [[found h1] c1]. cbn [fst snd] in *. subst c1.
    destruct (IH (acc ++ found) h1 (later c (length found))) as (new & Hnew & Hclock & Hstamped).
    exists (found ++ new). rewrite Hnew, Hclock, app_assoc, length_app, later_later.
    split; [reflexivity|split; [reflexivity|now apply stamped_app]].
Qed.

Lemma monitor_message_stamps message user_id h c :
  (monitor_message message user_id h c).2
  = later c (length (monitor_message message user_id h c).1.1)
  /\ stamped user_id c (monitor_message message user_id h c).1.1.
Proof.
  unfold monitor_message, bind, modify, ret.
  destruct (run_detectors_stamps (lower message) user_id detectors) with
    (acc := @nil SafetyAlert) (h := h) (c := c) as (new & Hnew & Hclock & Hstamped).
  { unfold detectors. repeat apply Forall_cons_2; try apply Forall_nil_2.
    - apply overtraining_stamps.
    - apply data_inconsistency_stamps.
    - apply low_engagement_stamps.
    - apply resistance_stamps.
    - apply creativity_misuse_stamps.
    - apply mental_health_risks_stamps.
    - apply performance_drop_stamps.
    - apply team_conflict_stamps.
    - apply reward_misuse_stamps.
    - apply language_barriers_stamps.
    - apply false_reporting_stamps.
    - apply burnout_vs_laziness_stamps. }
  destruct (run_detectors _ _ _ _ _ _) as [[found h1] c1]. cbn [fst snd app] in *.
  subst found c1. split; [reflexivity|exact Hstamped].
Qed.

(** X2.  [monitor_message] reads the clock exactly once per alert it
    returns: the i-th alert carries the i-th reading and the user id of
    the call, and afterwards the clock has been read that many times. *)
Theorem alerts_are_stamped_in_order message user_id h c :
  let returned := (monitor_message message user_id h c).1.1 in
  (monitor_message message user_id h c).2 = later c (length returned)
  /\ forall i a, returned !! i = Some a ->
       Safety.user_id a = user_id /\ timestamp a = time_source c (reads c + i).
Proof. apply monitor_message_stamps. Qed.

Lemma alerts_are_stamped_in_order_witness :
  exists a,
    (monitor_message "ok" "athlete" (fresh_heap empty_profile) counting_clock).1.1 !! 0%nat
    = Some a
    /\ Safety.user_id a = "athlete"
    /\ timestamp a = time_source counting_clock (reads counting_clock + 0).
Proof.
  eexists. split; [vm_compute; reflexivity|].
  apply (proj2 (alerts_are_stamped_in_order "ok" "athlete" (fresh_heap empty_profile)
                  counting_clock) 0%nat).
  vm_compute. reflexivity.
Defined.

(** *** Short messages *)






(** *** How many keywords it takes *)

Lemma thirteenths_above n :
  Qgtb (QZ n / QZ (Z.of_nat (length overtraining_indicators))) fatigue_score_threshold = true
  <-> 11 <= n.
Proof.
  change (Z.of_nat (length overtraining_indicators)) with 13.
  rewrite Qgtb_spec. unfold Qlt, Qdiv, Qmult, Qinv, QZ, inject_Z, fatigue_score_threshold.
  cbn. lia.
Qed.

Lemma twelfths_above n :
  Qgtb (QZ n / QZ (Z.of_nat (length resistance_patterns))) resistance_threshold = true
  <-> 8 <= n.
Proof.
  change (Z.of_nat (length resistance_patterns)) with 12.
  rewrite Qgtb_spec. unfold Qlt, Qdiv, Qmult, Qinv, QZ, inject_Z, resistance_threshold.
  cbn. lia.
Qed.

Lemma tenths_above n :
  Qgtb (QZ n / QZ (Z.of_nat (length anxiety_indicators)
                   + Z.of_nat (length depression_indicators)))
       mental_health_risk_threshold = true
  <-> 8 <= n.
Proof.
  change (Z.of_nat (length anxiety_indicators) + Z.of_nat (length depression_indicators))
    with 10.
  rewrite Qgtb_spec.
  unfold Qlt, Qdiv, Qmult, Qinv, QZ, inject_Z, mental_health_risk_threshold.
  cbn. lia.
Qed.

(** X4.  The ratio thresholds in whole keywords.  The overtraining WARNING
    needs at least 11 of the 13 fatigue words, the resistance WARNING at
    least 8 of the 12 resistance phrases, and the anxiety-or-depression
    WARNING at least 8 of the 10 indicator words. *)
Theorem warnings_need_many_keywords message user_id h c :
  ((exists a, a ∈ (_detect_overtraining message user_id h c).1.1 /\ level a = WARNING)
   <-> 11 <= count_in overtraining_indicators message)
  /\ ((_detect_resistance message user_id h c).1.1 <> []
      <-> 8 <= count_in resistance_patterns message)
  /\ ((exists a, a ∈ (_detect_mental_health_risks message user_id h c).1.1
                 /\ level a = WARNING)
      <-> 8 <= count_in anxiety_indicators message
               + count_in depression_indicators message).
Proof.
  split; [|split].
  - unfold _detect_overtraining. unfold_effects.
    pose proof (thirteenths_above (count_in overtraining_indicators message)) as Hn.
    destruct (Qgtb _ _) eqn:E.
    + split; [intros _; now apply Hn|intros _].
      destruct (_ && _); cbn [fst snd app]; eexists;
        (split; [apply list_elem_of_here|reflexivity]).
    + split; [|intros HP; apply Hn in HP; discriminate].
      destruct (_ && _); cbn [fst snd app]; intros (a & Hin & Hlevel).
      * apply list_elem_of_singleton in Hin. subst a. discriminate.
      * inversion Hin.
  - unfold _detect_resistance. unfold_effects.
    pose proof (twelfths_above (count_in resistance_patterns message)) as Hn.
    destruct (Qgtb _ _) eqn:E; cbn [fst snd app].
    + split; [intros _; now apply Hn|discriminate].
    + split; [congruence|intros HP; apply Hn in HP; discriminate].
  - unfold _detect_mental_health_risks. unfold_effects.
    pose proof (tenths_above (count_in anxiety_indicators message
                              + count_in depression_indicators message)) as Hn.
    destruct (Qgtb _ _) eqn:E.
    + split; [intros _; now apply Hn|intros _].
      destruct (0 <? _); cbn [fst snd app].
      * eexists. split; [apply list_elem_of_further, list_elem_of_here|reflexivity].
      * eexists. split; [apply list_elem_of_here|reflexivity].
    + split; [|intros HP; apply Hn in HP; discriminate].
      destruct (0 <? _); cbn [fst snd app]; intros (a & Hin & Hlevel).
      * apply list_elem_of_singleton in Hin. subst a. discriminate.
      * inversion Hin.
Qed.

(** *** Enthusiasm *)

(** X5.  The enthusiasm score always lies between 0 and 1, and a message
    without words scores one half. *)
Theorem enthusiasm_score_in_unit_interval message :
  (0 <= _calculate_enthusiasm_score message <= 1)%Q
  /\ (split message = [] -> _calculate_enthusiasm_score message = 0.5%Q).
Proof.
  unfold _calculate_enthusiasm_score. split.
  - destruct (_ =? 0); [lra|].
    set (x := (_ + 0.5)%Q).
    destruct (Q.min_spec 1 x) as [[H1 E1]|[H1 E1]];
      destruct (Q.max_spec 0 (Qmin 1 x)) as [[H2 E2]|[H2 E2]];
      rewrite E2; rewrite ?E1 in *; lra.
  - intros ->. reflexivity.
Qed.

Lemma enthusiasm_score_in_unit_interval_witness :
  _calculate_enthusiasm_score "   " = 0.5%Q.
Proof.
  apply (proj2 (enthusiasm_score_in_unit_interval "   ")). reflexivity.
Defined.

(** *** No metrics to compare with *)




(** *** Recommendations *)

Lemma group_alert_keys alert cats :
  (group_alert alert cats).*1
  = if decide (category alert ∈ cats.*1) then cats.*1 else cats.*1 ++ [category alert].
Proof.
  induction cats as [|[c l] cats IH]; cbn [group_alert].
  - destruct (decide (category alert ∈ [].*1)) as [Hin|_]; [inversion Hin|reflexivity].
  - destruct (decide (c = category alert)) as [Heq|Hne].
    + rewrite bool_decide_eq_true_2 by exact Heq. rewrite !fmap_cons. cbn [fst].
      destruct (decide (category alert ∈ c :: cats.*1)) as [_|Hnot]; [reflexivity|].
      exfalso. apply Hnot. rewrite Heq. apply list_elem_of_here.
    + rewrite bool_decide_eq_false_2 by exact Hne.
      rewrite !fmap_cons, IH. cbn [fst].
      destruct (decide (category alert ∈ cats.*1)) as [Hin|Hnot];
        destruct (decide (category alert ∈ c :: cats.*1)) as [Hin'|Hnot'].
      * reflexivity.
      * exfalso. apply Hnot'. now apply list_elem_of_further.
      * apply elem_of_cons in Hin' as [Heq|Hin']; [congruence|contradiction].
      * reflexivity.
Qed.

Lemma grouped_keys found : forall cats,
  let grouped := fold_left (fun cats alert => group_alert alert cats) found cats in
  (NoDup cats.*1 -> NoDup grouped.*1)
  /\ forall c, c ∈ grouped.*1 <-> c ∈ cats.*1 \/ exists a, a ∈ found /\ category a = c.
Proof.
  induction found as [|alert found IH]; intros cats grouped; subst grouped; cbn [fold_left].
  - split; [auto|]. intros c. split; [auto|]. intros [H|(a & Hin & _)]; [exact H|inversion Hin].
  - destruct (IH (group_alert alert cats)) as [Hdistinct Hin].
    pose proof (group_alert_keys alert cats) as Hkeys.
    destruct (decide (category alert ∈ cats.*1)) as [Hold|Hnew]; split.
    + intros Hd. apply Hdistinct. now rewrite Hkeys.
    + intros c. rewrite Hin, Hkeys. split.
      * intros [H|(a & Ha & Hc)]; [now left|].
        right. exists a. split; [now apply list_elem_of_further|exact Hc].
      * intros [H|(a & Ha & Hc)]; [now left|].
        apply elem_of_cons in Ha as [->|Ha]; [left; now subst c|right; eauto].
    + intros Hd. apply Hdistinct. rewrite Hkeys.
      apply NoDup_app. repeat split; [exact Hd| |apply NoDup_singleton].
      intros x Hx Hx'. apply list_elem_of_singleton in Hx'. subst x. contradiction.
    + intros c. rewrite Hin, Hkeys. split.
      * intros [H|(a & Ha & Hc)].
        -- apply elem_of_app in H as [H|H]; [now left|].
           apply list_elem_of_singleton in H. subst c.
           right. exists alert. split; [apply list_elem_of_here|reflexivity].
        -- right. exists a. split; [now apply list_elem_of_further|exact Hc].
      * intros [H|(a & Ha & Hc)].
        -- left. apply elem_of_app. now left.
        -- apply elem_of_cons in Ha as [->|Ha]; [|right; eauto].
           left. subst c. apply elem_of_app. right. apply list_elem_of_here.
Qed.

Lemma recommendation_inj c1 c2 : recommendation c1 = recommendation c2 -> c1 = c2.
Proof. destruct c1, c2; intros H; try reflexivity; discriminate H. Qed.

Lemma alerts_of_user_spec user_id log a :
  a ∈ alerts_of_user user_id log <-> a ∈ log /\ Safety.user_id a = user_id.
Proof.
  unfold alerts_of_user. rewrite !list_elem_of_In, filter_In, String.eqb_eq. reflexivity.
Qed.

(** X7.  [get_safety_recommendations] answers with the one "no concerns"
    sentence when the log holds no alert of the user; otherwise it gives
    one recommendation for each category among the user's alerts, each
    exactly once. *)
Theorem one_recommendation_per_category self user_id :
  let given := get_safety_recommendations self user_id in
  (Forall (fun a => Safety.user_id a <> user_id) (alerts self) -> given = [no_concerns])
  /\ (Exists (fun a => Safety.user_id a = user_id) (alerts self) ->
      NoDup given
      /\ forall r, r ∈ given
           <-> exists a, a ∈ alerts self /\ Safety.user_id a = user_id
                         /\ r = recommendation (category a)).
Proof.
  intros given. subst given. unfold get_safety_recommendations.
  fold (alerts_of_user user_id (alerts self)).
  split.
  - intros Hnone.
    destruct (alerts_of_user user_id (alerts self)) as [|a l] eqn:E; [reflexivity|].
    assert (a ∈ alerts_of_user user_id (alerts self)) as [Hin Hu]%alerts_of_user_spec
      by (rewrite E; apply list_elem_of_here).
    rewrite Forall_forall in Hnone. now apply Hnone in Hin.
  - intros (a0 & Hin0 & Hu0)%Exists_exists.
    assert (a0 ∈ alerts_of_user user_id (alerts self)) as Hsome
      by (apply alerts_of_user_spec; auto).
    destruct (alerts_of_user user_id (alerts self)) as [|a l] eqn:E; [inversion Hsome|].
    rewrite <- E. clear Hsome a l E.
    destruct (grouped_keys (alerts_of_user user_id (alerts self)) []) as [Hdistinct Hin].
    set (grouped := fold_left _ _ _) in *.
    assert (Hmap : ((fun '(c, _) => recommendation c) <$> grouped)
                   = recommendation <$> grouped.*1).
    { rewrite <- list_fmap_compose. apply list_fmap_ext. now intros i [c l]. }
    rewrite Hmap. split.
    + apply NoDup_fmap_2; [intros c1 c2; apply recommendation_inj|].
      apply Hdistinct. constructor.
    + intros r. rewrite list_elem_of_fmap. split.
      * intros (c & -> & Hc). apply Hin in Hc as [Hc|(a & Ha & <-)]; [inversion Hc|].
        apply alerts_of_user_spec in Ha as [Ha Hu]. eauto.
      * intros (a & Ha & Hu & ->). exists (category a). split; [reflexivity|].
        apply Hin. right. exists a. split; [|reflexivity].
        apply alerts_of_user_spec. auto.
Qed.

Lemma one_recommendation_per_category_witness :
  get_safety_recommendations __init__ "athlete" = [no_concerns].
Proof.
  apply (proj1 (one_recommendation_per_category __init__ "athlete")). constructor.
Defined.

Lemma alerts_of_other_user user_id other log :
  other <> user_id ->
  alerts_of_user other
    (List.filter (fun alert => negb (String.eqb (Safety.user_id alert) user_id)) log)
  = alerts_of_user other log.
Proof.
  intros Hne. unfold alerts_of_user. induction log as [|a log IH]; [reflexivity|].
  cbn [List.filter].
  destruct (String.eqb (Safety.user_id a) user_id) eqn:Eu; cbn [negb List.filter].
  - apply String.eqb_eq in Eu.
    destruct (String.eqb (Safety.user_id a) other) eqn:Eo; [|exact IH].
    apply String.eqb_eq in Eo. congruence.
  - rewrite IH. reflexivity.
Qed.

(** X8.  [clear_user_alerts] removes the alerts of that user only.  After
    it the user's recommendations are back to "no concerns", every other
    user gets the recommendations they had, and the engagement metrics
    and the profile are as before (the engagement history of the user is
    not forgotten). *)
Theorem clear_user_alerts_forgets_one_user user_id h c :
  let h' := (clear_user_alerts user_id h c).1.2 in
  get_safety_recommendations (self h') user_id = [no_concerns]
  /\ (forall other, other <> user_id ->
        alerts_of_user other (alerts (self h')) = alerts_of_user other (alerts (self h))
        /\ get_safety_recommendations (self h') other
           = get_safety_recommendations (self h) other)
  /\ engagement_metrics (self h') = engagement_metrics (self h)
  /\ profile h' = profile h
  /\ (clear_user_alerts user_id h c).2 = c.
Proof.
  intros h'. subst h'. unfold clear_user_alerts, modify. cbn [fst snd].
  cbn [self set_self alerts set_alerts engagement_metrics profile].
  split; [|split; [|auto]].
  - unfold get_safety_recommendations, set_alerts. cbn [alerts].
    set (log' := List.filter (fun alert => negb (String.eqb (Safety.user_id alert) user_id))
                   (alerts (self h))).
    fold (alerts_of_user user_id log').
    destruct (alerts_of_user user_id log') as [|a l] eqn:E; [reflexivity|].
    assert (a ∈ a :: l) as Hin by apply list_elem_of_here.
    rewrite <- E in Hin. apply alerts_of_user_spec in Hin as [Hin Hu]. subst log'.
    apply list_elem_of_In, filter_In in Hin as [_ Hin].
    apply negb_true_iff in Hin. apply String.eqb_neq in Hin. contradiction.
  - intros other Hother.
    pose proof (alerts_of_other_user user_id other (alerts (self h)) Hother) as Hsame.
    split; [exact Hsame|].
    unfold get_safety_recommendations, set_alerts. cbn [alerts].
    unfold alerts_of_user in Hsame. rewrite Hsame. reflexivity.
Qed.

Lemma clear_user_alerts_forgets_one_user_witness :
  let h := (monitor_message "ok" "athlete" (fresh_heap empty_profile) counting_clock).1.2 in
  let h' := (clear_user_alerts "athlete" h counting_clock).1.2 in
  alerts_of_user "captain" (alerts (self h')) = alerts_of_user "captain" (alerts (self h))
  /\ get_safety_recommendations (self h') "captain"
     = get_safety_recommendations (self h) "captain".
Proof.
  intros h.
  apply (clear_user_alerts_forgets_one_user "athlete" h counting_clock).
  discriminate.
Defined.

End MoreSafetyFacts.

(** ** More about the user memory *)
Module MoreMemoryFacts.
Import PyStr Profile Memory MemoryTerms MemoryFacts MoreMemoryTerms.

(** *** Storing extracted entries *)



(** *** What each step leaves alone *)

Lemma add_insight_but_insights insight : keeps but_insights (add_insight insight).
Proof. unfold add_insight. keeps_auto. Qed.

Lemma scan_goal_keywords_rest keywords message message_lower :
  keeps but_goals_progress_insights (scan_goal_keywords keywords message message_lower).
Proof.
  induction keywords as [|keyword rest IH]; cbn [scan_goal_keywords].
  - keeps_auto.
  - destruct (contains keyword message_lower); [|exact IH]. keeps_auto.
Qed.

Lemma extract_preferences_rest message message_lower :
  keeps but_preferences (_extract_preferences message message_lower).
Proof. unfold _extract_preferences. keeps_auto. Qed.

Lemma extract_emotions_rest message message_lower :
  keeps but_insights (_extract_emotions_and_insights message message_lower).
Proof. unfold _extract_emotions_and_insights. keeps_auto. Qed.

Lemma extract_performance_metrics_rest message message_lower :
  keeps but_performance_metrics (_extract_performance_metrics message message_lower).
Proof. unfold _extract_performance_metrics. keeps_auto. Qed.

Lemma scan_goals_rest gs contains_progress :
  keeps (fun s => (but_goals_progress_insights s, goals (user_profile s)))
    (scan_goals gs contains_progress).
Proof.
  induction gs as [|goal rest IH]; cbn [scan_goals].
  - keeps_auto.
  - destruct (_ && _); [|exact IH]. keeps_auto.
    unfold update_progress. keeps_auto.
Qed.

Ltac from_kept L :=
  let H := fresh "H" in
  intros s c; pose proof (L s c) as H;
  cbv beta delta [but_insights but_goals_progress_insights but_preferences
                  but_performance_metrics but_mental_progress_insights but_safety
                  safety_side surroundings] in *;
  congruence.

Lemma store_mental_state_rest (found : gmap string Z) :
  keeps (fun s => (but_mental_progress_insights s, progress (user_profile s),
                   insights (user_profile s)))
    (if bool_decide (found ≠ ∅)
     then update_profile (fun p => set_mental_state (store_all found (Profile.mental_state p)) p)
     else ret tt).
Proof. keeps_auto. Qed.

Lemma extract_mental_state_rest message message_lower :
  keeps but_mental_progress_insights (_extract_mental_state message message_lower).
Proof.
  unfold _extract_mental_state.
  apply keeps_bind; [from_kept (store_mental_state_rest (Sports.extract_mental_state message))|].
  intros _. keeps_auto.
  from_kept (scan_goals_rest (goals (user_profile a)) (any_in progress_keywords message_lower)).
Qed.

(** [_update_user_profile] leaves the safety side of the memory alone. *)
Lemma update_user_profile_safety_side message :
  keeps safety_side (_update_user_profile message).
Proof.
  assert (Hinside : keeps (fun s => (safety_alerts (user_profile s),
                                       safety_recommendations (user_profile s)))
                      (_update_user_profile message)).
  { unfold _update_user_profile, _extract_goals, _extract_progress_updates.
    apply keeps_bind; [from_kept (scan_goal_keywords_rest goal_keywords message (lower message))
                      |intros _].
    apply keeps_bind; [from_kept (extract_preferences_rest message (lower message))|intros _].
    apply keeps_bind; [from_kept (extract_emotions_rest message (lower message))|intros _].
    apply keeps_bind; [apply keeps_ret|intros _].
    apply keeps_bind; [from_kept (extract_performance_metrics_rest message (lower message))
                      |intros _].
    from_kept (extract_mental_state_rest message (lower message)). }
  pose proof (update_user_profile_outside surroundings (fun p s => eq_refl) message) as Hout.
  intros s c. specialize (Hinside s c). specialize (Hout s c).
  unfold safety_side, surroundings in *. congruence.
Qed.

(** *** Extracted metrics overwrite, the rest stays *)



Lemma monitor_safety_but_safety message : keeps but_safety (_monitor_safety message).
Proof.
  intros s c. unfold _monitor_safety.
  rewrite bind_run. unfold get at 1. cbn [fst snd]. rewrite bind_run.
  assert (Hrest : forall found,
    keeps but_safety
      (for_each found store_alert ;;;
       self <- get ;;
       update_profile (set_safety_recommendations
         (Safety.get_safety_recommendations (safety_monitor self) (user_id self))) ;;;
       (if bool_decide (Safety.get_escalation_alerts (safety_monitor self) ≠ [])
        then add_insight "URGENT: Safety escalation required - immediate attention needed"
        else ret tt))).
  { intros found.
    apply keeps_bind; [apply keeps_for_each; intros ?; unfold store_alert|intros ?];
      keeps_auto. }
  rewrite Hrest, zoom_monitor_message. reflexivity.
Qed.

(** What [_monitor_safety] does to the monitor: the call of
    [monitor_message], nothing more. *)
Lemma monitor_safety_monitor message s c :
  safety_monitor (_monitor_safety message s c).1.2
  = Safety.self (Safety.monitor_message message (user_id s) (heap_of s) c).1.2.
Proof.
  unfold _monitor_safety.
  rewrite bind_run. unfold get at 1. cbn [fst snd]. rewrite bind_run.
  assert (Hrest : forall found,
    keeps safety_monitor
      (for_each found store_alert ;;;
       self <- get ;;
       update_profile (set_safety_recommendations
         (Safety.get_safety_recommendations (safety_monitor self) (user_id self))) ;;;
       (if bool_decide (Safety.get_escalation_alerts (safety_monitor self) ≠ [])
        then add_insight "URGENT: Safety escalation required - immediate attention needed"
        else ret tt))).
  { intros found.
    apply keeps_bind; [apply keeps_for_each; intros ?; unfold store_alert|intros ?];
      keeps_auto. }
  rewrite Hrest, zoom_monitor_message. reflexivity.
Qed.

(** ** The safety pass, stage by stage *)

Lemma zoom_monitor_message_run message uid s c :
  zoom heap_of store_heap (Safety.monitor_message message uid) s c
  = ((Safety.monitor_message message uid (heap_of s) c).1.1,
     set_safety_monitor (Safety.self (Safety.monitor_message message uid (heap_of s) c).1.2) s,
     (Safety.monitor_message message uid (heap_of s) c).2).
Proof.
  pose proof (zoom_monitor_message message uid s c) as H2.
  pose proof (zoom_monitor_message_result message uid s c) as H1.
  assert (H3 : (zoom heap_of store_heap (Safety.monitor_message message uid) s c).2
               = (Safety.monitor_message message uid (heap_of s) c).2).
  { unfold zoom. destruct (Safety.monitor_message message uid (heap_of s) c) as [[? ?] ?].
    reflexivity. }
  destruct (zoom heap_of store_heap (Safety.monitor_message message uid) s c) as [[a s1] c1].
  cbn [fst snd] in *. congruence.
Qed.

Lemma monitor_safety_stages message s c :
  _monitor_safety message s c
  = let r := Safety.monitor_message message (user_id s) (heap_of s) c in
    let stored := for_each r.1.1 store_alert (set_safety_monitor (Safety.self r.1.2) s) r.2 in
    conclude stored.1.2 stored.2.
Proof.
  unfold _monitor_safety.
  rewrite bind_run. unfold get at 1. cbn [fst snd].
  rewrite bind_run, zoom_monitor_message_run. cbn [fst snd].
  rewrite bind_run. cbv zeta. change (get s c) with (s, s, c). cbn [fst snd].
  generalize (for_each (Safety.monitor_message message (user_id s) (heap_of s) c).1.1 store_alert
    (set_safety_monitor
       (Safety.self (Safety.monitor_message message (user_id s) (heap_of s) c).1.2) s)
    (Safety.monitor_message message (user_id s) (heap_of s) c).2).
  intros [[[] s2] c2]. cbn [fst snd]. unfold conclude, urgent.
  cbv beta iota zeta delta [bind get update_profile modify add_insight time_time ret tick].
  cbn [fst snd safety_monitor user_id set_user_profile user_profile].
  destruct (bool_decide (Safety.get_escalation_alerts (safety_monitor s2) ≠ []));
    reflexivity.
Qed.

Lemma store_alerts_surroundings found s c :
  surroundings (for_each found store_alert s c).1.2 = surroundings s.
Proof.
  assert (H : keeps surroundings (for_each found store_alert)).
  { apply keeps_for_each. intros alert. unfold store_alert, add_insight. keeps_auto. }
  apply H.
Qed.

(** The log after the safety pass: the alerts of the message are appended. *)
Lemma monitor_safety_log message s c :
  Safety.alerts (safety_monitor (_monitor_safety message s c).1.2)
  = Safety.alerts (safety_monitor s)
    ++ (Safety.monitor_message message (user_id s) (heap_of s) c).1.1.
Proof.
  rewrite monitor_safety_monitor, SafetyFacts.monitor_message_heap. reflexivity.
Qed.

Lemma monitor_safety_recommendations message s c :
  let s' := (_monitor_safety message s c).1.2 in
  safety_recommendations (user_profile s')
  = Safety.get_safety_recommendations (safety_monitor s') (user_id s').
Proof.
  cbv zeta. rewrite monitor_safety_stages. cbv zeta.
  generalize (for_each (Safety.monitor_message message (user_id s) (heap_of s) c).1.1 store_alert
    (set_safety_monitor
       (Safety.self (Safety.monitor_message message (user_id s) (heap_of s) c).1.2) s)
    (Safety.monitor_message message (user_id s) (heap_of s) c).2).
  intros [[[] s2] c2]. cbn [fst snd]. unfold conclude.
  destruct (bool_decide _); reflexivity.
Qed.



(** ** What every call keeps true *)

Lemma perform_all_invariant (P : UserMemory -> Prop) cap calls :
  (forall call s c, P s -> P (perform cap call s c).1.2) ->
  forall s c, P s -> P (perform_all cap calls s c).1.2.
Proof.
  intros Hstep. unfold perform_all.
  induction calls as [|call calls IH]; intros s c Hs; cbn [for_each]; [exact Hs|].
  rewrite bind_run. apply IH, Hstep, Hs.
Qed.

Lemma add_insight_surroundings insight : keeps surroundings (add_insight insight).
Proof. unfold add_insight. keeps_auto. Qed.

(** *** The profile mirrors the monitor *)

Lemma mirrors_same s s' :
  user_id s' = user_id s -> safety_monitor s' = safety_monitor s ->
  safety_alerts (user_profile s') = safety_alerts (user_profile s) ->
  safety_recommendations (user_profile s') = safety_recommendations (user_profile s) ->
  mirrors s -> mirrors s'.
Proof.
  intros Hid Hmon Halerts Hrecs [H1 H2 H3].
  split; rewrite ?Hid, ?Hmon, ?Halerts, ?Hrecs; assumption.
Qed.

Lemma monitor_safety_user_id message s c :
  user_id (_monitor_safety message s c).1.2 = user_id s.
Proof.
  pose proof (monitor_safety_but_safety message s c) as H. unfold but_safety in H.
  congruence.
Qed.

Lemma monitor_safety_mirrors message s c :
  mirrors s -> mirrors (_monitor_safety message s c).1.2.
Proof.
  intros [Halerts Howner _]. split.
  - rewrite monitor_safety_alerts, monitor_safety_log, fmap_app, Halerts. reflexivity.
  - rewrite monitor_safety_log, monitor_safety_user_id. apply Forall_app. split; [exact Howner|].
    destruct (MoreSafetyFacts.monitor_message_stamps message (user_id s) (heap_of s) c)
      as [_ Hstamped].
    apply Forall_lookup. intros i a Hi. apply (Hstamped i a Hi).
  - right. apply monitor_safety_recommendations.
Qed.

Lemma add_message_mirrors cap role content s c :
  mirrors s -> mirrors (add_message cap role content s c).1.2.
Proof.
  intros Hs. rewrite add_message_run.
  assert (H0 : mirrors (appended cap role content s c))
    by (revert Hs; apply mirrors_same; reflexivity).
  destruct (String.eqb role "user"); [|exact H0].
  rewrite bind_run. apply monitor_safety_mirrors.
  pose proof (update_user_profile_safety_side content (appended cap role content s c) (tick c))
    as Hside.
  unfold safety_side in Hside. revert H0. apply mirrors_same; congruence.
Qed.

Lemma perform_mirrors cap call s c : mirrors s -> mirrors (perform cap call s c).1.2.
Proof.
  destruct call as [role content|goal value|insight]; cbn [perform].
  - apply add_message_mirrors.
  - apply mirrors_same; reflexivity.
  - apply mirrors_same; reflexivity.
Qed.

(** X10.  Whatever calls were made on a new [UserMemory], its profile
    mirrors its safety monitor: the stored alerts are the log of the
    monitor, flattened, in the same order; every alert of the log was
    raised for the user of the memory; and the stored recommendations are
    those the monitor gives for the user (or none, as long as nothing was
    logged). *)
Theorem profile_mirrors_monitor cap user_id c calls :
  mirrors (after cap user_id c calls).
Proof.
  unfold after. apply perform_all_invariant; [intros call s c'; apply perform_mirrors|].
  split; [reflexivity|constructor|left; split; reflexivity].
Qed.


(** *** The urgent insight *)






(** *** Nothing is forgotten *)

Lemma grown_refl s : grown s s.
Proof. repeat split; reflexivity. Qed.

Lemma grown_trans s1 s2 s3 : grown s1 s2 -> grown s2 s3 -> grown s1 s3.
Proof.
  intros (Hid & Hg & Hi & Ha & Hl) (Hid' & Hg' & Hi' & Ha' & Hl').
  repeat split; [congruence|etransitivity; eassumption..].
Qed.

Lemma grows_ret {A} (a : A) : grows (ret a).
Proof. intros s c. apply grown_refl. Qed.

Lemma grows_get : grows get.
Proof. intros s c. apply grown_refl. Qed.

Lemma grows_time_time : grows time_time.
Proof. intros s c. apply grown_refl. Qed.

Lemma grows_bind {A B} (m : M UserMemory A) (f : A -> M UserMemory B) :
  grows m -> (forall a, grows (f a)) -> grows (bind m f).
Proof.
  intros Hm Hf s c. rewrite bind_run. eapply grown_trans; [apply Hm|apply Hf].
Qed.

Lemma grows_for_each {A} (l : list A) (body : A -> M UserMemory unit) :
  (forall x, grows (body x)) -> grows (for_each l body).
Proof.
  intros Hbody. induction l as [|x l IH]; cbn [for_each].
  - apply grows_ret.
  - apply grows_bind; [apply Hbody|intros _; exact IH].
Qed.

Lemma grows_update_profile f :
  (forall p, goals p `prefix_of` goals (f p)
             /\ insights p `prefix_of` insights (f p)
             /\ safety_alerts p `prefix_of` safety_alerts (f p)) ->
  grows (update_profile f).
Proof.
  intros H s c. destruct (H (user_profile s)) as (Hg & Hi & Ha).
  repeat split; try assumption; reflexivity.
Qed.

Lemma grows_set_conversation_history f :
  grows (modify (fun self => set_conversation_history (f self) self)).
Proof. intros s c. repeat split; reflexivity. Qed.

Ltac grows_step :=
  first
    [ apply grows_ret | apply grows_get | apply grows_time_time
    | apply grows_bind; [|intros ?]
    | apply grows_for_each; intros ?
    | apply grows_update_profile; intros ?;
      cbn [goals insights safety_alerts set_goals set_progress set_insights set_preferences
           set_performance_metrics set_mental_state set_safety_alerts
           set_safety_recommendations];
      repeat split; first [reflexivity | apply prefix_app_r; reflexivity]
    | match goal with
      | |- grows (if ?b then _ else _) => destruct b
      | |- grows (let '(_, _) := ?x in _) => destruct x
      | |- grows (match ?x with (_, _) => _ end) => destruct x
      end ].

Ltac grows_auto := repeat grows_step.

Lemma add_insight_grows insight : grows (add_insight insight).
Proof. unfold add_insight. grows_auto. Qed.

Lemma update_progress_grows goal value : grows (update_progress goal value).
Proof. unfold update_progress. grows_auto. Qed.

Lemma scan_goal_keywords_grows keywords message message_lower :
  grows (scan_goal_keywords keywords message message_lower).
Proof.
  induction keywords as [|keyword rest IH]; cbn [scan_goal_keywords].
  - grows_auto.
  - destruct (contains keyword message_lower); [|exact IH].
    unfold add_insight. grows_auto.
Qed.

Lemma extract_preferences_grows message message_lower :
  grows (_extract_preferences message message_lower).
Proof. unfold _extract_preferences. grows_auto. Qed.

Lemma extract_emotions_grows message message_lower :
  grows (_extract_emotions_and_insights message message_lower).
Proof. unfold _extract_emotions_and_insights, add_insight. grows_auto. Qed.

Lemma extract_performance_metrics_grows message message_lower :
  grows (_extract_performance_metrics message message_lower).
Proof. unfold _extract_performance_metrics. grows_auto. Qed.

Lemma scan_goals_grows gs contains_progress : grows (scan_goals gs contains_progress).
Proof.
  induction gs as [|goal rest IH]; cbn [scan_goals].
  - grows_auto.
  - destruct (_ && _); [|exact IH].
    unfold update_progress, add_insight. grows_auto.
Qed.

Lemma extract_mental_state_grows message message_lower :
  grows (_extract_mental_state message message_lower).
Proof. unfold _extract_mental_state. grows_auto. apply scan_goals_grows. Qed.

Lemma update_user_profile_grows message : grows (_update_user_profile message).
Proof.
  unfold _update_user_profile, _extract_goals, _extract_progress_updates.
  apply grows_bind; [apply scan_goal_keywords_grows|intros _].
  apply grows_bind; [apply extract_preferences_grows|intros _].
  apply grows_bind; [apply extract_emotions_grows|intros _].
  apply grows_bind; [apply grows_ret|intros _].
  apply grows_bind; [apply extract_performance_metrics_grows|intros _].
  apply extract_mental_state_grows.
Qed.

Lemma zoom_monitor_message_grows message uid :
  grows (zoom heap_of store_heap (Safety.monitor_message message uid)).
Proof.
  intros s c. rewrite zoom_monitor_message_run. cbn [fst snd].
  repeat split; try reflexivity.
  cbn [safety_monitor set_safety_monitor].
  rewrite SafetyFacts.monitor_message_heap. cbn. apply prefix_app_r. reflexivity.
Qed.

Lemma monitor_safety_grows message : grows (_monitor_safety message).
Proof.
  unfold _monitor_safety, store_alert, add_insight.
  apply grows_bind; [apply grows_get|intros self].
  apply grows_bind; [apply zoom_monitor_message_grows|intros found].
  grows_auto.
Qed.

Lemma add_message_grows cap role content : grows (add_message cap role content).
Proof.
  unfold add_message.
  apply grows_bind; [apply grows_time_time|intros now].
  apply grows_bind; [apply grows_set_conversation_history|intros _].
  apply grows_bind; [apply grows_get|intros self].
  apply grows_bind.
  - destruct (_ <? _); [|apply grows_ret].
    apply (grows_set_conversation_history (fun _ => _)).
  - intros _. destruct (String.eqb role "user"); [|apply grows_ret].
    apply grows_bind; [apply update_user_profile_grows|intros _].
    apply monitor_safety_grows.
Qed.

Lemma perform_grows cap call : grows (perform cap call).
Proof.
  destruct call as [role content|goal value|insight]; cbn [perform].
  - apply add_message_grows.
  - apply update_progress_grows.
  - apply add_insight_grows.
Qed.

(** X12.  Nothing is forgotten.  Whatever further calls are made, the goals,
    the insights, the stored alerts and the log of the monitor keep what
    they held, in the same order, and only grow at the end; the user of
    the memory stays the same.  (The conversation history, in contrast, is
    cut to the cap.) *)
Theorem profile_only_grows cap user_id c calls more :
  grown (after cap user_id c calls) (after cap user_id c (calls ++ more)).
Proof.
  unfold after, perform_all. rewrite for_each_app.
  apply grows_for_each. intros call. apply perform_grows.
Qed.


(** *** The stored preferences *)

Lemma sentence_after_has_word message message_lower start :
  truthy (sentence_after message message_lower start) = true ->
  has_word (sentence_after message message_lower start) = true.
Proof. unfold sentence_after. cbv zeta. apply PyStrFacts.strip_has_word. Qed.

Lemma store_preference_run category preference prefs :
  store_preference category preference prefs
  = match prefs !! category with
    | None => <[category := [preference]]> prefs
    | Some stored =>
        if bool_decide (preference ∉ stored) then <[category := stored ++ [preference]]> prefs
        else prefs
    end.
Proof.
  unfold store_preference. destruct (prefs !! category) as [stored|] eqn:E.
  - rewrite E. reflexivity.
  - rewrite lookup_insert_eq. cbn [default].
    rewrite bool_decide_eq_true_2 by apply not_elem_of_nil.
    now rewrite insert_insert_eq.
Qed.

Lemma store_preference_tidy category preference prefs :
  category ∈ preference_categories -> has_word preference = true ->
  preferences_tidy prefs -> preferences_tidy (store_preference category preference prefs).
Proof.
  intros Hcat Hword Htidy. rewrite store_preference_run.
  destruct (prefs !! category) as [stored|] eqn:E.
  - destruct (bool_decide (preference ∉ stored)) eqn:Hnew; [|exact Htidy].
    apply bool_decide_eq_true_1 in Hnew.
    destruct (Htidy category stored E) as (_ & _ & Hdistinct & Hwords).
    intros k items. destruct (decide (category = k)) as [<-|Hne].
    + rewrite lookup_insert_eq. intros [= <-]. split; [exact Hcat|]. split.
      * intros [_ H]%app_eq_nil. discriminate.
      * split.
        -- apply NoDup_app. split; [exact Hdistinct|]. split; [|apply NoDup_singleton].
           intros x Hx ->%list_elem_of_singleton. contradiction.
        -- apply Forall_app. split; [exact Hwords|]. now constructor.
    + rewrite lookup_insert_ne by exact Hne. apply Htidy.
  - intros k items. destruct (decide (category = k)) as [<-|Hne].
    + rewrite lookup_insert_eq. intros [= <-]. split; [exact Hcat|]. split; [discriminate|].
      split; [apply NoDup_singleton|]. now constructor.
    + rewrite lookup_insert_ne by exact Hne. apply Htidy.
Qed.

Lemma for_each_invariant {A} (P : UserMemory -> Prop) (l : list A)
    (body : A -> M UserMemory unit) :
  (forall x, x ∈ l -> forall s c, P s -> P (body x s c).1.2) ->
  forall s c, P s -> P (for_each l body s c).1.2.
Proof.
  induction l as [|x l IH]; intros Hbody s c Hs; cbn [for_each]; [exact Hs|].
  rewrite bind_run. apply IH.
  - intros y Hy. apply Hbody. now apply list_elem_of_further.
  - apply Hbody; [apply list_elem_of_here|exact Hs].
Qed.

Lemma extract_preferences_tidy message message_lower s c :
  preferences_tidy (preferences (user_profile s)) ->
  preferences_tidy
    (preferences (user_profile (_extract_preferences message message_lower s c).1.2)).
Proof.
  unfold _extract_preferences.
  apply (for_each_invariant (fun s => preferences_tidy (preferences (user_profile s)))).
  intros [phrase category] Hin s0 c0 Hs0.
  destruct (contains phrase message_lower); [|exact Hs0].
  cbv zeta.
  destruct (truthy (sentence_after message message_lower _)) eqn:Htruthy; [|exact Hs0].
  cbn [update_profile modify fst snd user_profile set_user_profile preferences set_preferences].
  apply store_preference_tidy; [|now apply sentence_after_has_word|exact Hs0].
  assert (Hcat : category ∈ preference_phrases.*2)
    by (apply list_elem_of_fmap; now exists (phrase, category)).
  revert Hcat. generalize category.
  apply Forall_forall. unfold preference_phrases, preference_categories.
  repeat constructor; set_solver.
Qed.

Lemma update_user_profile_tidy message s c :
  preferences_tidy (preferences (user_profile s)) ->
  preferences_tidy (preferences (user_profile (_update_user_profile message s c).1.2)).
Proof.
  intros Hs. unfold _update_user_profile, _extract_goals, _extract_progress_updates.
  rewrite !bind_run. unfold ret. cbn [fst snd].
  set (r1 := scan_goal_keywords goal_keywords message (lower message) s c).
  set (r2 := _extract_preferences message (lower message) r1.1.2 r1.2).
  set (r3 := _extract_emotions_and_insights message (lower message) r2.1.2 r2.2).
  set (r5 := _extract_performance_metrics message (lower message) r3.1.2 r3.2).
  pose proof (scan_goal_keywords_rest goal_keywords message (lower message) s c) as H1.
  pose proof (extract_preferences_tidy message (lower message) r1.1.2 r1.2) as H2.
  pose proof (extract_emotions_rest message (lower message) r2.1.2 r2.2) as H3.
  pose proof (extract_performance_metrics_rest message (lower message) r3.1.2 r3.2) as H5.
  pose proof (extract_mental_state_rest message (lower message) r5.1.2 r5.2) as H6.
  fold r1 in H1, H2. fold r2 in H2, H3. fold r3 in H3, H5. fold r5 in H5, H6.
  cbv beta delta [but_insights but_goals_progress_insights but_performance_metrics
                  but_mental_progress_insights] in *.
  assert (E6 : preferences (user_profile
                 (_extract_mental_state message (lower message) r5.1.2 r5.2).1.2)
               = preferences (user_profile r2.1.2)) by congruence.
  rewrite E6. apply H2.
  assert (E1 : preferences (user_profile r1.1.2) = preferences (user_profile s)) by congruence.
  rewrite E1. exact Hs.
Qed.

Lemma perform_tidy cap call s c :
  preferences_tidy (preferences (user_profile s)) ->
  preferences_tidy (preferences (user_profile (perform cap call s c).1.2)).
Proof.
  destruct call as [role content|goal value|insight]; cbn [perform]; intros Hs;
    [|exact Hs|exact Hs].
  rewrite add_message_run. destruct (String.eqb role "user"); [|exact Hs].
  rewrite bind_run.
  pose proof (monitor_safety_but_safety content
    (_update_user_profile content (appended cap role content s c) (tick c)).1.2
    (_update_user_profile content (appended cap role content s c) (tick c)).2) as Hm.
  unfold but_safety in Hm.
  assert (E : forall x y,
    but_safety x = but_safety y -> preferences (user_profile x) = preferences (user_profile y))
    by (unfold but_safety; intros x y H; congruence).
  rewrite (E _ _ Hm). apply update_user_profile_tidy. exact Hs.
Qed.

(** X13.  The stored preferences stay tidy.  After any calls on a new
    memory, every category of the preferences is one of "preference",
    "like", "enjoy" and "dislike", and its list is not empty, holds no
    text twice and holds only texts with a visible character. *)
Theorem preferences_stay_tidy cap user_id c calls category items :
  preferences (user_profile (after cap user_id c calls)) !! category = Some items ->
  category ∈ preference_categories /\ items <> [] /\ NoDup items
  /\ Forall (fun item => has_word item = true) items.
Proof.
  revert category items. change (preferences_tidy
    (preferences (user_profile (after cap user_id c calls)))).
  unfold after.
  apply (perform_all_invariant (fun s => preferences_tidy (preferences (user_profile s)))).
  - intros call s c'. apply perform_tidy.
  - intros category items. cbn. rewrite lookup_empty. discriminate.
Qed.

Lemma preferences_stay_tidy_witness :
  "like" ∈ preference_categories /\ ["running"; "to swim"] <> [] /\ NoDup ["running"; "to swim"]
  /\ Forall (fun item => has_word item = true) ["running"; "to swim"].
Proof.
  apply (preferences_stay_tidy 10 "athlete" SafetyTerms.counting_clock
           [AddMessage "user" "I like running. And I love to swim"; 
            AddMessage "user" "i LIKE running"] "like").
  vm_compute. reflexivity.
Defined.


(** *** The counts of the safety status *)

Lemma last_hour_counts alerts : forall s c,
  (length (last_hour alerts s c).1.1 <= length alerts)%nat
  /\ (last_hour alerts s c).2 = MoreSafetyTerms.later c (length alerts).
Proof.
  induction alerts as [|x rest IH]; intros s c.
  - cbn. split; [lia|]. destruct c. unfold MoreSafetyTerms.later. cbn. f_equal. lia.
  - cbn [last_hour]. cbv beta iota zeta delta [bind time_time ret].
    specialize (IH s {| time_source := time_source c; reads := S (reads c) |}).
    destruct (last_hour rest s _) as [[kept s1] c1]. cbn [fst snd] in *.
    destruct IH as [Hlen Hclock]. split.
    + destruct (Qltb _ _); cbn [length]; lia.
    + rewrite Hclock. unfold MoreSafetyTerms.later. cbn. f_equal. lia.
Qed.

(** X14.  In every safety status the counts are ordered, critical alerts
    within recent alerts within all stored alerts, and none is negative;
    computing the status reads the clock once for each stored alert. *)
Theorem status_counts_are_ordered s c :
  let status := (get_safety_status s c).1.1 in
  0 <= critical_alerts status <= recent_alerts status
  /\ recent_alerts status <= total_alerts status
  /\ (get_safety_status s c).2
     = MoreSafetyTerms.later c (length (safety_alerts (user_profile s))).
Proof.
  cbv zeta. unfold get_safety_status. cbv beta iota zeta delta [bind get ret].
  destruct (last_hour_counts (safety_alerts (user_profile s)) s c) as [Hlen Hclock].
  destruct (last_hour_run (safety_alerts (user_profile s)) s c) as [Hs _].
  destruct (last_hour _ s c) as [[recent s1] c1]. cbn [fst snd] in *. subst s1.
  cbn [critical_alerts recent_alerts total_alerts].
  pose proof (List.filter_length_le is_critical recent) as Hcrit.
  repeat split; try lia. exact Hclock.
Qed.

End MoreMemoryFacts.


(** ** The sports extractors *)

Module SportsFacts.
Import PyStr Sports.

Lemma startswith_nil_r p : startswith p "" = true -> p = "".
Proof. destruct p; [reflexivity|discriminate]. Qed.

Lemma startswith_trans a b s :
  startswith a b = true -> startswith b s = true -> startswith a s = true.
Proof.
  revert b s. induction a as [|x a IH]; intros b s Hab Hbs; [reflexivity|].
  destruct b as [|y b]; [discriminate|]. destruct s as [|z s]; [discriminate|].
  cbn [startswith] in *.
  destruct (Ascii.eqb x y) eqn:Exy; [|discriminate].
  destruct (Ascii.eqb y z) eqn:Eyz; [|discriminate].
  apply Ascii.eqb_eq in Exy, Eyz. subst. rewrite Ascii.eqb_refl. eapply IH; eassumption.
Qed.

Lemma contains_startswith a b : forall s,
  contains a b = true -> startswith b s = true -> contains a s = true.
Proof.
  induction b as [|y b IH]; intros s Hab Hbs.
  - cbn in Hab. rewrite orb_false_r in Hab. apply startswith_nil_r in Hab. subst a.
    destruct s; reflexivity.
  - destruct s as [|z s]; [discriminate|].
    cbn [contains] in Hab. apply orb_true_iff in Hab as [Hab|Hab].
    + apply PyStrFacts.startswith_contains. eapply startswith_trans; eassumption.
    + cbn [startswith] in Hbs. destruct (Ascii.eqb y z); [|discriminate].
      apply PyStrFacts.contains_tail. now apply IH.
Qed.

(** A part of a part is a part. *)
Lemma contains_trans a b s :
  contains a b = true -> contains b s = true -> contains a s = true.
Proof.
  intros Hab. induction s as [|z s IH]; intros Hbs.
  - cbn in Hbs. rewrite orb_false_r in Hbs. eapply contains_startswith; eassumption.
  - cbn [contains] in Hbs. apply orb_true_iff in Hbs as [Hbs|Hbs].
    + eapply contains_startswith; eassumption.
    + apply PyStrFacts.contains_tail. now apply IH.
Qed.

(** A keyword that holds an earlier keyword of its table is never reached. *)
Lemma shadowed a b s : contains a b = true -> contains a s = false -> contains b s = false.
Proof.
  intros Hab Has. destruct (contains b s) eqn:Hbs; [|reflexivity].
  rewrite (contains_trans a b s Hab Hbs) in Has. discriminate.
Qed.

Lemma extract_mental_state_lookup message :
  let found := extract_mental_state message in
  found !! "confidence" = first_keyword confidence_keywords (lower message)
  /\ found !! "anxiety" = first_keyword anxiety_keywords (lower message)
  /\ found !! "focus" = first_keyword focus_keywords (lower message)
  /\ found !! "motivation" = first_keyword motivation_keywords (lower message).
Proof.
  cbv zeta. unfold extract_mental_state, record_level. cbv zeta.
  destruct (first_keyword confidence_keywords (lower message));
    destruct (first_keyword anxiety_keywords (lower message));
    destruct (first_keyword focus_keywords (lower message));
    destruct (first_keyword motivation_keywords (lower message));
    repeat split;
    repeat first [ rewrite lookup_insert_eq | rewrite lookup_insert_ne by discriminate
                 | rewrite lookup_empty ];
    reflexivity.
Qed.

Ltac first_keyword_cases :=
  cbn [first_keyword];
  repeat match goal with
    | |- context [if contains ?k ?s then _ else _] =>
        destruct (contains k s) eqn:?; [set_solver|]
    | H : contains ?a ?s = false |- context [contains ?b ?s] =>
        rewrite (shadowed a b s eq_refl H)
    end.

(** X15.  The level tables of [extract_mental_state] are scanned in order
    and a keyword that holds an earlier one is never reached: whatever the
    message, the recorded confidence is 5, 4 or 0, the anxiety 5, 4, 3 or
    0, the focus 5, 4, 2 or 0 and the motivation 5 or 4 (or the entry is
    absent).  The levels of "somewhat confident", "not very confident",
    "unconfident", "unmotivated" and the like are never recorded, such a
    message is given the level of the shorter keyword it holds. *)
Theorem mental_levels_that_occur message :
  let found := extract_mental_state message in
  found !! "confidence" ∈ [None; Some 5; Some 4; Some 0]
  /\ found !! "anxiety" ∈ [None; Some 5; Some 4; Some 3; Some 0]
  /\ found !! "focus" ∈ [None; Some 5; Some 4; Some 2; Some 0]
  /\ found !! "motivation" ∈ [None; Some 5; Some 4]
  /\ (contains "motivated" (lower message) = true -> found !! "motivation" <> None)
  /\ (contains "confident" (lower message) = true ->
      found !! "confidence" ∈ [Some 5; Some 4]).
Proof.
  cbv zeta. destruct (extract_mental_state_lookup message) as (-> & -> & -> & ->).
  unfold confidence_keywords, anxiety_keywords, focus_keywords, motivation_keywords.
  generalize (lower message). intros s.
  repeat split.
  - first_keyword_cases. set_solver.
  - first_keyword_cases. set_solver.
  - first_keyword_cases. set_solver.
  - first_keyword_cases. set_solver.
  - intros H. cbn [first_keyword]. rewrite H.
    destruct (contains "highly motivated" s); intros [=].
  - intros H. cbn [first_keyword]. rewrite H.
    destruct (contains "very confident" s); set_solver.
Qed.

Lemma mental_levels_that_occur_witness :
  extract_mental_state "I am not very confident and quite unmotivated" !! "motivation" <> None
  /\ extract_mental_state "I am not very confident and quite unmotivated" !! "confidence"
     ∈ [Some 5; Some 4].
Proof.
  split.
  - apply (mental_levels_that_occur "I am not very confident and quite unmotivated").
    reflexivity.
  - apply (mental_levels_that_occur "I am not very confident and quite unmotivated").
    reflexivity.
Defined.

End SportsFacts.

(** ** The mock responses *)

Module ResponsesFacts.
Import PyStr Profile Responses ResponsesTerms.

(** The styles the agent can hand over: a known name gives its entry, any
    other name the entry of the default style. *)
Lemma style_config_cases name style :
  style_config name = Some style ->
  description style ∈ ["Encouraging and positive coaching style";
                       "Challenging coaching style that pushes the user";
                       "Analytical coaching style focused on data and insights"]
  /\ (description style = "Challenging coaching style that pushes the user"
      -> name = "challenging").
Proof.
  unfold style_config, COACHING_STYLES, DEFAULT_COACHING_STYLE.
  rewrite lookup_insert_eq. cbn [mbind option_bind].
  destruct (decide (name = "supportive")) as [->|H1].
  { rewrite lookup_insert_eq. intros [= <-]. cbn. split; [set_solver|discriminate]. }
  rewrite lookup_insert_ne by congruence.
  destruct (decide (name = "challenging")) as [->|H2].
  { rewrite lookup_insert_eq. intros [= <-]. cbn. split; [set_solver|reflexivity]. }
  rewrite lookup_insert_ne by congruence.
  destruct (decide (name = "analytical")) as [->|H3].
  { rewrite lookup_insert_eq. intros [= <-]. cbn. split; [set_solver|discriminate]. }
  rewrite lookup_insert_ne by congruence.
  rewrite lookup_empty. intros [= <-]. cbn. split; [set_solver|discriminate].
Qed.

(** X16.  With the styles of the configuration the answers written for the
    supportive style are never given: no description starts with
    "Supportive", so whatever style name the agent holds and whatever the
    message, the mock response is none of the three supportive answers;
    and unless the message is answered as a greeting, every style other
    than "challenging" gets exactly the answer of the analytical style. *)
Theorem supportive_answers_are_never_given name style message profile status :
  style_config name = Some style ->
  (_get_mock_coaching_response message profile style status ∉ supportive_answers)
  /\ (forall analytical,
        style_config "analytical" = Some analytical ->
        name <> "challenging" ->
        escalation_asked status = true \/ any_in greetings (lower message) = false ->
        _get_mock_coaching_response message profile style status
        = _get_mock_coaching_response message profile analytical status).
Proof.
  intros Hstyle. destruct (style_config_cases name style Hstyle) as [Hdesc Hchallenging].
  rewrite !elem_of_cons, elem_of_nil in Hdesc.
  split.
  - unfold _get_mock_coaching_response, supportive_answers. cbv zeta.
    assert (Hno : startswith "Supportive" (description style) = false)
      by (destruct Hdesc as [->|[->|[->|[]]]]; reflexivity).
    rewrite Hno.
    destruct (escalation_asked status); [|destruct (any_in greetings (lower message))].
    + rewrite !elem_of_cons, elem_of_nil. intros [H|[H|[H|[]]]]; discriminate H.
    + destruct status as [st|]; [destruct (0 <? Memory.recent_alerts st)|];
        rewrite !elem_of_cons, elem_of_nil; intros [H|[H|[H|[]]]]; discriminate H.
    + destruct (any_in goal_words _); [|destruct (any_in challenges _);
        [|destruct (any_in progress_words _); [|destruct (any_in sports_terms _)]]];
        destruct (startswith "Challenging" (description style));
        rewrite !elem_of_cons, elem_of_nil; intros [H|[H|[H|[]]]]; discriminate H.
  - intros analytical Hanalytical Hname Hgreeting.
    assert (description analytical = "Analytical coaching style focused on data and insights")
      as Ha by (vm_compute in Hanalytical; injection Hanalytical as <-; reflexivity).
    unfold _get_mock_coaching_response. cbv zeta. rewrite Ha.
    assert (Hs : startswith "Supportive" (description style) = false
                 /\ startswith "Challenging" (description style) = false).
    { destruct Hdesc as [->|[Hd|[->|[]]]]; [split; reflexivity| |split; reflexivity].
      now apply Hchallenging in Hd. }
    destruct Hs as [-> ->].
    destruct (escalation_asked status); [reflexivity|].
    destruct Hgreeting as [Hg|Hg]; [discriminate|]. rewrite Hg. reflexivity.
Qed.

Lemma supportive_answers_are_never_given_witness :
  (_get_mock_coaching_response "This drill is too hard for me" empty_profile
     {| description := "Encouraging and positive coaching style";
        prompt_template := "You are a supportive coach helping the user achieve their goals. Be encouraging and positive." |}
     None)
  ∉ supportive_answers.
Proof.
  apply (supportive_answers_are_never_given "supportive" _ "This drill is too hard for me"
           empty_profile None).
  vm_compute. reflexivity.
Defined.

(** X17.  Greetings are found as parts of words.  A message whose lowercased
    text holds a word with "hi" inside it ("achieve", "this", "coaching",
    "something") is answered as a greeting, whatever else it says, unless
    the status asks for escalation; so the goal word "achieve" never
    leads to the goal answer. *)
Theorem words_holding_hi_are_greeted word message profile style status :
  contains "hi" word = true ->
  contains word (lower message) = true ->
  escalation_asked status = false ->
  _get_mock_coaching_response message profile style status = greeting_answer style status.
Proof.
  intros Hword Hmessage Hcalm.
  pose proof (SportsFacts.contains_trans _ _ _ Hword Hmessage) as Hhi.
  unfold _get_mock_coaching_response, greeting_answer. cbv zeta. rewrite Hcalm.
  assert (Hany : any_in greetings (lower message) = true).
  { unfold any_in, greetings. cbn [existsb]. rewrite Hhi.
    destruct (contains "hello" _); reflexivity. }
  rewrite Hany. reflexivity.
Qed.

Lemma words_holding_hi_are_greeted_witness :
  _get_mock_coaching_response "I want to achieve a faster mile" empty_profile
    {| description := "Challenging coaching style that pushes the user";
       prompt_template := "" |} None
  = greeting_answer {| description := "Challenging coaching style that pushes the user";
                       prompt_template := "" |} None.
Proof.
  apply (words_holding_hi_are_greeted "achieve"); reflexivity.
Defined.

End ResponsesFacts.

(** ** The performance log *)

Module PerformanceFacts.
Import PyStr Performance PerformanceTerms.








(** X19.  A number logged for a metric whose stored value is a text makes
    [log_performance] raise a TypeError in the abnormality check, after
    the entry has been appended to the history: the history keeps the
    entry of the call that raised, metrics and abnormalities are as
    before. *)
Theorem number_after_text_raises event_type key v text p c :
  metrics p !! key = Some (Other text) ->
  let r := log_performance event_type [(key, Number v)] "" p c in
  r.1.1 = Raised TypeError
  /\ performance_history r.1.2
     = performance_history p
       ++ [{| entry_timestamp := time_source c (reads c); event_type := event_type;
              entry_metrics := [(key, Number v)]; notes := "" |}]
  /\ metrics r.1.2 = metrics p
  /\ abnormalities r.1.2 = abnormalities p.
Proof.
  intros Hstored. cbv zeta.
  unfold log_performance, _check_for_abnormalities.
  cbn [_update_metrics check_metrics entry_metrics].
  cbv beta iota zeta delta [bind ret get modify time_time].
  cbn [metrics set_performance_history]. unfold update_metric. rewrite Hstored.
  cbn [metrics set_metrics set_performance_history]. rewrite Hstored.
  cbn [fst snd performance_history metrics abnormalities set_metrics set_performance_history].
  auto.
Qed.

Lemma number_after_text_raises_witness :
  let p := (log_performance "test" [("pace", Other "fast")] ""
              (__init__ "athlete") SafetyTerms.counting_clock).1.2 in
  (log_performance "race" [("pace", Number 5)] "" p SafetyTerms.counting_clock).1.1
  = Raised TypeError.
Proof.
  intros p.
  apply (number_after_text_raises "race" "pace" 5 "fast" p SafetyTerms.counting_clock).
  reflexivity.
Defined.

(** *** The running average *)







End PerformanceFacts.
